(** * The Matter device controller

    A shallow embedding of [matter_server/server/device_controller.py]
    (class [MatterDeviceController]) and the properties its specification
    states about it.

    Modelling conventions.
    - Python integers are unbounded: they are [Z], with no wrap-around.
    - A coroutine is a computation in the monad [M] below: a function of the
      controller state that returns, raises a Python exception, or never
      completes.  Every [await] of a collaborator (the Matter SDK wrapper,
      mDNS, ping) asks an oracle for its answer; the oracle is indexed by the
      number of interactions made so far, so a collaborator may answer
      differently on every call.
    - [MatterNodeData] instances are mutable objects that are shared between
      the registry [_nodes], the closures of a subscription and the payload of
      events.  They live in an object store ([heap]) and are passed around by
      reference ([loc]).
    - Everything the controller does to the outside world (SDK calls, sleeps,
      events, storage writes, created tasks) is appended to [trace], in
      program order.
    - Logging is not modelled. *)

From Stdlib Require Import ZArith Ascii String List Bool Lia.
From stdpp Require Import base option gmap sets list strings pretty.

Local Open Scope Z_scope.
Local Set Warnings "-register-all".

(** ** Constants of the module *)

Definition DATA_KEY_NODES : string := "nodes".
Definition DATA_KEY_LAST_NODE_ID : string := "last_node_id".

Definition NODE_SUBSCRIPTION_CEILING_WIFI : Z := 60.
Definition NODE_SUBSCRIPTION_CEILING_THREAD : Z := 60.
Definition NODE_SUBSCRIPTION_CEILING_BATTERY_POWERED : Z := 600.
Definition MAX_COMMISSION_RETRIES : Z := 3.
Definition NODE_RESUBSCRIBE_ATTEMPTS_UNAVAILABLE : Z := 3.
Definition NODE_RESUBSCRIBE_TIMEOUT_OFFLINE : Z := 30 * 60 * 1000.
Definition NODE_PING_TIMEOUT : Z := 10.
Definition NODE_PING_TIMEOUT_BATTERY_POWERED : Z := 60.
Definition CUSTOM_ATTRIBUTES_POLLER_INTERVAL : Z := 30.
Definition TEST_NODE_START : Z := 900000.

(** The three attribute paths are built by
    [create_attribute_path_from_attribute] from the cluster catalogue of the
    SDK; the values are the cluster and attribute ids of the Matter data
    model (ThreadNetworkDiagnostics 53 / RoutingRole 1, Descriptor 29 /
    PartsList 3, BasicInformation 40 / SoftwareVersion 9). *)
Definition ROUTING_ROLE_ATTRIBUTE_PATH : string := "0/53/1".
Definition DESCRIPTOR_PARTS_LIST_ATTRIBUTE_PATH : string := "0/29/3".
Definition BASIC_INFORMATION_SOFTWARE_VERSION_ATTRIBUTE_PATH : string := "0/40/9".

(** [RoutingRoleEnum.kSleepyEndDevice] of the SDK. *)
Definition kSleepyEndDevice : Z := 2.

(** ** Python values

    Decoded attribute values are heterogeneous.  [VStruct] is a TLV
    structure, which the SDK hands over as a [dict] keyed by integer tags.
    Floats and byte strings are left out. *)

Inductive Value : Type :=
| VNone
| VBool (b : bool)
| VInt (z : Z)
| VStr (s : string)
| VList (items : list Value)
| VStruct (fields : list (Z * Value)).

(** Values that can be members of a Python [set]. *)
Inductive Hashable : Type :=
| HNone
| HBool (b : bool)
| HInt (z : Z)
| HStr (s : string).

Fixpoint assoc {A : Type} (k : Z) (l : list (Z * A)) : option A :=
  match l with
  | [] => None
  | (k', v) :: l' => if k =? k' then Some v else assoc k l'
  end.

(** Python's [==]: [True == 1], lists compare element-wise, dicts compare as
    maps (their keys are unique). *)
Fixpoint py_eq (a b : Value) {struct a} : bool :=
  match a, b with
  | VNone, VNone => true
  | VBool x, VBool y => Bool.eqb x y
  | VBool x, VInt y => Z.b2z x =? y
  | VInt x, VBool y => x =? Z.b2z y
  | VInt x, VInt y => x =? y
  | VStr x, VStr y => String.eqb x y
  | VList xs, VList ys =>
      (fix all2 (xs ys : list Value) {struct xs} : bool :=
         match xs, ys with
         | [], [] => true
         | x :: xs', y :: ys' => py_eq x y && all2 xs' ys'
         | _, _ => false
         end) xs ys
  | VStruct fs, VStruct gs =>
      Nat.eqb (length fs) (length gs)
      && forallb (fun kv => match assoc (fst kv) gs with
                            | Some w => py_eq (snd kv) w
                            | None => false
                            end) fs
  | _, _ => false
  end.

(** Truth value of an object in a condition ([if x], [x or y]). *)
Definition truthy (v : Value) : bool :=
  match v with
  | VNone => false
  | VBool b => b
  | VInt z => negb (z =? 0)
  | VStr s => negb (String.eqb s "")
  | VList items => match items with [] => false | _ => true end
  | VStruct fields => match fields with [] => false | _ => true end
  end.

Definition hash_eq (a b : Hashable) : bool :=
  match a, b with
  | HNone, HNone => true
  | HBool x, HBool y => Bool.eqb x y
  | HBool x, HInt y => Z.b2z x =? y
  | HInt x, HBool y => x =? Z.b2z y
  | HInt x, HInt y => x =? y
  | HStr x, HStr y => String.eqb x y
  | _, _ => false
  end.

Definition hashable_of (v : Value) : option Hashable :=
  match v with
  | VNone => Some HNone
  | VBool b => Some (HBool b)
  | VInt z => Some (HInt z)
  | VStr s => Some (HStr s)
  | VList _ | VStruct _ => None
  end.

(** [str(x)], as an f-string renders it. *)
Definition py_str (h : Hashable) : string :=
  match h with
  | HNone => "None"
  | HBool true => "True"
  | HBool false => "False"
  | HInt z => pretty z
  | HStr s => s
  end.

(** ** Exceptions and outcomes *)

Inductive PyError : Type :=
| NodeNotExists
| NodeNotReady
| NodeCommissionFailed
| NodeInterviewFailed
| NodeNotResolving
| InvalidArguments
| ChipStackError
| CancelledError
| TypeError
| KeyError
| IndexError
| ValueError.

(** What running a coroutine yields.  [Pending]: it waits for ever (a
    collaborator that never answers, a semaphore that is never released).
    [Stuck] is an artefact of the model, never an outcome of the program: a
    loop was cut off by its fuel, or a reference does not point into the
    object store.  The loops below are given enough fuel for the first never
    to happen. *)
Inductive Outcome (A : Type) : Type :=
| Returns (a : A)
| Raises (e : PyError)
| Pending
| Stuck.
Arguments Returns {A} a.
Arguments Raises {A} e.
Arguments Pending {A}.
Arguments Stuck {A}.

Definition PyError_eqb (a b : PyError) : bool :=
  match a, b with
  | NodeNotExists, NodeNotExists | NodeNotReady, NodeNotReady
  | NodeCommissionFailed, NodeCommissionFailed
  | NodeInterviewFailed, NodeInterviewFailed
  | NodeNotResolving, NodeNotResolving
  | InvalidArguments, InvalidArguments
  | ChipStackError, ChipStackError
  | CancelledError, CancelledError
  | TypeError, TypeError | KeyError, KeyError
  | IndexError, IndexError | ValueError, ValueError => true
  | _, _ => false
  end.

(** Iteration over a value: a list yields its items, a string its
    characters, a dict its keys; anything else is not iterable. *)
Fixpoint chars (s : string) : list Value :=
  match s with
  | EmptyString => []
  | String c s' => VStr (String c EmptyString) :: chars s'
  end.

Definition py_iter (v : Value) : Outcome (list Value) :=
  match v with
  | VList items => Returns items
  | VStr s => Returns (chars s)
  | VStruct fields => Returns (map (fun kv => VInt (fst kv)) fields)
  | VNone | VBool _ | VInt _ => Raises TypeError
  end.

(** [x[0]]. *)
Definition py_getitem0 (x : Value) : Outcome Value :=
  match x with
  | VList [] => Raises IndexError
  | VList (y :: _) => Returns y
  | VStr EmptyString => Raises IndexError
  | VStr (String c _) => Returns (VStr (String c EmptyString))
  | VStruct fields =>
      match assoc 0 fields with
      | Some y => Returns y
      | None => Raises KeyError
      end
  | VNone | VBool _ | VInt _ => Raises TypeError
  end.

(** Sets are kept as duplicate-free lists.  Python leaves the iteration order
    of a set unspecified; the model uses the order of first occurrence. *)
Definition set_mem (h : Hashable) (s : list Hashable) : bool :=
  existsb (hash_eq h) s.

Fixpoint set_of_hashables (l : list Hashable) (acc : list Hashable)
  : list Hashable :=
  match l with
  | [] => acc
  | h :: l' => set_of_hashables l' (if set_mem h acc then acc else acc ++ [h])
  end.

Fixpoint hashables (l : list Value) : option (list Hashable) :=
  match l with
  | [] => Some []
  | v :: l' =>
      match hashable_of v, hashables l' with
      | Some h, Some hs => Some (h :: hs)
      | _, _ => None
      end
  end.

(** [set(v)]: [TypeError] when [v] is not iterable or has an unhashable
    item. *)
Definition py_set (v : Value) : Outcome (list Hashable) :=
  match py_iter v with
  | Returns items =>
      match hashables items with
      | Some hs => Returns (set_of_hashables hs [])
      | None => Raises TypeError
      end
  | Raises e => Raises e
  | Pending => Pending
  | Stuck => Stuck
  end.

(** [a - b] on sets. *)
Definition set_difference (a b : list Hashable) : list Hashable :=
  List.filter (fun h => negb (set_mem h b)) a.

(** [max] applied to unpacked arguments: with a single positional argument
    Python takes it to be an iterable, and an [int] is not one. *)
Definition py_max (args : list Z) : Outcome Z :=
  match args with
  | [] => Raises TypeError
  | [_] => Raises TypeError
  | x :: rest => Returns (fold_left Z.max rest x)
  end.

(** ** Data model *)

(** A reference to a [MatterNodeData] object. *)
Definition loc : Type := nat.

Record MatterNodeData : Type := {
  node_id : Z;
  date_commissioned : Z;
  last_interview : Z;
  interview_version : Z;
  available : bool;
  is_bridge : bool;
  attributes : gmap string Value;
  attribute_subscriptions : list (option Z * option Z * option Z);
}.

Definition with_node_id (i : Z) (n : MatterNodeData) : MatterNodeData :=
  {| node_id := i; date_commissioned := date_commissioned n;
     last_interview := last_interview n;
     interview_version := interview_version n; available := available n;
     is_bridge := is_bridge n; attributes := attributes n;
     attribute_subscriptions := attribute_subscriptions n |}.

Definition with_available (b : bool) (n : MatterNodeData) : MatterNodeData :=
  {| node_id := node_id n; date_commissioned := date_commissioned n;
     last_interview := last_interview n;
     interview_version := interview_version n; available := b;
     is_bridge := is_bridge n; attributes := attributes n;
     attribute_subscriptions := attribute_subscriptions n |}.

Definition with_is_bridge (b : bool) (n : MatterNodeData) : MatterNodeData :=
  {| node_id := node_id n; date_commissioned := date_commissioned n;
     last_interview := last_interview n;
     interview_version := interview_version n; available := available n;
     is_bridge := b; attributes := attributes n;
     attribute_subscriptions := attribute_subscriptions n |}.

Definition with_attributes (a : gmap string Value) (n : MatterNodeData)
  : MatterNodeData :=
  {| node_id := node_id n; date_commissioned := date_commissioned n;
     last_interview := last_interview n;
     interview_version := interview_version n; available := available n;
     is_bridge := is_bridge n; attributes := a;
     attribute_subscriptions := attribute_subscriptions n |}.

Definition with_attribute_subscriptions
  (s : list (option Z * option Z * option Z)) (n : MatterNodeData)
  : MatterNodeData :=
  {| node_id := node_id n; date_commissioned := date_commissioned n;
     last_interview := last_interview n;
     interview_version := interview_version n; available := available n;
     is_bridge := is_bridge n; attributes := attributes n;
     attribute_subscriptions := s |}.

Record CommissioningParameters : Type := {
  setup_pin_code : Z;
  setup_manual_code : string;
  setup_qr_code : string;
}.

(** The result object of the SDK's [open_commissioning_window]. *)
Record SdkCommissioningParameters : Type := {
  setupPinCode : Z;
  setupManualCode : string;
  setupQRCode : string;
}.

(** [chip.native.PyChipError]; [is_success] is [code == 0]. *)
Record PyChipError : Type := { code : Z }.
Definition is_success (e : PyChipError) : bool := code e =? 0.

Inductive DiscoveryType : Type :=
| DISCOVERY_NETWORK_ONLY
| DISCOVERY_ALL.

(** [Attribute.AttributePath]; [None] is a wildcard. *)
Record AttributePath : Type := {
  EndpointId : option Z;
  ClusterId : option Z;
  AttributeId : option Z;
}.

Inductive EventType : Type :=
| NODE_ADDED
| NODE_UPDATED
| NODE_REMOVED
| NODE_EVENT
| ATTRIBUTE_UPDATED
| ENDPOINT_ADDED
| ENDPOINT_REMOVED.

(** The payload of [server.signal_event]. *)
Inductive EventData : Type :=
| NodeObject (node : loc)
| NodeIdData (node_id : Z)
| AttributeTuple (node_id : Z) (path : string) (value : Value)
| EndpointDict (node_id : Z) (endpoint_id : Hashable).

(** Calls of the SDK wrapper ([self._chip_device_controller]). *)
Inductive SdkRequest : Type :=
| SdkCommissionWithCode (node_id : Z) (code : string) (d : DiscoveryType)
| SdkCommissionOnNetwork (node_id pin filter_type : Z) (filter : Value)
| SdkCommissionIp (node_id pin : Z) (ip_addr : string)
| SdkOpenCommissioningWindow
    (node_id timeout iteration discriminator option_ : Z)
| SdkReadAttribute (node_id : Z) (fabric_filtered : bool)
| SdkSubscribe (node_id interval_floor interval_ceiling : Z)
| SdkRead (node_id : Z) (paths : list AttributePath) (fabric_filtered : bool)
| SdkShutdownSubscription (node_id : Z)
| SdkFindOrEstablishCaseSession (node_id : Z)
| SdkGetAddressAndPort (node_id : Z).

(** Coroutines handed to [create_task]. *)
Inductive Task : Type :=
| TaskHandleEndpointsAdded (node_id : Z) (endpoints : list Hashable)
| TaskInterviewNode (node_id : Z)
| TaskNodeOffline (node_id : Z).

(** Callbacks handed to [loop.call_later]. *)
Inductive Callback : Type :=
| PopKnownCommissioningParams (node_id : Z)
| LogNodeLongSetup (node_id time_start : Z)
| RunCustomAttributesPoller.

Record TimerHandle : Type := {
  delay : Z;
  callback : Callback;
  cancelled : bool;
}.

Inductive Effect : Type :=
| Sdk (request : SdkRequest)
| Mdns (name : string)
| Ping (ip_address : string) (timeout attempts : Z)
| Sleep (seconds : Z)
| SignalEvent (event : EventType) (data : EventData)
| StorageSetLastNodeId (value : Z) (force : bool)
| StorageSetNode (subkey : string) (node : loc) (force : bool)
| CreateTask (task : Task).

(** The controller, together with the part of its environment that it reads
    back: the storage key [last_node_id], the timers of the event loop, the
    clock, and the callbacks the SDK holds for each subscription (the
    closures of [_subscribe_node], which capture the node object). *)
Record Controller : Type := {
  storage_last_node_id : option Z;
  heap : gmap loc MatterNodeData;
  _nodes : gmap Z loc;
  _nodes_in_setup : gset Z;
  _node_last_seen : gmap Z Z;
  _last_known_ip_addresses : gmap Z (list string);
  _last_subscription_attempt : gmap Z Z;
  _known_commissioning_params : gmap Z CommissioningParameters;
  _node_setup_throttle : nat;
  _polled_attributes : gmap Z (list string);
  _custom_attribute_poller_timer : option nat;
  subscription_callbacks : gmap Z loc;
  timers : list TimerHandle;
  clock : Z;
  tick : nat;
  trace : list Effect;
}.

(** Field updates. *)

Definition set_storage_last_node_id (x : option Z) (st : Controller) : Controller :=
  {| storage_last_node_id := x;
     heap := heap st;
     _nodes := _nodes st;
     _nodes_in_setup := _nodes_in_setup st;
     _node_last_seen := _node_last_seen st;
     _last_known_ip_addresses := _last_known_ip_addresses st;
     _last_subscription_attempt := _last_subscription_attempt st;
     _known_commissioning_params := _known_commissioning_params st;
     _node_setup_throttle := _node_setup_throttle st;
     _polled_attributes := _polled_attributes st;
     _custom_attribute_poller_timer := _custom_attribute_poller_timer st;
     subscription_callbacks := subscription_callbacks st;
     timers := timers st;
     clock := clock st;
     tick := tick st;
     trace := trace st |}.

Definition set_heap (x : gmap loc MatterNodeData) (st : Controller) : Controller :=
  {| storage_last_node_id := storage_last_node_id st;
     heap := x;
     _nodes := _nodes st;
     _nodes_in_setup := _nodes_in_setup st;
     _node_last_seen := _node_last_seen st;
     _last_known_ip_addresses := _last_known_ip_addresses st;
     _last_subscription_attempt := _last_subscription_attempt st;
     _known_commissioning_params := _known_commissioning_params st;
     _node_setup_throttle := _node_setup_throttle st;
     _polled_attributes := _polled_attributes st;
     _custom_attribute_poller_timer := _custom_attribute_poller_timer st;
     subscription_callbacks := subscription_callbacks st;
     timers := timers st;
     clock := clock st;
     tick := tick st;
     trace := trace st |}.

Definition set_nodes (x : gmap Z loc) (st : Controller) : Controller :=
  {| storage_last_node_id := storage_last_node_id st;
     heap := heap st;
     _nodes := x;
     _nodes_in_setup := _nodes_in_setup st;
     _node_last_seen := _node_last_seen st;
     _last_known_ip_addresses := _last_known_ip_addresses st;
     _last_subscription_attempt := _last_subscription_attempt st;
     _known_commissioning_params := _known_commissioning_params st;
     _node_setup_throttle := _node_setup_throttle st;
     _polled_attributes := _polled_attributes st;
     _custom_attribute_poller_timer := _custom_attribute_poller_timer st;
     subscription_callbacks := subscription_callbacks st;
     timers := timers st;
     clock := clock st;
     tick := tick st;
     trace := trace st |}.

Definition set_nodes_in_setup (x : gset Z) (st : Controller) : Controller :=
  {| storage_last_node_id := storage_last_node_id st;
     heap := heap st;
     _nodes := _nodes st;
     _nodes_in_setup := x;
     _node_last_seen := _node_last_seen st;
     _last_known_ip_addresses := _last_known_ip_addresses st;
     _last_subscription_attempt := _last_subscription_attempt st;
     _known_commissioning_params := _known_commissioning_params st;
     _node_setup_throttle := _node_setup_throttle st;
     _polled_attributes := _polled_attributes st;
     _custom_attribute_poller_timer := _custom_attribute_poller_timer st;
     subscription_callbacks := subscription_callbacks st;
     timers := timers st;
     clock := clock st;
     tick := tick st;
     trace := trace st |}.

Definition set_node_last_seen (x : gmap Z Z) (st : Controller) : Controller :=
  {| storage_last_node_id := storage_last_node_id st;
     heap := heap st;
     _nodes := _nodes st;
     _nodes_in_setup := _nodes_in_setup st;
     _node_last_seen := x;
     _last_known_ip_addresses := _last_known_ip_addresses st;
     _last_subscription_attempt := _last_subscription_attempt st;
     _known_commissioning_params := _known_commissioning_params st;
     _node_setup_throttle := _node_setup_throttle st;
     _polled_attributes := _polled_attributes st;
     _custom_attribute_poller_timer := _custom_attribute_poller_timer st;
     subscription_callbacks := subscription_callbacks st;
     timers := timers st;
     clock := clock st;
     tick := tick st;
     trace := trace st |}.

Definition set_last_known_ip_addresses (x : gmap Z (list string)) (st : Controller) : Controller :=
  {| storage_last_node_id := storage_last_node_id st;
     heap := heap st;
     _nodes := _nodes st;
     _nodes_in_setup := _nodes_in_setup st;
     _node_last_seen := _node_last_seen st;
     _last_known_ip_addresses := x;
     _last_subscription_attempt := _last_subscription_attempt st;
     _known_commissioning_params := _known_commissioning_params st;
     _node_setup_throttle := _node_setup_throttle st;
     _polled_attributes := _polled_attributes st;
     _custom_attribute_poller_timer := _custom_attribute_poller_timer st;
     subscription_callbacks := subscription_callbacks st;
     timers := timers st;
     clock := clock st;
     tick := tick st;
     trace := trace st |}.

Definition set_last_subscription_attempt (x : gmap Z Z) (st : Controller) : Controller :=
  {| storage_last_node_id := storage_last_node_id st;
     heap := heap st;
     _nodes := _nodes st;
     _nodes_in_setup := _nodes_in_setup st;
     _node_last_seen := _node_last_seen st;
     _last_known_ip_addresses := _last_known_ip_addresses st;
     _last_subscription_attempt := x;
     _known_commissioning_params := _known_commissioning_params st;
     _node_setup_throttle := _node_setup_throttle st;
     _polled_attributes := _polled_attributes st;
     _custom_attribute_poller_timer := _custom_attribute_poller_timer st;
     subscription_callbacks := subscription_callbacks st;
     timers := timers st;
     clock := clock st;
     tick := tick st;
     trace := trace st |}.

Definition set_known_commissioning_params (x : gmap Z CommissioningParameters) (st : Controller) : Controller :=
  {| storage_last_node_id := storage_last_node_id st;
     heap := heap st;
     _nodes := _nodes st;
     _nodes_in_setup := _nodes_in_setup st;
     _node_last_seen := _node_last_seen st;
     _last_known_ip_addresses := _last_known_ip_addresses st;
     _last_subscription_attempt := _last_subscription_attempt st;
     _known_commissioning_params := x;
     _node_setup_throttle := _node_setup_throttle st;
     _polled_attributes := _polled_attributes st;
     _custom_attribute_poller_timer := _custom_attribute_poller_timer st;
     subscription_callbacks := subscription_callbacks st;
     timers := timers st;
     clock := clock st;
     tick := tick st;
     trace := trace st |}.

Definition set_node_setup_throttle (x : nat) (st : Controller) : Controller :=
  {| storage_last_node_id := storage_last_node_id st;
     heap := heap st;
     _nodes := _nodes st;
     _nodes_in_setup := _nodes_in_setup st;
     _node_last_seen := _node_last_seen st;
     _last_known_ip_addresses := _last_known_ip_addresses st;
     _last_subscription_attempt := _last_subscription_attempt st;
     _known_commissioning_params := _known_commissioning_params st;
     _node_setup_throttle := x;
     _polled_attributes := _polled_attributes st;
     _custom_attribute_poller_timer := _custom_attribute_poller_timer st;
     subscription_callbacks := subscription_callbacks st;
     timers := timers st;
     clock := clock st;
     tick := tick st;
     trace := trace st |}.

Definition set_polled_attributes (x : gmap Z (list string)) (st : Controller) : Controller :=
  {| storage_last_node_id := storage_last_node_id st;
     heap := heap st;
     _nodes := _nodes st;
     _nodes_in_setup := _nodes_in_setup st;
     _node_last_seen := _node_last_seen st;
     _last_known_ip_addresses := _last_known_ip_addresses st;
     _last_subscription_attempt := _last_subscription_attempt st;
     _known_commissioning_params := _known_commissioning_params st;
     _node_setup_throttle := _node_setup_throttle st;
     _polled_attributes := x;
     _custom_attribute_poller_timer := _custom_attribute_poller_timer st;
     subscription_callbacks := subscription_callbacks st;
     timers := timers st;
     clock := clock st;
     tick := tick st;
     trace := trace st |}.

Definition set_custom_attribute_poller_timer (x : option nat) (st : Controller) : Controller :=
  {| storage_last_node_id := storage_last_node_id st;
     heap := heap st;
     _nodes := _nodes st;
     _nodes_in_setup := _nodes_in_setup st;
     _node_last_seen := _node_last_seen st;
     _last_known_ip_addresses := _last_known_ip_addresses st;
     _last_subscription_attempt := _last_subscription_attempt st;
     _known_commissioning_params := _known_commissioning_params st;
     _node_setup_throttle := _node_setup_throttle st;
     _polled_attributes := _polled_attributes st;
     _custom_attribute_poller_timer := x;
     subscription_callbacks := subscription_callbacks st;
     timers := timers st;
     clock := clock st;
     tick := tick st;
     trace := trace st |}.

Definition set_subscription_callbacks (x : gmap Z loc) (st : Controller) : Controller :=
  {| storage_last_node_id := storage_last_node_id st;
     heap := heap st;
     _nodes := _nodes st;
     _nodes_in_setup := _nodes_in_setup st;
     _node_last_seen := _node_last_seen st;
     _last_known_ip_addresses := _last_known_ip_addresses st;
     _last_subscription_attempt := _last_subscription_attempt st;
     _known_commissioning_params := _known_commissioning_params st;
     _node_setup_throttle := _node_setup_throttle st;
     _polled_attributes := _polled_attributes st;
     _custom_attribute_poller_timer := _custom_attribute_poller_timer st;
     subscription_callbacks := x;
     timers := timers st;
     clock := clock st;
     tick := tick st;
     trace := trace st |}.

Definition set_timers (x : list TimerHandle) (st : Controller) : Controller :=
  {| storage_last_node_id := storage_last_node_id st;
     heap := heap st;
     _nodes := _nodes st;
     _nodes_in_setup := _nodes_in_setup st;
     _node_last_seen := _node_last_seen st;
     _last_known_ip_addresses := _last_known_ip_addresses st;
     _last_subscription_attempt := _last_subscription_attempt st;
     _known_commissioning_params := _known_commissioning_params st;
     _node_setup_throttle := _node_setup_throttle st;
     _polled_attributes := _polled_attributes st;
     _custom_attribute_poller_timer := _custom_attribute_poller_timer st;
     subscription_callbacks := subscription_callbacks st;
     timers := x;
     clock := clock st;
     tick := tick st;
     trace := trace st |}.

Definition set_clock (x : Z) (st : Controller) : Controller :=
  {| storage_last_node_id := storage_last_node_id st;
     heap := heap st;
     _nodes := _nodes st;
     _nodes_in_setup := _nodes_in_setup st;
     _node_last_seen := _node_last_seen st;
     _last_known_ip_addresses := _last_known_ip_addresses st;
     _last_subscription_attempt := _last_subscription_attempt st;
     _known_commissioning_params := _known_commissioning_params st;
     _node_setup_throttle := _node_setup_throttle st;
     _polled_attributes := _polled_attributes st;
     _custom_attribute_poller_timer := _custom_attribute_poller_timer st;
     subscription_callbacks := subscription_callbacks st;
     timers := timers st;
     clock := x;
     tick := tick st;
     trace := trace st |}.

Definition set_tick (x : nat) (st : Controller) : Controller :=
  {| storage_last_node_id := storage_last_node_id st;
     heap := heap st;
     _nodes := _nodes st;
     _nodes_in_setup := _nodes_in_setup st;
     _node_last_seen := _node_last_seen st;
     _last_known_ip_addresses := _last_known_ip_addresses st;
     _last_subscription_attempt := _last_subscription_attempt st;
     _known_commissioning_params := _known_commissioning_params st;
     _node_setup_throttle := _node_setup_throttle st;
     _polled_attributes := _polled_attributes st;
     _custom_attribute_poller_timer := _custom_attribute_poller_timer st;
     subscription_callbacks := subscription_callbacks st;
     timers := timers st;
     clock := clock st;
     tick := x;
     trace := trace st |}.

Definition set_trace (x : list Effect) (st : Controller) : Controller :=
  {| storage_last_node_id := storage_last_node_id st;
     heap := heap st;
     _nodes := _nodes st;
     _nodes_in_setup := _nodes_in_setup st;
     _node_last_seen := _node_last_seen st;
     _last_known_ip_addresses := _last_known_ip_addresses st;
     _last_subscription_attempt := _last_subscription_attempt st;
     _known_commissioning_params := _known_commissioning_params st;
     _node_setup_throttle := _node_setup_throttle st;
     _polled_attributes := _polled_attributes st;
     _custom_attribute_poller_timer := _custom_attribute_poller_timer st;
     subscription_callbacks := subscription_callbacks st;
     timers := timers st;
     clock := clock st;
     tick := tick st;
     trace := x |}.

(** ** The coroutine monad *)

Definition M (A : Type) : Type := Controller -> Outcome A * Controller.

Definition ret {A : Type} (a : A) : M A := fun st => (Returns a, st).

Definition bind {A B : Type} (m : M A) (k : A -> M B) : M B :=
  fun st =>
    match m st with
    | (Returns a, st') => k a st'
    | (Raises e, st') => (Raises e, st')
    | (Pending, st') => (Pending, st')
    | (Stuck, st') => (Stuck, st')
    end.

Notation "'let*' x ':=' m 'in' k" := (bind m (fun x => k))
  (at level 10, x pattern, m at level 100, k at level 200).
Notation "m ';;;' k" := (bind m (fun _ => k))
  (at level 100, k at level 200, right associativity).

Definition raise {A : Type} (e : PyError) : M A := fun st => (Raises e, st).

Definition gets {A : Type} (f : Controller -> A) : M A :=
  fun st => (Returns (f st), st).

Definition modify (f : Controller -> Controller) : M unit :=
  fun st => (Returns tt, f st).

(** An outcome computed without effects. *)
Definition lift {A : Type} (o : Outcome A) : M A := fun st => (o, st).

(** [try: m except <catches> as err: handler err]. *)
Definition try_except {A : Type} (m : M A) (catches : PyError -> bool)
  (handler : PyError -> M A) : M A :=
  fun st =>
    match m st with
    | (Raises e, st') =>
        if catches e then handler e st' else (Raises e, st')
    | r => r
    end.

(** [try: m finally: cleanup].  The clean-up runs when [m] returns and when it
    raises; an exception of the clean-up replaces the outcome of [m]. *)
Definition try_finally {A : Type} (m : M A) (cleanup : M unit) : M A :=
  fun st =>
    match m st with
    | (Returns a, st') =>
        match cleanup st' with
        | (Returns _, st'') => (Returns a, st'')
        | (Raises e, st'') => (Raises e, st'')
        | (Pending, st'') => (Pending, st'')
        | (Stuck, st'') => (Stuck, st'')
        end
    | (Raises e, st') =>
        match cleanup st' with
        | (Returns _, st'') => (Raises e, st'')
        | (Raises e', st'') => (Raises e', st'')
        | (Pending, st'') => (Pending, st'')
        | (Stuck, st'') => (Stuck, st'')
        end
    | r => r
    end.

Definition emit (e : Effect) : M unit :=
  modify (fun st => set_trace (trace st ++ [e]) st).

(** Awaiting a collaborator: the request is recorded, the interaction counter
    advances, and the oracle [answer] decides the outcome. *)
Definition await {A : Type} (e : Effect) (answer : nat -> Outcome A) : M A :=
  fun st =>
    (answer (tick st),
     set_tick (S (tick st)) (set_trace (trace st ++ [e]) st)).

(** [await asyncio.sleep(seconds)]. *)
Definition sleep (seconds : Z) : M unit :=
  modify (fun st =>
    set_clock (clock st + seconds) (set_trace (trace st ++ [Sleep seconds]) st)).

(** [self.server.signal_event(event, data)]. *)
Definition signal_event (event : EventType) (data : EventData) : M unit :=
  emit (SignalEvent event data).

(** [time.time()] and [datetime.utcnow()]. *)
Definition time_now : M Z := gets clock.

(** [self.server.loop.call_later(delay, callback)]; the handle is the index
    of the timer. *)
Definition call_later (d : Z) (cb : Callback) : M nat :=
  fun st =>
    (Returns (length (timers st)),
     set_timers
       (timers st ++ [{| delay := d; callback := cb; cancelled := false |}])
       st).

(** [handle.cancel()]. *)
Definition cancel_timer (h : nat) : M unit :=
  modify (fun st =>
    set_timers
      (alter (fun t => {| delay := delay t; callback := callback t;
                          cancelled := true |}) h (timers st))
      st).

(** [create_task(coroutine)]. *)
Definition create_task (t : Task) : M unit := emit (CreateTask t).

(** Object store. *)
Definition new_object (n : MatterNodeData) : M loc :=
  fun st =>
    let l := fresh (dom (heap st)) in
    (Returns l, set_heap (<[l := n]> (heap st)) st).

(** Reading a field of an object through a reference.  The references held
    by the controller always point into the store; a dangling one would be an
    error of the model and is reported as [Stuck]. *)
Definition deref (l : loc) : M MatterNodeData :=
  fun st =>
    match heap st !! l with
    | Some n => (Returns n, st)
    | None => (Stuck, st)
    end.

Definition update_object (l : loc) (f : MatterNodeData -> MatterNodeData)
  : M unit :=
  modify (fun st => set_heap (alter f l (heap st)) st).

Fixpoint for_each {A : Type} (l : list A) (body : A -> M unit) : M unit :=
  match l with
  | [] => ret tt
  | x :: l' => body x ;;; for_each l' body
  end.

Fixpoint map_m {A B : Type} (f : A -> M B) (l : list A) : M (list B) :=
  match l with
  | [] => ret []
  | x :: l' =>
      let* y := f x in
      let* ys := map_m f l' in
      ret (y :: ys)
  end.

(** ** Dictionaries that are iterated or returned

    A Python [dict] keeps its keys in insertion order.  Where the code
    iterates over a dict or returns one, it is a list of items with unique
    keys; [dict_set] is [d[k] = v]. *)

Fixpoint dict_set {A : Type} (k : string) (v : A) (d : list (string * A))
  : list (string * A) :=
  match d with
  | [] => [(k, v)]
  | (k', v') :: d' =>
      if String.eqb k k' then (k, v) :: d' else (k', v') :: dict_set k v d'
  end.

Fixpoint dict_mem {A : Type} (k : string) (d : list (string * A)) : bool :=
  match d with
  | [] => false
  | (k', _) :: d' => String.eqb k k' || dict_mem k d'
  end.

(** [cache.update(items)], and [dict(items)]. *)
Definition dict_update (items : list (string * Value))
  (cache : gmap string Value) : gmap string Value :=
  fold_left (fun m kv => <[fst kv := snd kv]> m) items cache.

(** [x.split("%")[0]]: the address without its interface index. *)
Fixpoint strip_interface (ip_address : string) : string :=
  match ip_address with
  | EmptyString => EmptyString
  | String c rest =>
      if Ascii.eqb c "%"%char then EmptyString
      else String c (strip_interface rest)
  end.

(** ** Collaborators *)

(** [ChipDeviceControllerWrapper]: each method is an oracle; its first
    argument is the number of interactions made before the call.
    [sdk_read_attribute] is the wildcard read of an interview,
    [sdk_subscribe] the same call with a report interval, which sets up a
    subscription and yields its first snapshot. *)
Record ChipDeviceControllerWrapper (TlvAttributes : Type) : Type := {
  sdk_commission_with_code :
    nat -> Z -> string -> DiscoveryType -> Outcome (option PyChipError);
  sdk_commission_on_network :
    nat -> Z -> Z -> Z -> Value -> Outcome (option PyChipError);
  sdk_commission_ip :
    nat -> Z -> Z -> string -> Outcome (option PyChipError);
  sdk_open_commissioning_window :
    nat -> Z -> Z -> Z -> Z -> Z -> Outcome SdkCommissioningParameters;
  sdk_read_attribute : nat -> Z -> Outcome TlvAttributes;
  sdk_subscribe : nat -> Z -> Z -> Z -> Outcome TlvAttributes;
  sdk_read : nat -> Z -> list AttributePath -> bool -> Outcome TlvAttributes;
  sdk_shutdown_subscription : nat -> Z -> Outcome unit;
  sdk_find_or_establish_case_session : nat -> Z -> Outcome unit;
  sdk_get_address_and_port : nat -> Z -> Outcome (option (string * Z));
}.
Arguments sdk_commission_with_code {TlvAttributes}.
Arguments sdk_commission_on_network {TlvAttributes}.
Arguments sdk_commission_ip {TlvAttributes}.
Arguments sdk_open_commissioning_window {TlvAttributes}.
Arguments sdk_read_attribute {TlvAttributes}.
Arguments sdk_subscribe {TlvAttributes}.
Arguments sdk_read {TlvAttributes}.
Arguments sdk_shutdown_subscription {TlvAttributes}.
Arguments sdk_find_or_establish_case_session {TlvAttributes}.
Arguments sdk_get_address_and_port {TlvAttributes}.

(** What [json_loads] makes of a diagnostics dump: a single node under
    [data.node], a list under [data.server.nodes], or JSON of another shape,
    on which the subscripting raises. *)
Inductive DumpData (NodeDict : Type) : Type :=
| DumpNode (node : NodeDict)
| DumpServerNodes (nodes : list NodeDict)
| DumpOther (e : PyError).
Arguments DumpNode {NodeDict} node.
Arguments DumpServerNodes {NodeDict} nodes.
Arguments DumpOther {NodeDict} e.

(** Helpers of the repository that live in other modules, the server object,
    and the standard library's sources of non-determinism.
    [json_loads] yields [None] on a JSON decode error.
    [mdns_info_request] is [AsyncServiceInfo.async_request] followed by
    [parsed_scoped_addresses]; [None]: no answer within the timeout. *)
Record Environment (TlvAttributes NodeDict : Type) : Type := {
  DATA_MODEL_SCHEMA_VERSION : Z;
  parse_attributes_from_read_result : TlvAttributes -> list (string * Value);
  parse_attribute_path : string -> Outcome AttributePath;
  check_polled_attributes : MatterNodeData -> list string;
  scope_ipv6_lla : string -> string;
  json_loads : string -> option (DumpData NodeDict);
  dataclass_from_dict : NodeDict -> Outcome MatterNodeData;
  entropy : nat -> Z;
  mdns_info_request : nat -> Z -> option (list string);
  ping_ip : nat -> string -> Z -> Z -> Outcome bool;
}.
Arguments DATA_MODEL_SCHEMA_VERSION {TlvAttributes NodeDict}.
Arguments parse_attributes_from_read_result {TlvAttributes NodeDict}.
Arguments parse_attribute_path {TlvAttributes NodeDict}.
Arguments check_polled_attributes {TlvAttributes NodeDict}.
Arguments scope_ipv6_lla {TlvAttributes NodeDict}.
Arguments json_loads {TlvAttributes NodeDict}.
Arguments dataclass_from_dict {TlvAttributes NodeDict}.
Arguments entropy {TlvAttributes NodeDict}.
Arguments mdns_info_request {TlvAttributes NodeDict}.
Arguments ping_ip {TlvAttributes NodeDict}.

(** ** The methods of [MatterDeviceController] *)

Section Controller.

Context {TlvAttributes NodeDict : Type}.
Variable sdk : ChipDeviceControllerWrapper TlvAttributes.
Variable env : Environment TlvAttributes NodeDict.

(** [random.randint(a, b)]: an integer between [a] and [b], both included. *)
Definition randint (a b : Z) : M Z :=
  fun st =>
    (Returns (a + entropy env (tick st) mod (b - a + 1)),
     set_tick (S (tick st)) st).

Definition get_node (node_id : Z) : M loc :=
  let* nodes := gets _nodes in
  match nodes !! node_id with
  | Some node => ret node
  | None => raise NodeNotExists
  end.

(** [storage.get(DATA_KEY_LAST_NODE_ID, 0)] reads the stored value, 0 when
    there is none; [storage.set(..., force=True)] replaces it. *)
Definition _get_next_node_id : M Z :=
  let* stored := gets storage_last_node_id in
  let next_node_id := default 0 stored + 1 in
  modify (set_storage_last_node_id (Some next_node_id)) ;;;
  emit (StorageSetLastNodeId next_node_id true) ;;;
  ret next_node_id.

Definition _write_node_state (node_id : Z) (force : bool) : M unit :=
  let* nodes := gets _nodes in
  match nodes !! node_id with
  | None => ret tt
  | Some node =>
      if node_id >=? TEST_NODE_START then ret tt
      else emit (StorageSetNode (pretty node_id) node force)
  end.

(** [any(x[0] == 14 for x in attr_data)]. *)
Fixpoint any_device_type_14 (items : list Value) : Outcome bool :=
  match items with
  | [] => Returns false
  | x :: rest =>
      match py_getitem0 x with
      | Returns y =>
          if py_eq y (VInt 14) then Returns true else any_device_type_14 rest
      | Raises e => Raises e
      | Pending => Pending
      | Stuck => Stuck
      end
  end.

Definition interview_node (node_id : Z) : M unit :=
  if node_id >=? TEST_NODE_START then
    let* nodes := gets _nodes in
    match nodes !! node_id with
    | Some node => signal_event NODE_UPDATED (NodeObject node)
    | None => raise KeyError
    end
  else
    let* read_response :=
      try_except
        (await (Sdk (SdkReadAttribute node_id false))
               (fun n => sdk_read_attribute sdk n node_id))
        (PyError_eqb ChipStackError)
        (fun _ => raise NodeInterviewFailed) in
    let* nodes := gets _nodes in
    let is_new_node := match nodes !! node_id with None => true | _ => false end in
    let* existing_info :=
      match nodes !! node_id with
      | Some l => let* n := deref l in ret (Some n)
      | None => ret None
      end in
    let* now := time_now in
    let* node :=
      new_object
        {| node_id := node_id;
           date_commissioned :=
             match existing_info with
             | Some e => date_commissioned e
             | None => now
             end;
           last_interview := now;
           interview_version := DATA_MODEL_SCHEMA_VERSION env;
           available :=
             match existing_info with
             | Some e => available e
             | None => false
             end;
           is_bridge := false;
           attributes :=
             dict_update
               (parse_attributes_from_read_result env read_response) ∅;
           attribute_subscriptions :=
             match existing_info with
             | Some e => attribute_subscriptions e
             | None => []
             end |} in
    let* nd := deref node in
    match attributes nd !! "1/29/0"%string with
    | Some attr_data =>
        if truthy attr_data then
          let* items := lift (py_iter attr_data) in
          let* b := lift (any_device_type_14 items) in
          update_object node (with_is_bridge b)
        else ret tt
    | None => ret tt
    end ;;;
    modify (fun st => set_nodes (<[node_id := node]> (_nodes st)) st) ;;;
    _write_node_state node_id true ;;;
    if is_new_node then signal_event NODE_ADDED (NodeObject node)
    else signal_event NODE_UPDATED (NodeObject node).

(** [self._known_commissioning_params.pop(node_id, None)], the timer callback
    of [open_commissioning_window]. *)
Definition pop_known_commissioning_params (node_id : Z) : M unit :=
  modify (fun st =>
    set_known_commissioning_params
      (delete node_id (_known_commissioning_params st)) st).

Definition open_commissioning_window
  (node_id timeout iteration option_ : Z) (discriminator : option Z)
  : M CommissioningParameters :=
  let* nodes := gets _nodes in
  let* ready :=
    match nodes !! node_id with
    | None => ret false
    | Some node => let* nd := deref node in ret (available nd)
    end in
  if negb ready then raise NodeNotReady
  else
    let* known := gets _known_commissioning_params in
    match known !! node_id with
    | Some params => ret params
    | None =>
        let* discriminator :=
          match discriminator with
          | None => randint 0 4095
          | Some d => ret d
          end in
        let* sdk_result :=
          await
            (Sdk (SdkOpenCommissioningWindow
                    node_id timeout iteration discriminator option_))
            (fun n =>
               sdk_open_commissioning_window
                 sdk n node_id timeout iteration discriminator option_) in
        let params :=
          {| setup_pin_code := setupPinCode sdk_result;
             setup_manual_code := setupManualCode sdk_result;
             setup_qr_code := setupQRCode sdk_result |} in
        modify (fun st =>
          set_known_commissioning_params
            (<[node_id := params]> (_known_commissioning_params st)) st) ;;;
        let* _ := call_later timeout (PopKnownCommissioningParams node_id) in
        ret params
    end.

(** *** Subscriptions *)

Definition _handle_endpoints_removed (node_id : Z) (endpoints : list Hashable)
  : M unit :=
  let* nodes := gets _nodes in
  match nodes !! node_id with
  | None => raise KeyError
  | Some node =>
      for_each endpoints (fun endpoint_id =>
        update_object node (fun n =>
          with_attributes
            (filter
               (fun kv =>
                  String.prefix (py_str endpoint_id ++ "/") (fst kv) = false)
               (attributes n))
            n) ;;;
        signal_event ENDPOINT_REMOVED (EndpointDict node_id endpoint_id)) ;;;
      _write_node_state node_id false
  end.

Definition _handle_endpoints_added (node_id : Z) (endpoints : list Hashable)
  : M unit :=
  interview_node node_id ;;;
  for_each endpoints (fun endpoint_id =>
    signal_event ENDPOINT_ADDED (EndpointDict node_id endpoint_id)).

(** The SDK drops the callbacks of a subscription that is shut down. *)
Definition shutdown_subscription (node_id : Z) : M unit :=
  await (Sdk (SdkShutdownSubscription node_id))
        (fun n => sdk_shutdown_subscription sdk n node_id) ;;;
  modify (fun st =>
    set_subscription_callbacks (delete node_id (subscription_callbacks st)) st).

Definition _node_offline (node_id : Z) : M unit :=
  shutdown_subscription node_id ;;;
  let* nodes := gets _nodes in
  match nodes !! node_id with
  | None => raise KeyError
  | Some node =>
      let* nd := deref node in
      if negb (available nd) then ret tt
      else
        update_object node (with_available false) ;;;
        signal_event NODE_UPDATED (NodeObject node)
  end.

(** The closures of [_subscribe_node].  [node] is the object the closure
    captured when the subscription was set up; [path] is [str(path)]. *)
Definition attribute_updated (node_id : Z) (node : loc) (path : string)
  (old_value new_value : Value) : M unit :=
  let* nd := deref node in
  if is_bridge nd && String.eqb path DESCRIPTOR_PARTS_LIST_ATTRIBUTE_PATH then
    let* old_set :=
      lift (py_set (if truthy old_value then old_value else VList [])) in
    let* new_set := lift (py_set new_value) in
    let endpoints_removed := set_difference old_set new_set in
    let endpoints_added := set_difference new_set old_set in
    match endpoints_removed with
    | [] => ret tt
    | _ => _handle_endpoints_removed node_id endpoints_removed
    end ;;;
    match endpoints_added with
    | [] => ret tt
    | _ => create_task (TaskHandleEndpointsAdded node_id endpoints_added)
    end
  else
    (if String.eqb path BASIC_INFORMATION_SOFTWARE_VERSION_ATTRIBUTE_PATH
        && negb (py_eq new_value old_value)
     then create_task (TaskInterviewNode node_id)
     else ret tt) ;;;
    update_object node (fun n =>
      with_attributes (<[path := new_value]> (attributes n)) n) ;;;
    _write_node_state node_id false ;;;
    signal_event ATTRIBUTE_UPDATED (AttributeTuple node_id path new_value).

(** [new_value] is [None] when the SDK hands over a [ValueDecodeFailure].
    The hop to the event loop ([call_soon_threadsafe]) is taken at once. *)
Definition attribute_updated_callback (node_id : Z) (node : loc)
  (path : string) (new_value : option Value) : M unit :=
  let* now := time_now in
  modify (fun st => set_node_last_seen (<[node_id := now]> (_node_last_seen st)) st) ;;;
  match new_value with
  | None => ret tt
  | Some new_value =>
      let* nd := deref node in
      let old_value := default VNone (attributes nd !! path) in
      if py_eq old_value new_value then ret tt
      else attribute_updated node_id node path old_value new_value
  end.

Definition resubscription_attempted (node_id : Z) (node : loc)
  (terminationError nextResubscribeIntervalMsec : Z) : M unit :=
  let* attempts := gets _last_subscription_attempt in
  match attempts !! node_id with
  | None => raise KeyError
  | Some last =>
      let resubscription_attempt := last + 1 in
      modify (fun st =>
        set_last_subscription_attempt
          (<[node_id := resubscription_attempt]>
             (_last_subscription_attempt st)) st) ;;;
      let* nd := deref node in
      (if available nd
          && (resubscription_attempt >=? NODE_RESUBSCRIBE_ATTEMPTS_UNAVAILABLE)
       then
         update_object node (with_available false) ;;;
         signal_event NODE_UPDATED (NodeObject node)
       else ret tt) ;;;
      let* nd := deref node in
      if negb (available nd)
         && (nextResubscribeIntervalMsec >? NODE_RESUBSCRIBE_TIMEOUT_OFFLINE)
      then create_task (TaskNodeOffline node_id)
      else ret tt
  end.

Definition resubscription_succeeded (node_id : Z) (node : loc) : M unit :=
  let* now := time_now in
  modify (fun st => set_node_last_seen (<[node_id := now]> (_node_last_seen st)) st) ;;;
  modify (fun st =>
    set_last_subscription_attempt
      (<[node_id := 0]> (_last_subscription_attempt st)) st) ;;;
  let* nd := deref node in
  if negb (available nd) then
    update_object node (with_available true) ;;;
    signal_event NODE_UPDATED (NodeObject node)
  else ret tt.

Definition _subscribe_node (node_id : Z) : M unit :=
  let* nodes := gets _nodes in
  match nodes !! node_id with
  | None => raise NodeNotExists
  | Some node =>
      shutdown_subscription node_id ;;;
      let* nd := deref node in
      let interval_floor := 0 in
      let interval_ceiling :=
        match attributes nd !! ROUTING_ROLE_ATTRIBUTE_PATH with
        | None | Some VNone => NODE_SUBSCRIPTION_CEILING_WIFI
        | Some routing_role =>
            if py_eq routing_role (VInt kSleepyEndDevice)
            then NODE_SUBSCRIPTION_CEILING_BATTERY_POWERED
            else NODE_SUBSCRIPTION_CEILING_THREAD
        end in
      modify (fun st =>
        set_last_subscription_attempt
          (<[node_id := 0]> (_last_subscription_attempt st)) st) ;;;
      let* sub :=
        await (Sdk (SdkSubscribe node_id interval_floor interval_ceiling))
              (fun n =>
                 sdk_subscribe sdk n node_id interval_floor interval_ceiling) in
      modify (fun st =>
        set_subscription_callbacks
          (<[node_id := node]> (subscription_callbacks st)) st) ;;;
      update_object node (with_available true) ;;;
      update_object node (fun n =>
        with_attributes
          (dict_update (parse_attributes_from_read_result env sub)
                       (attributes n)) n) ;;;
      let* now := time_now in
      modify (fun st => set_node_last_seen (<[node_id := now]> (_node_last_seen st)) st) ;;;
      signal_event NODE_UPDATED (NodeObject node)
  end.

Definition _schedule_custom_attributes_poller : M unit :=
  let* existing := gets _custom_attribute_poller_timer in
  match existing with
  | Some h => cancel_timer h
  | None => ret tt
  end ;;;
  let* polled := gets _polled_attributes in
  if bool_decide (polled = ∅) then ret tt
  else
    let* h := call_later CUSTOM_ATTRIBUTES_POLLER_INTERVAL
                         RunCustomAttributesPoller in
    modify (set_custom_attribute_poller_timer (Some h)).

(** *** Node set-up *)

(** [async with self._node_setup_throttle]: a coroutine that finds no permit
    waits; run on its own, it waits for ever.  The permit is given back
    however the body ends.  A task that is cancelled while it waits for the
    permit is not modelled. *)
Definition with_throttle {A : Type} (body : M A) : M A :=
  let* permits := gets _node_setup_throttle in
  match permits with
  | O => lift Pending
  | S p =>
      modify (set_node_setup_throttle p) ;;;
      try_finally body
        (modify (fun st =>
           set_node_setup_throttle (S (_node_setup_throttle st)) st))
  end.

(** The body of the [try] block of [_setup_node]; a [return] inside it ends
    the body. *)
Definition setup_steps (node_id : Z) (node_data : loc) : M unit :=
  let* resolved :=
    try_except
      (await (Sdk (SdkFindOrEstablishCaseSession node_id))
             (fun n => sdk_find_or_establish_case_session sdk n node_id) ;;;
       ret true)
      (PyError_eqb NodeNotResolving)
      (fun _ => ret false) in
  if negb resolved then ret tt
  else
    let* nd := deref node_data in
    let* interviewed :=
      if Nat.eqb (size (attributes nd)) 0
         || negb (interview_version nd =? DATA_MODEL_SCHEMA_VERSION env)
      then
        try_except (interview_node node_id ;;; ret true)
                   (PyError_eqb NodeInterviewFailed)
                   (fun _ => ret false)
      else ret true in
    if negb interviewed then ret tt
    else
      let* subscribed :=
        try_except (_subscribe_node node_id ;;; ret true)
                   (PyError_eqb ChipStackError)
                   (fun _ => ret false) in
      if negb subscribed then ret tt
      else
        let* nd := deref node_data in
        match check_polled_attributes env nd with
        | [] => ret tt
        | polled_attributes =>
            modify (fun st =>
              set_polled_attributes
                (<[node_id := polled_attributes]> (_polled_attributes st)) st) ;;;
            _schedule_custom_attributes_poller
        end.

(** [log_timers[node_id]] is the timer armed on entry: run on its own, the
    coroutine is not interleaved with the watchdog, which would re-arm it
    (see [Protocol] below for the interleaved view). *)
Definition _setup_node (node_id : Z) : M unit :=
  let* nodes := gets _nodes in
  match nodes !! node_id with
  | None => raise NodeNotExists
  | Some node_data =>
      let* in_setup := gets _nodes_in_setup in
      if bool_decide (node_id ∈ in_setup) then ret tt
      else
        modify (fun st =>
          set_nodes_in_setup ({[node_id]} ∪ _nodes_in_setup st) st) ;;;
        with_throttle
          (let* time_start := time_now in
           let* log_timer :=
             call_later (15 * 60) (LogNodeLongSetup node_id time_start) in
           try_finally
             (setup_steps node_id node_data)
             (cancel_timer log_timer ;;;
              modify (fun st =>
                set_nodes_in_setup (_nodes_in_setup st ∖ {[node_id]}) st)))
  end.

(** *** Commissioning *)

(** [result and result.is_success]. *)
Definition commission_succeeded (result : option PyChipError) : bool :=
  match result with
  | Some r => is_success r
  | None => false
  end.

(** The [while attempts <= MAX_COMMISSION_RETRIES] loop; [commission] is the
    SDK call of the loop body. *)
Fixpoint commission_loop (fuel : nat) (commission : M (option PyChipError))
  (attempts : Z) : M unit :=
  if attempts <=? MAX_COMMISSION_RETRIES then
    match fuel with
    | O => lift Stuck
    | S fuel' =>
        let attempts := attempts + 1 in
        let* result := commission in
        if commission_succeeded result then ret tt
        else if attempts >=? MAX_COMMISSION_RETRIES then
          raise NodeCommissionFailed
        else
          sleep 5 ;;;
          commission_loop fuel' commission attempts
    end
  else ret tt.

(** The [while retries] loop; [catches] is the [except] clause.  The body
    yields [None] on [break] and the new value of [retries] otherwise. *)
Fixpoint interview_loop (fuel : nat) (catches : PyError -> bool)
  (node_id retries : Z) : M unit :=
  if retries =? 0 then ret tt
  else
    match fuel with
    | O => lift Stuck
    | S fuel' =>
        let* next :=
          try_except
            (interview_node node_id ;;; ret None)
            catches
            (fun err =>
               if retries <=? 0 then raise err
               else
                 let retries := retries - 1 in
                 sleep 5 ;;;
                 ret (Some retries)) in
        match next with
        | None => ret tt
        | Some retries => interview_loop fuel' catches node_id retries
        end
    end.

Definition commission_with_code (code : string) (network_only : bool)
  : M loc :=
  let* node_id := _get_next_node_id in
  let discovery :=
    if network_only then DISCOVERY_NETWORK_ONLY else DISCOVERY_ALL in
  commission_loop (S (Z.to_nat MAX_COMMISSION_RETRIES))
    (await (Sdk (SdkCommissionWithCode node_id code discovery))
           (fun n => sdk_commission_with_code sdk n node_id code discovery))
    0 ;;;
  interview_loop 3
    (fun e => PyError_eqb NodeNotResolving e
              || PyError_eqb NodeInterviewFailed e)
    node_id 3 ;;;
  _setup_node node_id ;;;
  get_node node_id.

Definition commission_on_network (setup_pin_code filter_type : Z)
  (filter : Value) (ip_addr : option string) : M loc :=
  let* node_id := _get_next_node_id in
  let ip_addr :=
    match ip_addr with
    | Some a => Some (scope_ipv6_lla env a)
    | None => None
    end in
  commission_loop (S (Z.to_nat MAX_COMMISSION_RETRIES))
    match ip_addr with
    | None =>
        await (Sdk (SdkCommissionOnNetwork
                      node_id setup_pin_code filter_type filter))
              (fun n =>
                 sdk_commission_on_network
                   sdk n node_id setup_pin_code filter_type filter)
    | Some a =>
        await (Sdk (SdkCommissionIp node_id setup_pin_code a))
              (fun n => sdk_commission_ip sdk n node_id setup_pin_code a)
    end
    0 ;;;
  interview_loop 3 (PyError_eqb NodeInterviewFailed) node_id 3 ;;;
  _setup_node node_id ;;;
  get_node node_id.

(** *** Reading attributes *)

(** The [for attr_path, value in read_atributes.items()] loop of
    [read_attribute]; it yields [values_changed]. *)
Fixpoint update_cached_attributes (node_id : Z) (node : loc)
  (items : list (string * Value)) (values_changed : bool) : M bool :=
  match items with
  | [] => ret values_changed
  | (attr_path, value) :: rest =>
      let* nd := deref node in
      if negb (py_eq (default VNone (attributes nd !! attr_path)) value) then
        update_object node (fun n =>
          with_attributes (<[attr_path := value]> (attributes n)) n) ;;;
        signal_event ATTRIBUTE_UPDATED (AttributeTuple node_id attr_path value) ;;;
        update_cached_attributes node_id node rest true
      else update_cached_attributes node_id node rest values_changed
  end.

(** [attribute_paths] is the argument after [attribute_path] has been made
    a list. *)
Definition read_attribute (node_id : Z) (attribute_paths : list string)
  (fabric_filtered : bool) : M (list (string * Value)) :=
  let* nodes := gets _nodes in
  let* ready :=
    match nodes !! node_id with
    | None => ret None
    | Some node =>
        let* nd := deref node in
        ret (if available nd then Some node else None)
    end in
  match ready with
  | None => raise NodeNotReady
  | Some node =>
      if node_id >=? TEST_NODE_START then
        let* nd := deref node in
        ret (fold_left
               (fun d attr_path =>
                  dict_set attr_path
                    (default VNone (attributes nd !! attr_path)) d)
               attribute_paths [])
      else
        let* attributes :=
          map_m (fun attr_path => lift (parse_attribute_path env attr_path))
                attribute_paths in
        let* result :=
          await (Sdk (SdkRead node_id attributes fabric_filtered))
                (fun n => sdk_read sdk n node_id attributes fabric_filtered) in
        let read_atributes := parse_attributes_from_read_result env result in
        let* values_changed :=
          update_cached_attributes node_id node read_atributes false in
        (if values_changed then _write_node_state node_id false
         else ret tt) ;;;
        ret read_atributes
  end.

(** *** Reachability *)

(** The mDNS name is built from the fabric id and the node id; the model
    keeps the node id only. *)
Definition get_node_ip_addresses (node_id : Z) (prefer_cache scoped : bool)
  : M (list string) :=
  let* cache := gets _last_known_ip_addresses in
  let cached_info := default [] (cache !! node_id) in
  if prefer_cache && match cached_info with [] => false | _ => true end then
    ret (if scoped then cached_info else map strip_interface cached_info)
  else
    let* nodes := gets _nodes in
    match nodes !! node_id with
    | None => raise NodeNotExists
    | Some _ =>
        let* info :=
          await (Mdns (pretty node_id))
                (fun n => Returns (mdns_info_request env n node_id)) in
        match info with
        | None => ret cached_info
        | Some ip_adresses =>
            modify (fun st =>
              set_last_known_ip_addresses
                (<[node_id := ip_adresses]> (_last_known_ip_addresses st))
                st) ;;;
            ret (if scoped then ip_adresses
                 else map strip_interface ip_adresses)
        end
    end.

(** The pings of [asyncio.gather] run one after the other here, in the order
    of the addresses. *)
Fixpoint do_pings (ip_addresses : list string) (timeout attempts : Z)
  (result : list (string * bool)) : M (list (string * bool)) :=
  match ip_addresses with
  | [] => ret result
  | ip_address :: rest =>
      let clean_ip := strip_interface ip_address in
      let* reachable :=
        await (Ping ip_address timeout attempts)
              (fun n => ping_ip env n ip_address timeout attempts) in
      do_pings rest timeout attempts (dict_set clean_ip reachable result)
  end.

Definition ping_node (node_id attempts : Z) : M (list (string * bool)) :=
  if node_id >=? TEST_NODE_START then
    ret [("0.0.0.0"%string, true); ("0000:1111:2222:3333:4444"%string, true)]
  else
    let* nodes := gets _nodes in
    match nodes !! node_id with
    | None => raise NodeNotExists
    | Some node =>
        let* nd := deref node in
        let battery_powered :=
          py_eq (default (VInt 0) (attributes nd !! ROUTING_ROLE_ATTRIBUTE_PATH))
                (VInt kSleepyEndDevice) in
        let timeout :=
          if battery_powered then NODE_PING_TIMEOUT_BATTERY_POWERED
          else NODE_PING_TIMEOUT in
        let* ip_addresses := get_node_ip_addresses node_id false true in
        let* result := do_pings ip_addresses timeout attempts [] in
        let* sdk_result :=
          await (Sdk (SdkGetAddressAndPort node_id))
                (fun n => sdk_get_address_and_port sdk n node_id) in
        match sdk_result with
        | Some (active_address, _) =>
            let* nd := deref node in
            if negb (dict_mem active_address result) && available nd then
              ret (dict_set active_address true result)
            else ret result
        | None => ret result
        end
    end.

(** *** Test nodes *)

(** The [for node_dict in dump_nodes] loop of [import_test_node]. *)
Fixpoint import_nodes (dump_nodes : list NodeDict) (next_test_node_id : Z)
  : M unit :=
  match dump_nodes with
  | [] => ret tt
  | node_dict :: rest =>
      let* parsed := lift (dataclass_from_dict env node_dict) in
      let* node := new_object (with_node_id next_test_node_id parsed) in
      let node_id := next_test_node_id in
      let next_test_node_id := next_test_node_id + 1 in
      modify (fun st => set_nodes (<[node_id := node]> (_nodes st)) st) ;;;
      signal_event NODE_ADDED (NodeObject node) ;;;
      import_nodes rest next_test_node_id
  end.

(** The ids of the registry, as [for x in self._nodes] yields them. *)
Definition known_node_ids (st : Controller) : list Z :=
  map fst (map_to_list (_nodes st)).

Definition import_test_node (dump : string) : M unit :=
  match json_loads env dump with
  | None => raise InvalidArguments
  | Some dump_data =>
      let* dump_nodes :=
        match dump_data with
        | DumpNode node => ret [node]
        | DumpServerNodes nodes => ret nodes
        | DumpOther e => raise e
        end in
      let* ids := gets known_node_ids in
      let* highest := lift (py_max (ids ++ [TEST_NODE_START])) in
      import_nodes dump_nodes (highest + 1)
  end.

End Controller.

(** ** Concurrent set-ups

    [_setup_node] is started as a task by the mDNS handler and awaited by the
    commissioning commands and the fallback scanner, so several of its
    coroutines are alive at once and take turns at their suspension points.
    [Protocol] follows the coroutines of [_setup_node] at that grain: the two
    guards and [self._nodes_in_setup.add] run without suspension; the
    coroutine then waits for a permit of [_node_setup_throttle]; with the
    permit it arms the watchdog and runs the [try] block, which it leaves by
    reaching its end, by a [return] or by an exception; the [finally] clause
    and the release of the permit run without suspension.  While the [try]
    block runs, the watchdog may fire: [log_node_long_setup] then stores a new
    timer in [log_timers[node_id]].  What the [try] block does to the rest
    of the controller is left out (it touches neither [_nodes_in_setup], nor
    the throttle, nor the watchdog).  Cancelling a task is not modelled. *)

Module Protocol.

Inductive Phase : Type :=
| Entering
| WaitingForPermit
| InTry (log_timer : nat)
| Finished (raised : option PyError).

Inductive TimerState : Type :=
| Armed
| Fired
| Cancelled.

(** [watchdogs]: the timers armed by the coroutines, each with the index of
    the coroutine that owns it.  [tasks]: the coroutines with the node id
    they were called with. *)
Record Sched : Type := {
  known_nodes : gset Z;
  nodes_in_setup : gset Z;
  permits : nat;
  watchdogs : list (nat * TimerState);
  tasks : list (Z * Phase);
}.

Inductive Event : Type :=
| Spawn (node_id : Z)
| Resume (task : nat)
| Leave (task : nat) (raised : option PyError)
| WatchdogFires (task : nat)
| NodeAdded (node_id : Z)
| NodeRemoved (node_id : Z).

Definition set_phase (task : nat) (p : Phase) (l : list (Z * Phase))
  : list (Z * Phase) :=
  alter (fun t => (fst t, p)) task l.

Definition set_timer (h : nat) (s : TimerState) (l : list (nat * TimerState))
  : list (nat * TimerState) :=
  alter (fun t => (fst t, s)) h l.

(** One move of the event loop; [None] when the move is not possible in the
    state. *)
Definition step (s : Sched) (e : Event) : option Sched :=
  match e with
  | Spawn node_id =>
      Some {| known_nodes := known_nodes s;
              nodes_in_setup := nodes_in_setup s;
              permits := permits s;
              watchdogs := watchdogs s;
              tasks := tasks s ++ [(node_id, Entering)] |}
  | Resume task =>
      match tasks s !! task with
      | Some (node_id, Entering) =>
          if bool_decide (node_id ∉ known_nodes s) then
            Some {| known_nodes := known_nodes s;
                    nodes_in_setup := nodes_in_setup s;
                    permits := permits s;
                    watchdogs := watchdogs s;
                    tasks := set_phase task (Finished (Some NodeNotExists))
                                       (tasks s) |}
          else if bool_decide (node_id ∈ nodes_in_setup s) then
            Some {| known_nodes := known_nodes s;
                    nodes_in_setup := nodes_in_setup s;
                    permits := permits s;
                    watchdogs := watchdogs s;
                    tasks := set_phase task (Finished None) (tasks s) |}
          else
            Some {| known_nodes := known_nodes s;
                    nodes_in_setup := {[node_id]} ∪ nodes_in_setup s;
                    permits := permits s;
                    watchdogs := watchdogs s;
                    tasks := set_phase task WaitingForPermit (tasks s) |}
      | Some (node_id, WaitingForPermit) =>
          match permits s with
          | O => None
          | S p =>
              Some {| known_nodes := known_nodes s;
                      nodes_in_setup := nodes_in_setup s;
                      permits := p;
                      watchdogs := watchdogs s ++ [(task, Armed)];
                      tasks := set_phase task
                                 (InTry (length (watchdogs s))) (tasks s) |}
          end
      | _ => None
      end
  | WatchdogFires task =>
      match tasks s !! task with
      | Some (node_id, InTry log_timer) =>
          match watchdogs s !! log_timer with
          | Some (_, Armed) =>
              Some {| known_nodes := known_nodes s;
                      nodes_in_setup := nodes_in_setup s;
                      permits := permits s;
                      watchdogs :=
                        set_timer log_timer Fired (watchdogs s)
                        ++ [(task, Armed)];
                      tasks := set_phase task
                                 (InTry (length (watchdogs s))) (tasks s) |}
          | _ => None
          end
      | _ => None
      end
  | Leave task raised =>
      match tasks s !! task with
      | Some (node_id, InTry log_timer) =>
          Some {| known_nodes := known_nodes s;
                  nodes_in_setup := nodes_in_setup s ∖ {[node_id]};
                  permits := S (permits s);
                  watchdogs := set_timer log_timer Cancelled (watchdogs s);
                  tasks := set_phase task (Finished raised) (tasks s) |}
      | _ => None
      end
  | NodeAdded node_id =>
      Some {| known_nodes := {[node_id]} ∪ known_nodes s;
              nodes_in_setup := nodes_in_setup s;
              permits := permits s;
              watchdogs := watchdogs s;
              tasks := tasks s |}
  | NodeRemoved node_id =>
      Some {| known_nodes := known_nodes s ∖ {[node_id]};
              nodes_in_setup := nodes_in_setup s;
              permits := permits s;
              watchdogs := watchdogs s;
              tasks := tasks s |}
  end.

Fixpoint run (s : Sched) (events : list Event) : option Sched :=
  match events with
  | [] => Some s
  | e :: events' =>
      match step s e with
      | Some s' => run s' events'
      | None => None
      end
  end.

(** The controller after [__init__], with the nodes loaded by [start]. *)
Definition start (nodes : gset Z) : Sched :=
  {| known_nodes := nodes; nodes_in_setup := ∅; permits := 5;
     watchdogs := []; tasks := [] |}.

(** A coroutine is in a set-up from the moment it has marked its node until
    it has run the [finally] clause. *)
Definition setting_up (p : Phase) : bool :=
  match p with
  | WaitingForPermit | InTry _ => true
  | Entering | Finished _ => false
  end.

End Protocol.

(** ** Reading a trace *)

Definition is_commission_call (e : Effect) : bool :=
  match e with
  | Sdk (SdkCommissionWithCode _ _ _)
  | Sdk (SdkCommissionOnNetwork _ _ _ _)
  | Sdk (SdkCommissionIp _ _ _) => true
  | _ => false
  end.

Definition is_sdk_call (e : Effect) : bool :=
  match e with
  | Sdk _ => true
  | _ => false
  end.

Definition is_sleep (e : Effect) : bool :=
  match e with
  | Sleep _ => true
  | _ => false
  end.

Definition signals (event : EventType) (e : Effect) : bool :=
  match e, event with
  | SignalEvent NODE_ADDED _, NODE_ADDED
  | SignalEvent NODE_UPDATED _, NODE_UPDATED
  | SignalEvent NODE_REMOVED _, NODE_REMOVED
  | SignalEvent NODE_EVENT _, NODE_EVENT
  | SignalEvent ATTRIBUTE_UPDATED _, ATTRIBUTE_UPDATED
  | SignalEvent ENDPOINT_ADDED _, ENDPOINT_ADDED
  | SignalEvent ENDPOINT_REMOVED _, ENDPOINT_REMOVED => true
  | _, _ => false
  end.

Definition count (p : Effect -> bool) (t : list Effect) : nat :=
  length (List.filter p t).

(** The items of a read whose value differs from the cached one, and the
    events that announce them. *)
Definition changed_items (cache : gmap string Value)
  (items : list (string * Value)) : list (string * Value) :=
  List.filter
    (fun kv => negb (py_eq (default VNone (cache !! fst kv)) (snd kv)))
    items.

Definition attribute_events (node_id : Z) (items : list (string * Value))
  : list Effect :=
  map (fun kv =>
         SignalEvent ATTRIBUTE_UPDATED
           (AttributeTuple node_id (fst kv) (snd kv)))
      items.

(** A run of resubscription-attempted callbacks of one subscription, each
    with its termination error and next interval. *)
Definition resubscription_attempts (node_id : Z) (node : loc)
  (callbacks : list (Z * Z)) : M unit :=
  for_each callbacks (fun c =>
    resubscription_attempted node_id node (fst c) (snd c)).

(** The error kinds the command API documents. *)
Definition documented_error (e : PyError) : bool :=
  match e with
  | NodeNotExists | NodeNotReady | NodeCommissionFailed
  | NodeInterviewFailed | NodeNotResolving | InvalidArguments => true
  | _ => false
  end.

(** The node dicts of a dump that has one of the two accepted shapes. *)
Definition dump_nodes_of {NodeDict : Type} (d : DumpData NodeDict)
  : option (list NodeDict) :=
  match d with
  | DumpNode node => Some [node]
  | DumpServerNodes nodes => Some nodes
  | DumpOther _ => None
  end.

(** ** States and adapters the statements speak of *)

(** The state after an SDK call and after a sleep. *)
Definition called (e : Effect) (st : Controller) : Controller :=
  set_tick (S (tick st)) (set_trace (trace st ++ [e]) st).

Definition slept (seconds : Z) (st : Controller) : Controller :=
  set_clock (clock st + seconds) (set_trace (trace st ++ [Sleep seconds]) st).

(** An adapter that reports non-success whenever it is asked. *)
Definition always_fails (answer : nat -> Outcome (option PyChipError)) : Prop :=
  forall n, exists r, answer n = Returns r /\ commission_succeeded r = false.

(** The task that [resubscription_attempted] creates, if any. *)
Definition offline_task (node_id : Z) (unavailable : bool) (interval : Z)
  : list Effect :=
  if unavailable && (interval >? NODE_RESUBSCRIBE_TIMEOUT_OFFLINE)
  then [CreateTask (TaskNodeOffline node_id)]
  else [].

(** ** Concrete controllers and collaborators, for the examples *)

Module Fixtures.

Definition Tlv : Type := list (string * Value).

(** The controller after [__init__]. *)
Definition fresh : Controller :=
  {| storage_last_node_id := None; heap := ∅; _nodes := ∅;
     _nodes_in_setup := ∅; _node_last_seen := ∅;
     _last_known_ip_addresses := ∅; _last_subscription_attempt := ∅;
     _known_commissioning_params := ∅; _node_setup_throttle := 5;
     _polled_attributes := ∅; _custom_attribute_poller_timer := None;
     subscription_callbacks := ∅; timers := []; clock := 0; tick := 0;
     trace := [] |}.

Definition node (i : Z) (av bridge : bool) (attrs : list (string * Value))
  : MatterNodeData :=
  {| node_id := i; date_commissioned := 0; last_interview := 0;
     interview_version := 6; available := av; is_bridge := bridge;
     attributes := dict_update attrs ∅; attribute_subscriptions := [] |}.

(** A controller that knows one node, with a live subscription. *)
Definition with_node (n : MatterNodeData) : Controller :=
  set_subscription_callbacks {[node_id n := 0%nat]}
    (set_last_subscription_attempt {[node_id n := 0]}
       (set_nodes {[node_id n := 0%nat]} (set_heap {[0%nat := n]} fresh))).

Definition env : Environment Tlv MatterNodeData :=
  {| DATA_MODEL_SCHEMA_VERSION := 6;
     parse_attributes_from_read_result := fun tlv => tlv;
     parse_attribute_path := fun _ =>
       Returns {| EndpointId := None; ClusterId := None;
                  AttributeId := None |};
     check_polled_attributes := fun _ => [];
     scope_ipv6_lla := fun a => a;
     json_loads := fun dump =>
       if String.eqb dump "" then None
       else Some (DumpNode (node 5 true false []));
     dataclass_from_dict := fun n => Returns n;
     entropy := fun n => 123456 + Z.of_nat n;
     mdns_info_request := fun _ _ => None;
     ping_ip := fun _ _ _ _ => Returns true |}.

(** An SDK whose commissioning calls report [commission] and whose reads
    yield [read]. *)
Definition sdk (commission : Outcome (option PyChipError))
  (read : Outcome Tlv) : ChipDeviceControllerWrapper Tlv :=
  {| sdk_commission_with_code := fun _ _ _ _ => commission;
     sdk_commission_on_network := fun _ _ _ _ _ => commission;
     sdk_commission_ip := fun _ _ _ _ => commission;
     sdk_open_commissioning_window := fun _ _ _ _ _ _ =>
       Returns {| setupPinCode := 20202021;
                  setupManualCode := "34970112332";
                  setupQRCode := "MT:Y.K9042C00KA0648G00" |};
     sdk_read_attribute := fun _ _ => read;
     sdk_subscribe := fun _ _ _ _ => read;
     sdk_read := fun _ _ _ _ => read;
     sdk_shutdown_subscription := fun _ _ => Returns tt;
     sdk_find_or_establish_case_session := fun _ _ => Returns tt;
     sdk_get_address_and_port := fun _ _ => Returns None |}.

(** An SDK that cannot establish a session: the call raises [e]. *)
Definition session_fails (e : PyError) : ChipDeviceControllerWrapper Tlv :=
  {| sdk_commission_with_code := fun _ _ _ _ => Returns None;
     sdk_commission_on_network := fun _ _ _ _ _ => Returns None;
     sdk_commission_ip := fun _ _ _ _ => Returns None;
     sdk_open_commissioning_window := fun _ _ _ _ _ _ => Raises ChipStackError;
     sdk_read_attribute := fun _ _ => Raises ChipStackError;
     sdk_subscribe := fun _ _ _ _ => Raises ChipStackError;
     sdk_read := fun _ _ _ _ => Raises ChipStackError;
     sdk_shutdown_subscription := fun _ _ => Returns tt;
     sdk_find_or_establish_case_session := fun _ _ => Raises e;
     sdk_get_address_and_port := fun _ _ => Returns None |}.

Definition commission_fails : ChipDeviceControllerWrapper Tlv :=
  sdk (Returns (Some {| code := 50 |})) (Raises ChipStackError).

Definition interview_fails : ChipDeviceControllerWrapper Tlv :=
  sdk (Returns (Some {| code := 0 |})) (Raises ChipStackError).

Definition healthy (read : Tlv) : ChipDeviceControllerWrapper Tlv :=
  sdk (Returns (Some {| code := 0 |})) (Returns read).

End Fixtures.

(** ** What the steps of a set-up leave alone

    [frame st st']: from [st] to [st'] the set of nodes in set-up and the
    permits of the throttle are unchanged, and every timer is still there,
    with its delay and callback, and still cancelled if it was. *)

Definition same_timer (t t' : TimerHandle) : Prop :=
  delay t' = delay t
  /\ callback t' = callback t
  /\ (cancelled t = true -> cancelled t' = true).

Definition frame (st st' : Controller) : Prop :=
  _nodes_in_setup st' = _nodes_in_setup st
  /\ _node_setup_throttle st' = _node_setup_throttle st
  /\ forall h t, timers st !! h = Some t ->
       exists t', timers st' !! h = Some t' /\ same_timer t t'.

Definition preserves {A : Type} (m : M A) : Prop :=
  forall st, frame st (snd (m st)).

(** The controller when [_setup_node] enters its [try] block, [p] permits
    being left, and what the [finally] clause and the release of the permit
    make of the controller [s] the block ends in. *)
Definition armed (node_id : Z) (p : nat) (st : Controller) : Controller :=
  set_timers
    (timers st
     ++ [{| delay := 15 * 60;
            callback := LogNodeLongSetup node_id (clock st);
            cancelled := false |}])
    (set_node_setup_throttle p
       (set_nodes_in_setup ({[node_id]} ∪ _nodes_in_setup st) st)).

Definition finished (node_id : Z) (log_timer : nat) (s : Controller)
  : Controller :=
  let s1 :=
    set_nodes_in_setup (_nodes_in_setup s ∖ {[node_id]})
      (set_timers
         (alter (fun t => {| delay := delay t; callback := callback t;
                             cancelled := true |}) log_timer (timers s))
         s) in
  set_node_setup_throttle (S (_node_setup_throttle s1)) s1.

(** ** Serialized set-ups

    In a state of [Protocol]: two coroutines that are setting up the same
    node are the same coroutine; the node of a coroutine that is setting up
    is marked in [nodes_in_setup]; an armed watchdog is the timer that the
    coroutine owning it holds in [log_timers], and that coroutine is in its
    [try] block. *)
Definition serialized (s : Protocol.Sched) : Prop :=
  (forall i j n p q,
     Protocol.tasks s !! i = Some (n, p) ->
     Protocol.tasks s !! j = Some (n, q) ->
     Protocol.setting_up p = true ->
     Protocol.setting_up q = true ->
     i = j)
  /\ (forall i n p,
        Protocol.tasks s !! i = Some (n, p) ->
        Protocol.setting_up p = true ->
        n ∈ Protocol.nodes_in_setup s)
  /\ (forall h o,
        Protocol.watchdogs s !! h = Some (o, Protocol.Armed) ->
        exists n, Protocol.tasks s !! o = Some (n, Protocol.InTry h)).

(** * More of the controller

    The definitions below serve the properties of the second part of the
    development: what the code does beyond the ten claims above. *)

(** ** The interview *)

(** The id a record carries (the field [node_id], for statements that have a
    node id of their own). *)
Definition id_of (n : MatterNodeData) : Z := node_id n.

(** How [interview_node] tells a bridge: the cached device-type list of
    endpoint 1, if there is one and it is not empty, has an entry whose
    field 0 is 14. *)
Definition detect_bridge (attrs : gmap string Value) : Outcome bool :=
  match attrs !! "1/29/0"%string with
  | Some attr_data =>
      if truthy attr_data then
        match py_iter attr_data with
        | Returns items => any_device_type_14 items
        | Raises e => Raises e
        | Pending => Pending
        | Stuck => Stuck
        end
      else Returns false
  | None => Returns false
  end.

(** The record an interview builds at time [now] from the decoded read, for
    a node that had the record [existing] before. *)
Definition interviewed (schema : Z) (node_id now : Z)
  (existing : option MatterNodeData) (decoded : list (string * Value))
  (bridge : bool) : MatterNodeData :=
  {| node_id := node_id;
     date_commissioned :=
       match existing with Some e => date_commissioned e | None => now end;
     last_interview := now;
     interview_version := schema;
     available :=
       match existing with Some e => available e | None => false end;
     is_bridge := bridge;
     attributes := dict_update decoded ∅;
     attribute_subscriptions :=
       match existing with
       | Some e => attribute_subscriptions e
       | None => []
       end |}.

(** A device-type entry as the SDK decodes it: a structure with the device
    type under tag 0 and the revision under tag 1. *)
Definition device_type_entry (device_type revision : Z) : Value :=
  VStruct [(0, VInt device_type); (1, VInt revision)].

(** ** Subscriptions *)

(** The ceiling of the report interval that [_subscribe_node] asks for, from
    the cached routing role. *)
Definition subscription_ceiling (attrs : gmap string Value) : Z :=
  match attrs !! ROUTING_ROLE_ATTRIBUTE_PATH with
  | None | Some VNone => NODE_SUBSCRIPTION_CEILING_WIFI
  | Some routing_role =>
      if py_eq routing_role (VInt kSleepyEndDevice)
      then NODE_SUBSCRIPTION_CEILING_BATTERY_POWERED
      else NODE_SUBSCRIPTION_CEILING_THREAD
  end.

(** ** Bridged endpoints *)

(** Whether an attribute path belongs to one of the endpoints: it starts
    with the id of the endpoint and a slash. *)
Definition of_endpoints (endpoints : list Hashable) (key : string) : bool :=
  existsb (fun e => String.prefix (py_str e ++ "/") key) endpoints.

Definition endpoint_events (event : EventType) (node_id : Z)
  (endpoints : list Hashable) : list Effect :=
  map (fun e => SignalEvent event (EndpointDict node_id e)) endpoints.

(** What [_write_node_state] adds to the trace. *)
Definition node_state_write (st : Controller) (node_id : Z) (force : bool)
  : list Effect :=
  match _nodes st !! node_id with
  | Some node =>
      if node_id >=? TEST_NODE_START then []
      else [StorageSetNode (pretty node_id) node force]
  | None => []
  end.

(** ** Addresses *)

(** Whether an address carries an interface index ([fe80::1%eth0]). *)
Fixpoint scoped_address (ip_address : string) : bool :=
  match ip_address with
  | EmptyString => false
  | String c rest => Ascii.eqb c "%"%char || scoped_address rest
  end.

(** The addresses as [get_node_ip_addresses] hands them out. *)
Definition addresses_view (scoped : bool) (ip_addresses : list string)
  : list string :=
  if scoped then ip_addresses else map strip_interface ip_addresses.

Definition ping_timeout (attrs : gmap string Value) : Z :=
  if py_eq (default (VInt 0) (attrs !! ROUTING_ROLE_ATTRIBUTE_PATH))
           (VInt kSleepyEndDevice)
  then NODE_PING_TIMEOUT_BATTERY_POWERED
  else NODE_PING_TIMEOUT.

Module Network.

(** A network where mDNS answers [ips] and [reachable] tells which addresses
    answer a ping. *)
Definition env (ips : option (list string)) (reachable : string -> bool)
  : Environment Fixtures.Tlv MatterNodeData :=
  {| DATA_MODEL_SCHEMA_VERSION := 6;
     parse_attributes_from_read_result := fun tlv => tlv;
     parse_attribute_path := fun _ =>
       Returns {| EndpointId := None; ClusterId := None;
                  AttributeId := None |};
     check_polled_attributes := fun _ => [];
     scope_ipv6_lla := fun a => a;
     json_loads := fun _ => None;
     dataclass_from_dict := fun n => Returns n;
     entropy := fun n => 123456 + Z.of_nat n;
     mdns_info_request := fun _ _ => ips;
     ping_ip := fun _ ip _ _ => Returns (reachable ip) |}.

(** An SDK that talks to the node over [active]. *)
Definition sdk (active : option (string * Z))
  : ChipDeviceControllerWrapper Fixtures.Tlv :=
  {| sdk_commission_with_code := fun _ _ _ _ => Returns None;
     sdk_commission_on_network := fun _ _ _ _ _ => Returns None;
     sdk_commission_ip := fun _ _ _ _ => Returns None;
     sdk_open_commissioning_window := fun _ _ _ _ _ _ => Raises ChipStackError;
     sdk_read_attribute := fun _ _ => Returns [];
     sdk_subscribe := fun _ _ _ _ => Returns [];
     sdk_read := fun _ _ _ _ => Returns [];
     sdk_shutdown_subscription := fun _ _ => Returns tt;
     sdk_find_or_establish_case_session := fun _ _ => Returns tt;
     sdk_get_address_and_port := fun _ _ => Returns active |}.

End Network.

(** ** The poller of custom attributes *)

Definition is_poller (t : TimerHandle) : bool :=
  match callback t with
  | RunCustomAttributesPoller => true
  | _ => false
  end.

(** A timer of the poller that the event loop is still to run. *)
Definition armed_poller (t : TimerHandle) : bool :=
  is_poller t && negb (cancelled t).

(** The handle the controller holds is a timer of the poller, and no other
    timer of the poller is armed. *)
Definition single_poller (st : Controller) : Prop :=
  (forall h, _custom_attribute_poller_timer st = Some h ->
             exists t, timers st !! h = Some t /\ is_poller t = true)
  /\ (forall h t, timers st !! h = Some t -> armed_poller t = true ->
                  _custom_attribute_poller_timer st = Some h).

Definition cancel (t : TimerHandle) : TimerHandle :=
  {| delay := delay t; callback := callback t; cancelled := true |}.

(** The timers once the handle the controller holds is cancelled. *)
Definition poller_cancelled (st : Controller) : list TimerHandle :=
  match _custom_attribute_poller_timer st with
  | Some h => alter cancel h (timers st)
  | None => timers st
  end.

(** ** Commissioning on the network *)

(** The request [commission_on_network] sends to the SDK. *)
Definition on_network_request (scope : string -> string)
  (node_id setup_pin_code filter_type : Z) (filter : Value)
  (ip_addr : option string) : SdkRequest :=
  match ip_addr with
  | None => SdkCommissionOnNetwork node_id setup_pin_code filter_type filter
  | Some a => SdkCommissionIp node_id setup_pin_code (scope a)
  end.

(** What the SDK answers to it at interaction [n]. *)
Definition on_network_answer {T : Type} (sdk : ChipDeviceControllerWrapper T)
  (scope : string -> string) (n : nat)
  (node_id setup_pin_code filter_type : Z) (filter : Value)
  (ip_addr : option string) : Outcome (option PyChipError) :=
  match ip_addr with
  | None =>
      sdk_commission_on_network sdk n node_id setup_pin_code filter_type filter
  | Some a => sdk_commission_ip sdk n node_id setup_pin_code (scope a)
  end.

Section Poller.

Context {TlvAttributes NodeDict : Type}.
Variable sdk : ChipDeviceControllerWrapper TlvAttributes.
Variable env : Environment TlvAttributes NodeDict.

(** The [for node_id in tuple(self._polled_attributes)] loop of
    [_custom_attributes_poller], over the node ids of the tuple.  An
    unavailable node is passed over ([continue]) without a read and without
    a sleep. *)
Fixpoint poll_nodes (node_ids : list Z) : M unit :=
  match node_ids with
  | [] => ret tt
  | node_id :: rest =>
      let* nodes := gets _nodes in
      match nodes !! node_id with
      | None => raise KeyError
      | Some node =>
          let* nd := deref node in
          if negb (available nd) then poll_nodes rest
          else
            let* polled := gets _polled_attributes in
            match polled !! node_id with
            | None => raise KeyError
            | Some attribute_paths =>
                try_except
                  (read_attribute sdk env node_id attribute_paths false ;;;
                   ret tt)
                  (fun e => PyError_eqb ChipStackError e
                            || PyError_eqb NodeNotReady e)
                  (fun _ => ret tt) ;;;
                sleep 2 ;;;
                poll_nodes rest
            end
      end
  end.

(** The keys of the dictionary are taken in the order of [map_to_list]; the
    statements about the poller do not depend on the order. *)
Definition _custom_attributes_poller : M unit :=
  let* polled := gets _polled_attributes in
  poll_nodes (map fst (map_to_list polled)) ;;;
  _schedule_custom_attributes_poller.

End Poller.

(** Whether the registry holds an available node under the id. *)
Definition is_available (st : Controller) (node_id : Z) : bool :=
  match _nodes st !! node_id with
  | Some node =>
      match heap st !! node with
      | Some nd => available nd
      | None => false
      end
  | None => false
  end.

(** From [st] to [st'] the registry, the attributes to poll and the timers
    are unchanged, and every node object is still there, as available as it
    was. *)
Definition same_nodes (st st' : Controller) : Prop :=
  _nodes st' = _nodes st
  /\ _polled_attributes st' = _polled_attributes st
  /\ timers st' = timers st
  /\ _custom_attribute_poller_timer st' = _custom_attribute_poller_timer st
  /\ forall l nd, heap st !! l = Some nd ->
       exists nd', heap st' !! l = Some nd' /\ available nd' = available nd.

(** The ids of the nodes that have attributes to poll. *)
Definition polled_ids (st : Controller) : list Z :=
  map fst (map_to_list (_polled_attributes st)).

Module Dumps.

(** A dump of two nodes, the second of which does not parse. *)
Definition env : Environment Fixtures.Tlv (option MatterNodeData) :=
  {| DATA_MODEL_SCHEMA_VERSION := 6;
     parse_attributes_from_read_result := fun tlv => tlv;
     parse_attribute_path := fun _ =>
       Returns {| EndpointId := None; ClusterId := None;
                  AttributeId := None |};
     check_polled_attributes := fun _ => [];
     scope_ipv6_lla := fun a => a;
     json_loads := fun _ =>
       Some (DumpServerNodes [Some (Fixtures.node 5 true false []); None]);
     dataclass_from_dict := fun d =>
       match d with
       | Some n => Returns n
       | None => Raises KeyError
       end;
     entropy := fun n => Z.of_nat n;
     mdns_info_request := fun _ _ => None;
     ping_ip := fun _ _ _ _ => Returns true |}.

End Dumps.

Module Flaky.

(** An SDK whose wildcard read fails at the interactions [n] that [fails]
    tells, and yields [read] at the others. *)
Definition sdk (fails : nat -> bool) (read : Fixtures.Tlv)
  : ChipDeviceControllerWrapper Fixtures.Tlv :=
  {| sdk_commission_with_code := fun _ _ _ _ => Returns (Some {| code := 0 |});
     sdk_commission_on_network := fun _ _ _ _ _ =>
       Returns (Some {| code := 0 |});
     sdk_commission_ip := fun _ _ _ _ => Returns (Some {| code := 0 |});
     sdk_open_commissioning_window := fun _ _ _ _ _ _ => Raises ChipStackError;
     sdk_read_attribute := fun n _ =>
       if fails n then Raises ChipStackError else Returns read;
     sdk_subscribe := fun _ _ _ _ => Returns read;
     sdk_read := fun _ _ _ _ => Returns read;
     sdk_shutdown_subscription := fun _ _ => Returns tt;
     sdk_find_or_establish_case_session := fun _ _ => Returns tt;
     sdk_get_address_and_port := fun _ _ => Returns None |}.

End Flaky.

(** * Properties *)

(** ** Node ids *)

(** C3, as the code has it: [_get_next_node_id] returns the stored value plus
    one (one, when nothing is stored), has written it back with [force=True]
    when it returns, and the id is below the test-node range exactly when the
    stored value is below 899999: the function has no bound of its own. *)
Theorem get_next_node_id_increments (st : Controller) :
  let stored := default 0 (storage_last_node_id st) in
  exists st',
    _get_next_node_id st = (Returns (stored + 1), st')
    /\ storage_last_node_id st' = Some (stored + 1)
    /\ trace st' = trace st ++ [StorageSetLastNodeId (stored + 1) true]
    /\ (stored + 1 < TEST_NODE_START <-> stored < 899999).
Proof.
  intros stored. unfold _get_next_node_id, bind, gets, modify, emit, ret.
  cbn. eexists. split; [reflexivity|].
  cbn. repeat split; unfold TEST_NODE_START in *; lia.
Qed.

(** C3, as stated, fails: with 899999 stored, the next id is 900000, the
    first id of the test-node range. *)
Lemma get_next_node_id_reaches_test_range :
  let st := set_storage_last_node_id (Some 899999) Fixtures.fresh in
  fst (_get_next_node_id st) = Returns 900000
  /\ ~ (900000 < TEST_NODE_START).
Proof. split; [reflexivity | unfold TEST_NODE_START; lia]. Qed.

(** ** Commissioning *)

Lemma geb_true a b : b <= a -> (a >=? b) = true.
Proof. intros. apply Z.geb_le. lia. Qed.

Lemma geb_false a b : a < b -> (a >=? b) = false.
Proof. intros. rewrite Z.geb_leb. apply Z.leb_gt. lia. Qed.

(** One failed attempt that is not the last: a call, then a sleep. *)
Lemma commission_loop_retry fuel call answer attempts st r :
  attempts + 1 < MAX_COMMISSION_RETRIES ->
  answer (tick st) = Returns r ->
  commission_succeeded r = false ->
  commission_loop (S fuel) (await call answer) attempts st
  = commission_loop fuel (await call answer) (attempts + 1)
      (slept 5 (called call st)).
Proof.
  intros Hlt Hr Hs. cbn [commission_loop].
  replace (attempts <=? MAX_COMMISSION_RETRIES) with true
    by (symmetry; apply Z.leb_le; lia).
  unfold bind at 1. unfold await at 1. rewrite Hr, Hs.
  rewrite geb_false by lia.
  reflexivity.
Qed.

(** The failed attempt that reaches [MAX_COMMISSION_RETRIES]. *)
Lemma commission_loop_give_up fuel call answer attempts st r :
  attempts <= MAX_COMMISSION_RETRIES <= attempts + 1 ->
  answer (tick st) = Returns r ->
  commission_succeeded r = false ->
  commission_loop (S fuel) (await call answer) attempts st
  = (Raises NodeCommissionFailed, called call st).
Proof.
  intros Hle Hr Hs. cbn [commission_loop].
  replace (attempts <=? MAX_COMMISSION_RETRIES) with true
    by (symmetry; apply Z.leb_le; lia).
  unfold bind at 1. unfold await at 1. rewrite Hr, Hs.
  rewrite geb_true by lia.
  reflexivity.
Qed.

(** A successful attempt ends the loop. *)
Lemma commission_loop_success fuel call answer attempts st r :
  attempts <= MAX_COMMISSION_RETRIES ->
  answer (tick st) = Returns r ->
  commission_succeeded r = true ->
  commission_loop (S fuel) (await call answer) attempts st
  = (Returns tt, called call st).
Proof.
  intros Hle Hr Hs. cbn [commission_loop].
  replace (attempts <=? MAX_COMMISSION_RETRIES) with true
    by (symmetry; apply Z.leb_le; lia).
  unfold bind at 1. unfold await at 1. rewrite Hr, Hs.
  reflexivity.
Qed.

(** Three iterations are all the loop makes, whatever fuel is left. *)
Lemma commission_loop_exhausts fuel call answer st :
  always_fails answer ->
  commission_loop (S (S (S fuel))) (await call answer) 0 st
  = (Raises NodeCommissionFailed,
     called call (slept 5 (called call (slept 5 (called call st))))).
Proof.
  intros H.
  destruct (H (tick st)) as (r1 & Hr1 & Hs1).
  rewrite (commission_loop_retry _ _ _ _ _ r1) by (auto; reflexivity).
  set (st1 := slept 5 (called call st)).
  destruct (H (tick st1)) as (r2 & Hr2 & Hs2).
  rewrite (commission_loop_retry _ _ _ _ _ r2) by (auto; reflexivity).
  set (st2 := slept 5 (called call st1)).
  destruct (H (tick st2)) as (r3 & Hr3 & Hs3).
  rewrite (commission_loop_give_up _ _ _ _ _ r3)
    by (auto; unfold MAX_COMMISSION_RETRIES; lia).
  reflexivity.
Qed.

(** C1, as the code has it: when the adapter reports non-success on every
    attempt, [commission_with_code] and [commission_on_network] call it three
    times ([MAX_COMMISSION_RETRIES] attempts in all), sleep five seconds
    after the first and after the second attempt, and fail with
    [NodeCommissionFailed]; the node id stays allocated and no node is
    stored. *)
Theorem commission_gives_up_after_three_attempts {T N : Type}
  (sdk : ChipDeviceControllerWrapper T) (env : Environment T N)
  (st : Controller) :
  let node_id := default 0 (storage_last_node_id st) + 1 in
  (forall (code : string) (network_only : bool),
     let call :=
       Sdk (SdkCommissionWithCode node_id code
              (if network_only then DISCOVERY_NETWORK_ONLY
               else DISCOVERY_ALL)) in
     (forall c d, always_fails (fun n => sdk_commission_with_code sdk n node_id c d)) ->
     exists st',
       commission_with_code sdk env code network_only st
       = (Raises NodeCommissionFailed, st')
       /\ trace st'
          = trace st ++ [StorageSetLastNodeId node_id true;
                         call; Sleep 5; call; Sleep 5; call]
       /\ storage_last_node_id st' = Some node_id
       /\ _nodes st' = _nodes st)
  /\ (forall (setup_pin_code filter_type : Z) (filter : Value)
             (ip_addr : option string),
     let call :=
       match ip_addr with
       | None =>
           Sdk (SdkCommissionOnNetwork
                  node_id setup_pin_code filter_type filter)
       | Some a =>
           Sdk (SdkCommissionIp node_id setup_pin_code (scope_ipv6_lla env a))
       end in
     (forall p f v,
        always_fails (fun n => sdk_commission_on_network sdk n node_id p f v)) ->
     (forall p a, always_fails (fun n => sdk_commission_ip sdk n node_id p a)) ->
     exists st',
       commission_on_network sdk env setup_pin_code filter_type filter ip_addr st
       = (Raises NodeCommissionFailed, st')
       /\ trace st'
          = trace st ++ [StorageSetLastNodeId node_id true;
                         call; Sleep 5; call; Sleep 5; call]
       /\ storage_last_node_id st' = Some node_id
       /\ _nodes st' = _nodes st).
Proof.
  intros node_id. split.
  - intros code network_only call H.
    unfold commission_with_code.
    unfold bind at 1. unfold _get_next_node_id at 1.
    unfold bind at 1, gets at 1, bind at 1, modify at 1, bind at 1, emit at 1,
      modify at 1, ret at 1.
    fold node_id. fold call.
    unfold bind at 1.
    change (S (Z.to_nat MAX_COMMISSION_RETRIES)) with 4%nat.
    rewrite commission_loop_exhausts by apply H.
    eexists. split; [reflexivity|].
    cbn. rewrite <- !app_assoc. cbn. auto.
  - intros pin filter_type filter ip_addr call Hn Hi.
    unfold commission_on_network.
    unfold bind at 1. unfold _get_next_node_id at 1.
    unfold bind at 1, gets at 1, bind at 1, modify at 1, bind at 1, emit at 1,
      modify at 1, ret at 1.
    fold node_id.
    unfold bind at 1.
    change (S (Z.to_nat MAX_COMMISSION_RETRIES)) with 4%nat.
    destruct ip_addr as [a|]; cbv zeta.
    + rewrite commission_loop_exhausts by apply Hi.
      eexists. split; [reflexivity|].
      cbn. rewrite <- !app_assoc. cbn. auto.
    + rewrite commission_loop_exhausts by apply Hn.
      eexists. split; [reflexivity|].
      cbn. rewrite <- !app_assoc. cbn. auto.
Qed.

Lemma commission_gives_up_after_three_attempts_witness :
  exists st',
    commission_with_code Fixtures.commission_fails Fixtures.env
      "MT:Y.K9042C00KA0648G00" false Fixtures.fresh
    = (Raises NodeCommissionFailed, st')
    /\ trace st'
       = [StorageSetLastNodeId 1 true;
          Sdk (SdkCommissionWithCode 1 "MT:Y.K9042C00KA0648G00" DISCOVERY_ALL);
          Sleep 5;
          Sdk (SdkCommissionWithCode 1 "MT:Y.K9042C00KA0648G00" DISCOVERY_ALL);
          Sleep 5;
          Sdk (SdkCommissionWithCode 1 "MT:Y.K9042C00KA0648G00" DISCOVERY_ALL)]
    /\ storage_last_node_id st' = Some 1
    /\ _nodes st' = ∅.
Proof.
  apply (proj1 (commission_gives_up_after_three_attempts
                  Fixtures.commission_fails Fixtures.env Fixtures.fresh)
               "MT:Y.K9042C00KA0648G00"%string false).
  intros c d n. exists (Some {| code := 50 |}). split; reflexivity.
Defined.

(** C1, as stated, fails: an adapter that reports non-success every time is
    asked three times, not four, and the loop sleeps twice. *)
Lemma commission_makes_no_fourth_attempt :
  let run :=
    commission_with_code Fixtures.commission_fails Fixtures.env
      "MT:Y.K9042C00KA0648G00" false Fixtures.fresh in
  let run' :=
    commission_on_network Fixtures.commission_fails Fixtures.env
      20202021 0 VNone None Fixtures.fresh in
  fst run = Raises NodeCommissionFailed
  /\ count is_commission_call (trace (snd run)) = 3%nat
  /\ count is_commission_call (trace (snd run)) <> 4%nat
  /\ fst run' = Raises NodeCommissionFailed
  /\ count is_commission_call (trace (snd run')) = 3%nat
  /\ count is_commission_call (trace (snd run')) <> 4%nat.
Proof. vm_compute. repeat split; congruence. Qed.

(** ** The first interview *)

Lemma interview_node_read_fails {T N : Type}
  (sdk : ChipDeviceControllerWrapper T) (env : Environment T N)
  node_id st e :
  node_id < TEST_NODE_START ->
  sdk_read_attribute sdk (tick st) node_id = Raises e ->
  interview_node sdk env node_id st
  = (Raises (if PyError_eqb ChipStackError e then NodeInterviewFailed else e),
     called (Sdk (SdkReadAttribute node_id false)) st).
Proof.
  intros Hlt He. unfold interview_node.
  rewrite geb_false by assumption.
  unfold bind at 1, try_except at 1, await at 1. rewrite He.
  destruct (PyError_eqb ChipStackError e); reflexivity.
Qed.

(** A failed attempt of the interview loop: the handler never re-raises,
    because [retries] is tested before it is decremented. *)
Lemma interview_loop_retry {T N : Type}
  (sdk : ChipDeviceControllerWrapper T) (env : Environment T N)
  fuel catches node_id retries st e st1 :
  0 < retries ->
  interview_node sdk env node_id st = (Raises e, st1) ->
  catches e = true ->
  interview_loop sdk env (S fuel) catches node_id retries st
  = interview_loop sdk env fuel catches node_id (retries - 1) (slept 5 st1).
Proof.
  intros Hpos Hi Hc. cbn [interview_loop].
  replace (retries =? 0) with false by (symmetry; apply Z.eqb_neq; lia).
  unfold bind at 1, try_except at 1, bind at 1. rewrite Hi, Hc.
  replace (retries <=? 0) with false by (symmetry; apply Z.leb_gt; lia).
  reflexivity.
Qed.

(** When every read of the interview raises a stack error, the loop of
    [commission_with_code] makes three attempts, sleeps after each of them,
    and ends without an exception, whatever fuel is left. *)
Lemma interview_loop_swallows_the_error {T N : Type}
  (sdk : ChipDeviceControllerWrapper T) (env : Environment T N)
  fuel node_id st :
  node_id < TEST_NODE_START ->
  (forall n, sdk_read_attribute sdk n node_id = Raises ChipStackError) ->
  let read := Sdk (SdkReadAttribute node_id false) in
  interview_loop sdk env (S (S (S fuel)))
    (fun e => PyError_eqb NodeNotResolving e
              || PyError_eqb NodeInterviewFailed e)
    node_id 3 st
  = (Returns tt,
     slept 5 (called read (slept 5 (called read (slept 5 (called read st)))))).
Proof.
  intros Hlt H read.
  rewrite (interview_loop_retry sdk env _ _ _ _ _ NodeInterviewFailed
             (called read st));
    [| lia | apply (interview_node_read_fails sdk env _ _ ChipStackError); auto
     | reflexivity].
  rewrite (interview_loop_retry sdk env _ _ _ _ _ NodeInterviewFailed
             (called read (slept 5 (called read st))));
    [| lia | apply (interview_node_read_fails sdk env _ _ ChipStackError); auto
     | reflexivity].
  rewrite (interview_loop_retry sdk env _ _ _ _ _ NodeInterviewFailed
             (called read (slept 5 (called read (slept 5 (called read st))))));
    [| lia | apply (interview_node_read_fails sdk env _ _ ChipStackError); auto
     | reflexivity].
  destruct fuel; reflexivity.
Qed.

(** What [commission_with_code] does when commissioning succeeds at once and
    every read of the interview fails: the interview error is lost, the
    command goes on to [_setup_node], and that raises [NodeNotExists] because
    no interview has stored the node. *)
Lemma commission_with_code_loses_the_interview_error {T N : Type}
  (sdk : ChipDeviceControllerWrapper T) (env : Environment T N)
  (pairing_code : string) (network_only : bool) (st : Controller) :
  let node_id := default 0 (storage_last_node_id st) + 1 in
  let discovery :=
    if network_only then DISCOVERY_NETWORK_ONLY else DISCOVERY_ALL in
  let read := Sdk (SdkReadAttribute node_id false) in
  node_id < TEST_NODE_START ->
  _nodes st !! node_id = None ->
  sdk_commission_with_code sdk (tick st) node_id pairing_code discovery
  = Returns (Some {| code := 0 |}) ->
  (forall n, sdk_read_attribute sdk n node_id = Raises ChipStackError) ->
  exists st',
    commission_with_code sdk env pairing_code network_only st
    = (Raises NodeNotExists, st')
    /\ trace st'
       = trace st ++ [StorageSetLastNodeId node_id true;
                      Sdk (SdkCommissionWithCode node_id pairing_code discovery);
                      read; Sleep 5; read; Sleep 5; read; Sleep 5].
Proof.
  intros node_id discovery read Hlt Hnew Hc Hr.
  unfold commission_with_code.
  unfold bind at 1. unfold _get_next_node_id at 1.
  unfold bind at 1, gets at 1, bind at 1, modify at 1, bind at 1, emit at 1,
    modify at 1, ret at 1.
  fold node_id. fold discovery.
  unfold bind at 1.
  rewrite (commission_loop_success _ _ _ _ _ (Some {| code := 0 |}));
    [| unfold MAX_COMMISSION_RETRIES; lia | exact Hc | reflexivity].
  unfold bind at 1.
  rewrite (interview_loop_swallows_the_error sdk env 0%nat) by assumption.
  unfold bind at 1, _setup_node at 1, bind at 1, gets at 1.
  cbn [_nodes slept called set_tick set_trace set_clock
       set_storage_last_node_id].
  rewrite Hnew. unfold raise.
  eexists. split; [reflexivity|].
  cbn. rewrite <- !app_assoc. reflexivity.
Qed.

(** C2 does not hold of the code.  With an SDK that commissions at the first
    attempt and fails every read, [commission_with_code] attempts the
    interview three times, sleeps after each attempt (three times), and then
    fails with [NodeNotExists], raised by [_setup_node]: the error of the
    interview, [NodeInterviewFailed], is not what the caller sees. *)
Theorem commission_with_code_interview_exhaustion :
  let run :=
    commission_with_code Fixtures.interview_fails Fixtures.env
      "MT:Y.K9042C00KA0648G00" false Fixtures.fresh in
  fst run = Raises NodeNotExists
  /\ fst run <> Raises NodeInterviewFailed
  /\ trace (snd run)
     = [StorageSetLastNodeId 1 true;
        Sdk (SdkCommissionWithCode 1 "MT:Y.K9042C00KA0648G00" DISCOVERY_ALL);
        Sdk (SdkReadAttribute 1 false); Sleep 5;
        Sdk (SdkReadAttribute 1 false); Sleep 5;
        Sdk (SdkReadAttribute 1 false); Sleep 5]
  /\ interview_node Fixtures.interview_fails Fixtures.env 1
       (called (Sdk (SdkCommissionWithCode 1 "MT:Y.K9042C00KA0648G00"
                       DISCOVERY_ALL))
          (snd (_get_next_node_id Fixtures.fresh)))
     = (Raises NodeInterviewFailed,
        called (Sdk (SdkReadAttribute 1 false))
          (called (Sdk (SdkCommissionWithCode 1 "MT:Y.K9042C00KA0648G00"
                          DISCOVERY_ALL))
             (snd (_get_next_node_id Fixtures.fresh)))).
Proof.
  destruct (commission_with_code_loses_the_interview_error
              Fixtures.interview_fails Fixtures.env
              "MT:Y.K9042C00KA0648G00"%string false Fixtures.fresh)
    as (st' & Hrun & Htrace);
    [reflexivity | reflexivity | reflexivity | reflexivity |].
  cbv zeta. rewrite Hrun. cbn [fst snd].
  split; [reflexivity|]. split; [congruence|]. split; [exact Htrace|].
  apply (interview_node_read_fails Fixtures.interview_fails Fixtures.env
           _ _ ChipStackError); reflexivity.
Qed.

(** ** Reachability *)

(** C10: [ping_node] looks at the test-node range before it looks at the
    registry.  An id of 900000 or more gets the canned answer whatever the
    registry holds, and the controller is left as it was; a smaller id that
    the registry does not hold gets [NodeNotExists]. *)
Theorem ping_node_checks_the_test_range_first {T N : Type}
  (sdk : ChipDeviceControllerWrapper T) (env : Environment T N)
  (st : Controller) (node_id attempts : Z) :
  (TEST_NODE_START <= node_id ->
   ping_node sdk env node_id attempts st
   = (Returns [("0.0.0.0"%string, true);
               ("0000:1111:2222:3333:4444"%string, true)], st))
  /\ (node_id < TEST_NODE_START ->
      _nodes st !! node_id = None ->
      ping_node sdk env node_id attempts st = (Raises NodeNotExists, st)).
Proof.
  unfold ping_node. split.
  - intros H. rewrite geb_true by assumption. reflexivity.
  - intros H Hnone. rewrite geb_false by assumption.
    unfold bind, gets. rewrite Hnone. reflexivity.
Qed.

Lemma ping_node_checks_the_test_range_first_witness :
  ping_node (Fixtures.healthy []) Fixtures.env 900001 1 Fixtures.fresh
  = (Returns [("0.0.0.0"%string, true);
              ("0000:1111:2222:3333:4444"%string, true)], Fixtures.fresh)
  /\ _nodes Fixtures.fresh !! 900001 = None
  /\ ping_node (Fixtures.healthy []) Fixtures.env 7 1 Fixtures.fresh
     = (Raises NodeNotExists, Fixtures.fresh).
Proof.
  split; [| split].
  - apply (ping_node_checks_the_test_range_first
             (Fixtures.healthy []) Fixtures.env Fixtures.fresh 900001 1).
    unfold TEST_NODE_START. lia.
  - reflexivity.
  - apply (ping_node_checks_the_test_range_first
             (Fixtures.healthy []) Fixtures.env Fixtures.fresh 7 1).
    + unfold TEST_NODE_START. lia.
    + reflexivity.
Defined.

(** ** Test nodes *)

Lemma fold_left_max_bounds (l : list Z) (x : Z) :
  x <= fold_left Z.max l x /\ (forall y, In y l -> y <= fold_left Z.max l x).
Proof.
  revert x. induction l as [|a l IH]; intros x; cbn.
  - split; [lia | tauto].
  - destruct (IH (Z.max x a)) as [H1 H2]. split; [lia|].
    intros y [->|Hy]; [lia | auto].
Qed.

Lemma fold_left_max_member (l : list Z) (x : Z) :
  fold_left Z.max l x = x \/ In (fold_left Z.max l x) l.
Proof.
  revert x. induction l as [|a l IH]; intros x; cbn; [auto|].
  destruct (IH (Z.max x a)) as [H|H]; [|auto].
  rewrite H. destruct (Z.max_spec x a) as [[_ ->]|[_ ->]]; auto.
Qed.

Lemma known_node_ids_spec (st : Controller) (k : Z) :
  In k (known_node_ids st) <-> is_Some (_nodes st !! k).
Proof.
  unfold known_node_ids. rewrite in_map_iff. split.
  - intros ([k' l] & <- & Hin). apply list_elem_of_In in Hin.
    apply elem_of_map_to_list in Hin. cbn. eauto.
  - intros [l Hl]. exists (k, l). split; [reflexivity|].
    apply list_elem_of_In. now apply elem_of_map_to_list.
Qed.

(** [max] over the ids of a registry that is not empty, and 900000. *)
Lemma py_max_known_ids (st : Controller) :
  _nodes st <> ∅ ->
  exists highest,
    py_max (known_node_ids st ++ [TEST_NODE_START]) = Returns highest
    /\ TEST_NODE_START <= highest
    /\ (forall k, is_Some (_nodes st !! k) -> k <= highest)
    /\ (highest = TEST_NODE_START \/ is_Some (_nodes st !! highest)).
Proof.
  intros Hne.
  destruct (known_node_ids st) as [|x rest] eqn:Hids.
  - exfalso. apply Hne. apply map_to_list_empty_iff.
    unfold known_node_ids in Hids.
    destruct (map_to_list (_nodes st)); [reflexivity | discriminate].
  - assert (Hin : forall k, In k (x :: rest) <-> is_Some (_nodes st !! k))
      by (intros k; rewrite <- Hids; apply known_node_ids_spec).
    exists (fold_left Z.max (rest ++ [TEST_NODE_START]) x).
    destruct (fold_left_max_bounds (rest ++ [TEST_NODE_START]) x) as [Hx Hl].
    split; [| split; [| split]].
    + cbn. destruct (rest ++ [TEST_NODE_START]) eqn:E; [|reflexivity].
      destruct rest; discriminate.
    + apply Hl. apply in_or_app. right. now left.
    + intros k Hk. apply Hin in Hk. destruct Hk as [<-|Hk]; [exact Hx|].
      apply Hl. apply in_or_app. now left.
    + destruct (fold_left_max_member (rest ++ [TEST_NODE_START]) x) as [E|E].
      * right. apply Hin. left. now rewrite E.
      * apply in_app_or in E. destruct E as [E|[E|[]]].
        -- right. apply Hin. now right.
        -- now left.
Qed.

(** The loop of [import_test_node], when every node dict parses: the node at
    position [i] of the dump is stored under the id [next + i] and announced;
    the other ids of the registry and the objects of the store are left
    alone. *)
Lemma import_nodes_assigns {T N : Type} (env : Environment T N)
  (dump_nodes : list N) (parsed : list MatterNodeData) :
  Forall2 (fun d p => dataclass_from_dict env d = Returns p) dump_nodes parsed ->
  forall next st,
  exists st',
    import_nodes env dump_nodes next st = (Returns tt, st')
    /\ (forall l v, heap st !! l = Some v -> heap st' !! l = Some v)
    /\ (forall k, k < next -> _nodes st' !! k = _nodes st !! k)
    /\ (exists added, trace st' = trace st ++ added)
    /\ (forall i p, parsed !! i = Some p ->
        exists l,
          _nodes st' !! (next + Z.of_nat i) = Some l
          /\ heap st' !! l = Some (with_node_id (next + Z.of_nat i) p)
          /\ In (SignalEvent NODE_ADDED (NodeObject l)) (trace st')).
Proof.
  induction 1 as [|d p ds ps Hd _ IH]; intros next st.
  - exists st. cbn. split; [reflexivity|]. split; [auto|]. split; [auto|].
    split; [exists []; now rewrite app_nil_r|].
    intros i p Hp. now rewrite lookup_nil in Hp.
  - cbn [import_nodes]. unfold bind at 1, lift at 1. rewrite Hd.
    unfold bind at 1, new_object at 1.
    set (l0 := fresh (dom (heap st))).
    unfold bind at 1, modify at 1.
    unfold bind at 1, signal_event at 1, emit at 1, modify at 1.
    match goal with |- context [import_nodes env ds (next + 1) ?s] =>
      set (st1 := s) end.
    destruct (IH (next + 1) st1) as (st' & Hrun & Hheap & Hnodes & Htr & Hidx).
    exists st'. split; [exact Hrun|].
    assert (Hl0 : heap st !! l0 = None).
    { apply not_elem_of_dom. apply is_fresh. }
    assert (Hheap1 : heap st1 !! l0 = Some (with_node_id next p)).
    { subst st1. cbn. apply lookup_insert_eq. }
    split; [| split; [| split]].
    + intros l v Hl. apply Hheap. subst st1. cbn.
      rewrite lookup_insert_ne; [exact Hl|]. intros ->. congruence.
    + intros k Hk. rewrite Hnodes by lia. subst st1. cbn.
      apply lookup_insert_ne. lia.
    + destruct Htr as [added Hadded]. rewrite Hadded. subst st1. cbn.
      rewrite <- app_assoc. eauto.
    + intros [|i] q Hq.
      * cbn in Hq. injection Hq as <-. exists l0.
        rewrite Z.add_0_r. split; [| split].
        -- rewrite Hnodes by lia. subst st1. cbn. apply lookup_insert_eq.
        -- apply Hheap. exact Hheap1.
        -- destruct Htr as [added Hadded]. rewrite Hadded. subst st1. cbn.
           apply in_or_app. left. apply in_or_app. right. now left.
      * cbn in Hq. destruct (Hidx i q Hq) as (l & H1 & H2 & H3).
        exists l.
        replace (next + Z.of_nat (S i)) with (next + 1 + Z.of_nat i) by lia.
        auto.
Qed.

(** C9: with an empty registry, [import_test_node] raises [TypeError] for
    every dump that [json_loads] accepts and that has one of the two
    shapes; [TypeError] is none of the documented error kinds, and the
    controller is left as it was.  With a registry that is not empty, the
    nodes of the dump get the ids that follow the highest of the known ids
    and 900000. *)
Theorem import_test_node_ids {T N : Type} (env : Environment T N)
  (st : Controller) (dump : string) (dump_data : DumpData N)
  (dump_nodes : list N) :
  json_loads env dump = Some dump_data ->
  dump_nodes_of dump_data = Some dump_nodes ->
  (_nodes st = ∅ ->
   import_test_node env dump st = (Raises TypeError, st)
   /\ documented_error TypeError = false)
  /\ (_nodes st <> ∅ ->
      exists highest,
        TEST_NODE_START <= highest
        /\ (forall k, is_Some (_nodes st !! k) -> k <= highest)
        /\ (highest = TEST_NODE_START \/ is_Some (_nodes st !! highest))
        /\ forall parsed,
           Forall2 (fun d p => dataclass_from_dict env d = Returns p)
                   dump_nodes parsed ->
           exists st',
             import_test_node env dump st = (Returns tt, st')
             /\ (forall k, k <= highest -> _nodes st' !! k = _nodes st !! k)
             /\ forall i p, parsed !! i = Some p ->
                exists l,
                  _nodes st' !! (highest + 1 + Z.of_nat i) = Some l
                  /\ heap st' !! l
                     = Some (with_node_id (highest + 1 + Z.of_nat i) p)
                  /\ In (SignalEvent NODE_ADDED (NodeObject l)) (trace st')).
Proof.
  intros Hjson Hshape.
  assert (Hprefix : forall st0 : Controller,
    (let* dump_nodes0 :=
       match dump_data with
       | DumpNode node => ret [node]
       | DumpServerNodes nodes => ret nodes
       | DumpOther e => raise e
       end in
     let* ids := gets known_node_ids in
     let* highest := lift (py_max (ids ++ [TEST_NODE_START])) in
     import_nodes env dump_nodes0 (highest + 1)) st0
    = match py_max (known_node_ids st0 ++ [TEST_NODE_START]) with
      | Returns highest => import_nodes env dump_nodes (highest + 1) st0
      | Raises e => (Raises e, st0)
      | Pending => (Pending, st0)
      | Stuck => (Stuck, st0)
      end).
  { intros st0. destruct dump_data; cbn in Hshape; try discriminate;
      injection Hshape as <-; unfold bind, ret, gets, lift;
      destruct (py_max _); reflexivity. }
  unfold import_test_node. rewrite Hjson.
  split.
  - intros Hempty. split; [|reflexivity].
    rewrite Hprefix. unfold known_node_ids. rewrite Hempty.
    rewrite map_to_list_empty. reflexivity.
  - intros Hne.
    destruct (py_max_known_ids st Hne) as (highest & Hmax & H1 & H2 & H3).
    exists highest. repeat (split; [assumption|]).
    intros parsed Hparsed.
    destruct (import_nodes_assigns env dump_nodes parsed Hparsed
                (highest + 1) st) as (st' & Hrun & _ & Hnodes & _ & Hidx).
    exists st'. rewrite Hprefix, Hmax.
    split; [exact Hrun|]. split; [|exact Hidx].
    intros k Hk. apply Hnodes. lia.
Qed.

Lemma import_test_node_ids_witness :
  (import_test_node Fixtures.env "<dump of one node>" Fixtures.fresh
   = (Raises TypeError, Fixtures.fresh)
   /\ documented_error TypeError = false)
  /\ exists highest,
       TEST_NODE_START <= highest
       /\ exists st' l,
            import_test_node Fixtures.env "<dump of one node>"
              (Fixtures.with_node (Fixtures.node 7 true false []))
            = (Returns tt, st')
            /\ _nodes st' !! (highest + 1 + Z.of_nat 0) = Some l.
Proof.
  split.
  - apply (import_test_node_ids Fixtures.env Fixtures.fresh
             "<dump of one node>" (DumpNode (Fixtures.node 5 true false []))
             [Fixtures.node 5 true false []] eq_refl eq_refl).
    reflexivity.
  - destruct (proj2 (import_test_node_ids Fixtures.env
                       (Fixtures.with_node (Fixtures.node 7 true false []))
                       "<dump of one node>"
                       (DumpNode (Fixtures.node 5 true false []))
                       [Fixtures.node 5 true false []] eq_refl eq_refl))
      as (highest & Hge & _ & _ & Himport).
    + apply map_non_empty_singleton.
    + exists highest. split; [exact Hge|].
      destruct (Himport [Fixtures.node 5 true false []])
        as (st' & Hrun & _ & Hidx).
      * repeat constructor.
      * destruct (Hidx 0%nat _ eq_refl) as (l & Hl & _).
        exists st', l. split; [exact Hrun | exact Hl].
Defined.

(** ** Commissioning windows *)

(** C7: [open_commissioning_window] fails with [NodeNotReady], and does
    nothing else, when the node is unknown or not available.  For an available
    node with cached parameters it returns them and leaves the controller as
    it was, so the adapter is not called.  Otherwise, with no discriminator
    supplied, it draws one between 0 and 4095, calls the adapter with it, and
    when the adapter returns, caches the pin code, manual code and QR code it
    returned, returns them, and arms a timer of [timeout] seconds whose
    callback drops the cache entry. *)
Theorem open_commissioning_window_spec {T N : Type}
  (sdk : ChipDeviceControllerWrapper T) (env : Environment T N)
  (st : Controller) (node_id timeout iteration option_ : Z) :
  (forall discriminator,
     (_nodes st !! node_id = None
      \/ exists l nd, _nodes st !! node_id = Some l
                      /\ heap st !! l = Some nd /\ available nd = false) ->
     open_commissioning_window sdk env node_id timeout iteration option_
       discriminator st
     = (Raises NodeNotReady, st))
  /\ (forall l nd,
      _nodes st !! node_id = Some l ->
      heap st !! l = Some nd ->
      available nd = true ->
      (forall discriminator params,
         _known_commissioning_params st !! node_id = Some params ->
         open_commissioning_window sdk env node_id timeout iteration option_
           discriminator st
         = (Returns params, st))
      /\ (_known_commissioning_params st !! node_id = None ->
          let discriminator := 0 + entropy env (tick st) mod (4095 - 0 + 1) in
          let call :=
            Sdk (SdkOpenCommissioningWindow
                   node_id timeout iteration discriminator option_) in
          0 <= discriminator <= 4095
          /\ forall sdk_result,
             sdk_open_commissioning_window sdk (S (tick st))
               node_id timeout iteration discriminator option_
             = Returns sdk_result ->
             let params :=
               {| setup_pin_code := setupPinCode sdk_result;
                  setup_manual_code := setupManualCode sdk_result;
                  setup_qr_code := setupQRCode sdk_result |} in
             exists st',
               open_commissioning_window sdk env node_id timeout iteration
                 option_ None st
               = (Returns params, st')
               /\ trace st' = trace st ++ [call]
               /\ _known_commissioning_params st'
                  = <[node_id := params]> (_known_commissioning_params st)
               /\ timers st'
                  = timers st
                    ++ [{| delay := timeout;
                           callback := PopKnownCommissioningParams node_id;
                           cancelled := false |}]
               /\ _known_commissioning_params
                    (snd (pop_known_commissioning_params node_id st'))
                  !! node_id = None)).
Proof.
  split.
  - intros discriminator H. unfold open_commissioning_window.
    unfold bind at 1, gets at 1.
    destruct H as [H | (l & nd & Hl & Hnd & Hav)]; rewrite H || rewrite Hl.
    + reflexivity.
    + unfold bind at 1, bind at 1, deref at 1. rewrite Hnd.
      unfold ret at 1. rewrite Hav. reflexivity.
  - intros l nd Hl Hnd Hav.
    assert (Hready : forall discriminator,
      open_commissioning_window sdk env node_id timeout iteration option_
        discriminator st
      = match _known_commissioning_params st !! node_id with
        | Some params => (Returns params, st)
        | None =>
            (let* discriminator :=
               match discriminator with
               | None => randint env 0 4095
               | Some d => ret d
               end in
             let* sdk_result :=
               await
                 (Sdk (SdkOpenCommissioningWindow
                         node_id timeout iteration discriminator option_))
                 (fun n =>
                    sdk_open_commissioning_window
                      sdk n node_id timeout iteration discriminator option_) in
             let params :=
               {| setup_pin_code := setupPinCode sdk_result;
                  setup_manual_code := setupManualCode sdk_result;
                  setup_qr_code := setupQRCode sdk_result |} in
             modify (fun st =>
               set_known_commissioning_params
                 (<[node_id := params]> (_known_commissioning_params st)) st) ;;;
             let* _ := call_later timeout (PopKnownCommissioningParams node_id) in
             ret params) st
        end).
    { intros discriminator. unfold open_commissioning_window.
      unfold bind at 1, gets at 1. rewrite Hl.
      unfold bind at 1, bind at 1, deref at 1. rewrite Hnd.
      unfold ret at 1. rewrite Hav. cbn [negb].
      unfold bind at 1, gets at 1.
      destruct (_known_commissioning_params st !! node_id); reflexivity. }
    split.
    + intros discriminator params Hknown. rewrite Hready, Hknown. reflexivity.
    + intros Hnone discriminator call. split.
      * subst discriminator.
        pose proof (Z.mod_pos_bound (entropy env (tick st)) (4095 - 0 + 1)).
        lia.
      * intros sdk_result Hsdk params.
        rewrite Hready, Hnone.
        unfold bind at 1, randint at 1. fold discriminator.
        unfold bind at 1, await at 1. cbn [tick set_tick].
        rewrite Hsdk.
        eexists. split; [reflexivity|].
        cbn. repeat split. apply lookup_delete_eq.
Qed.

Lemma open_commissioning_window_spec_witness :
  open_commissioning_window (Fixtures.healthy []) Fixtures.env 7 300 1000 1
    None Fixtures.fresh
  = (Raises NodeNotReady, Fixtures.fresh)
  /\ 0 <= 0 + entropy Fixtures.env 0 mod (4095 - 0 + 1) <= 4095
  /\ exists st',
       open_commissioning_window (Fixtures.healthy []) Fixtures.env
         7 300 1000 1 None
         (Fixtures.with_node (Fixtures.node 7 true false []))
       = (Returns {| setup_pin_code := 20202021;
                     setup_manual_code := "34970112332";
                     setup_qr_code := "MT:Y.K9042C00KA0648G00" |}, st')
       /\ timers st'
          = [{| delay := 300; callback := PopKnownCommissioningParams 7;
                cancelled := false |}].
Proof.
  split; [| split].
  - apply (open_commissioning_window_spec (Fixtures.healthy []) Fixtures.env
             Fixtures.fresh 7 300 1000 1).
    left. reflexivity.
  - apply (proj2 (open_commissioning_window_spec
                    (Fixtures.healthy []) Fixtures.env
                    (Fixtures.with_node (Fixtures.node 7 true false []))
                    7 300 1000 1)
             0%nat (Fixtures.node 7 true false []));
      reflexivity.
  - destruct (proj2 (proj2 (open_commissioning_window_spec
                              (Fixtures.healthy []) Fixtures.env
                              (Fixtures.with_node
                                 (Fixtures.node 7 true false []))
                              7 300 1000 1)
                       0%nat (Fixtures.node 7 true false [])
                       eq_refl eq_refl eq_refl) eq_refl) as [_ H].
    destruct (H _ eq_refl) as (st' & Hrun & _ & _ & Htimers & _).
    exists st'. split; [exact Hrun | exact Htimers].
Defined.

(** ** Subscriptions *)

Lemma count_app (p : Effect -> bool) (t t' : list Effect) :
  count p (t ++ t') = (count p t + count p t')%nat.
Proof. unfold count. now rewrite List.filter_app, length_app. Qed.

Lemma count_offline_task event node_id unavailable interval :
  count (signals event) (offline_task node_id unavailable interval) = 0%nat.
Proof.
  unfold offline_task. destruct (_ && _); [|reflexivity].
  destruct event; reflexivity.
Qed.

(** One callback, on the node object the closure holds. *)
Lemma resubscription_attempted_step (st : Controller) (node_id : Z)
  (node : loc) (nd : MatterNodeData) (last terminationError interval : Z) :
  _last_subscription_attempt st !! node_id = Some last ->
  heap st !! node = Some nd ->
  let flip :=
    available nd && (last + 1 >=? NODE_RESUBSCRIBE_ATTEMPTS_UNAVAILABLE) in
  let nd' := if flip then with_available false nd else nd in
  exists st',
    resubscription_attempted node_id node terminationError interval st
    = (Returns tt, st')
    /\ _last_subscription_attempt st' !! node_id = Some (last + 1)
    /\ heap st' !! node = Some nd'
    /\ trace st'
       = trace st
         ++ (if flip then [SignalEvent NODE_UPDATED (NodeObject node)] else [])
         ++ offline_task node_id (negb (available nd')) interval.
Proof.
  intros Hlast Hnd flip nd'.
  unfold resubscription_attempted.
  unfold bind at 1, gets at 1. rewrite Hlast.
  unfold bind at 1, modify at 1.
  unfold bind at 1, deref at 1. cbn [heap set_last_subscription_attempt].
  rewrite Hnd. fold flip.
  unfold offline_task. subst nd'.
  destruct flip eqn:Hflip.
  - unfold bind at 1, bind at 1, update_object at 1, modify at 1,
      signal_event at 1, emit at 1, modify at 1.
    unfold bind at 1, deref at 1.
    cbn [heap set_heap set_trace set_last_subscription_attempt].
    rewrite lookup_alter_eq. cbn [heap]. rewrite Hnd. cbn [fmap option_fmap option_map].
    cbn [available with_available negb andb].
    destruct (interval >? NODE_RESUBSCRIBE_TIMEOUT_OFFLINE).
    + eexists. split; [reflexivity|]. cbn.
      rewrite lookup_insert_eq, lookup_alter_eq, Hnd, <- ?app_assoc. auto.
    + eexists. split; [reflexivity|]. cbn.
      rewrite lookup_insert_eq, lookup_alter_eq, Hnd, ?app_nil_r. auto.
  - unfold bind at 1, ret at 1.
    unfold bind at 1, deref at 1.
    cbn [heap set_heap set_trace set_last_subscription_attempt].
    rewrite Hnd.
    destruct (negb (available nd) && (interval >? NODE_RESUBSCRIBE_TIMEOUT_OFFLINE)).
    + eexists. split; [reflexivity|]. cbn.
      rewrite lookup_insert_eq, Hnd. auto.
    + eexists. split; [reflexivity|]. cbn.
      rewrite lookup_insert_eq, Hnd, ?app_nil_r. auto.
Qed.

(** A run of callbacks: the counter advances by their number; an available
    node is marked unavailable, with one [NODE_UPDATED], once the counter
    reaches 3, and an unavailable node stays as it is, with no event. *)
Lemma resubscription_attempts_run (node_id : Z) (node : loc)
  (callbacks : list (Z * Z)) :
  forall st nd last,
  _last_subscription_attempt st !! node_id = Some last ->
  heap st !! node = Some nd ->
  let k := Z.of_nat (length callbacks) in
  let flip :=
    available nd
    && (last + k >=? NODE_RESUBSCRIBE_ATTEMPTS_UNAVAILABLE) && (0 <? k) in
  exists st',
    resubscription_attempts node_id node callbacks st = (Returns tt, st')
    /\ _last_subscription_attempt st' !! node_id = Some (last + k)
    /\ heap st' !! node = Some (if flip then with_available false nd else nd)
    /\ count (signals NODE_UPDATED) (trace st')
       = (count (signals NODE_UPDATED) (trace st) + if flip then 1 else 0)%nat.
Proof.
  induction callbacks as [|c cs IH]; intros st nd last Hlast Hnd k flip;
    unfold NODE_RESUBSCRIBE_ATTEMPTS_UNAVAILABLE in *.
  - exists st. subst flip k. cbn [length Z.of_nat].
    rewrite Z.add_0_r, andb_false_r.
    repeat split; auto.
  - destruct (resubscription_attempted_step st node_id node nd last
                (fst c) (snd c) Hlast Hnd)
      as (st1 & Hrun1 & Hlast1 & Hnd1 & Htrace1).
    unfold NODE_RESUBSCRIBE_ATTEMPTS_UNAVAILABLE in *.
    destruct (IH st1 _ _ Hlast1 Hnd1) as (st' & Hrun & Hlast' & Hnd' & Hcount).
    cbv zeta in Hlast', Hnd', Hcount.
    exists st'.
    unfold resubscription_attempts in *. cbn [for_each].
    unfold bind at 1. rewrite Hrun1.
    split; [exact Hrun|].
    subst k flip. cbn [length]. rewrite Nat2Z.inj_succ.
    split; [rewrite Hlast'; f_equal; lia|].
    rewrite Hnd', Hcount, Htrace1, !count_app, count_offline_task.
    set (k' := Z.of_nat (length cs)) in *.
    assert (0 <= k') by (subst k'; lia).
    destruct (available nd) eqn:Hav; cbn [andb].
    + destruct (Z.leb_spec 3 (last + 1)) as [H3|H3].
      * rewrite geb_true by lia. cbn [available with_available andb].
        rewrite geb_true by lia.
        replace (0 <? Z.succ k') with true by (symmetry; apply Z.ltb_lt; lia).
        split; [reflexivity|]. cbn. lia.
      * rewrite (geb_false (last + 1)) by lia. rewrite Hav. cbn [andb].
        replace (0 <? Z.succ k') with true by (symmetry; apply Z.ltb_lt; lia).
        rewrite andb_true_r.
        destruct (Z.ltb_spec 0 k') as [Hk|Hk].
        -- replace (last + Z.succ k') with (last + 1 + k') by lia.
           rewrite andb_true_r.
           destruct (last + 1 + k' >=? 3); split; (reflexivity || (cbn; lia)).
        -- rewrite andb_false_r.
           rewrite (geb_false (last + Z.succ k')) by lia.
           split; [reflexivity | cbn; lia].
    + rewrite Hav. cbn [andb]. split; [reflexivity | cbn; lia].
Qed.

(** The task created for a long resubscription interval shuts the
    subscription down; when the node object of the registry is unavailable,
    it does nothing else. *)
Lemma node_offline_unavailable {T : Type}
  (sdk : ChipDeviceControllerWrapper T) (st : Controller) (node_id : Z)
  (node : loc) (nd : MatterNodeData) :
  _nodes st !! node_id = Some node ->
  heap st !! node = Some nd ->
  available nd = false ->
  sdk_shutdown_subscription sdk (tick st) node_id = Returns tt ->
  exists st',
    _node_offline sdk node_id st = (Returns tt, st')
    /\ trace st' = trace st ++ [Sdk (SdkShutdownSubscription node_id)]
    /\ heap st' = heap st.
Proof.
  intros Hnode Hnd Hav Hsdk. unfold _node_offline.
  unfold bind at 1, shutdown_subscription at 1, bind at 1, await at 1.
  rewrite Hsdk. unfold modify at 1.
  unfold bind at 1, gets at 1.
  cbn [_nodes set_subscription_callbacks set_tick set_trace].
  rewrite Hnode.
  unfold bind at 1, deref at 1.
  cbn [heap set_subscription_callbacks set_tick set_trace].
  rewrite Hnd, Hav. cbn [negb].
  eexists. split; [reflexivity|]. cbn. auto.
Qed.

(** C5: a resubscription-attempted callback increments the attempt counter
    of its node.  If the node is available and the counter has reached 3,
    the node becomes unavailable and one [NODE_UPDATED] is emitted;
    otherwise the node object is left alone and no [NODE_UPDATED] is emitted,
    in particular on every callback that finds the node unavailable.  Over a
    run of callbacks that starts with an available node and a counter of 0,
    as [_subscribe_node] leaves them, one [NODE_UPDATED] is emitted if the
    run has three callbacks or more, and none if it is shorter.  The task the
    callback creates when the next interval exceeds 30 minutes emits nothing
    for a node that is already unavailable. *)
Theorem resubscription_attempted_marks_unavailable_once {T : Type}
  (sdk : ChipDeviceControllerWrapper T)
  (st : Controller) (node_id : Z) (node : loc) (nd : MatterNodeData)
  (last terminationError interval : Z) :
  _last_subscription_attempt st !! node_id = Some last ->
  heap st !! node = Some nd ->
  (exists st',
     resubscription_attempted node_id node terminationError interval st
     = (Returns tt, st')
     /\ _last_subscription_attempt st' !! node_id = Some (last + 1)
     /\ (available nd = true ->
         NODE_RESUBSCRIBE_ATTEMPTS_UNAVAILABLE <= last + 1 ->
         heap st' !! node = Some (with_available false nd)
         /\ count (signals NODE_UPDATED) (trace st')
            = S (count (signals NODE_UPDATED) (trace st)))
     /\ (available nd = false
         \/ last + 1 < NODE_RESUBSCRIBE_ATTEMPTS_UNAVAILABLE ->
         heap st' !! node = Some nd
         /\ count (signals NODE_UPDATED) (trace st')
            = count (signals NODE_UPDATED) (trace st)))
  /\ (forall callbacks,
      last = 0 ->
      available nd = true ->
      exists st',
        resubscription_attempts node_id node callbacks st = (Returns tt, st')
        /\ count (signals NODE_UPDATED) (trace st')
           = (count (signals NODE_UPDATED) (trace st)
              + if (3 <=? length callbacks)%nat then 1 else 0)%nat
        /\ (exists nd', heap st' !! node = Some nd'
                        /\ available nd' = (length callbacks <? 3)%nat))
  /\ (forall st2 nd2,
      _nodes st2 !! node_id = Some node ->
      heap st2 !! node = Some nd2 ->
      available nd2 = false ->
      sdk_shutdown_subscription sdk (tick st2) node_id = Returns tt ->
      exists st3,
        _node_offline sdk node_id st2 = (Returns tt, st3)
        /\ count (signals NODE_UPDATED) (trace st3)
           = count (signals NODE_UPDATED) (trace st2)).
Proof.
  intros Hlast Hnd. split; [| split].
  - destruct (resubscription_attempted_step st node_id node nd last
                terminationError interval Hlast Hnd)
      as (st' & Hrun & Hlast' & Hnd' & Htrace).
    exists st'. split; [exact Hrun|]. split; [exact Hlast'|].
    rewrite Hnd', Htrace, !count_app, count_offline_task.
    split.
    + intros Hav Hge. rewrite Hav, geb_true by assumption.
      split; [reflexivity | cbn; lia].
    + intros [Hav | Hlt].
      * rewrite Hav. split; [reflexivity | cbn; lia].
      * rewrite geb_false, andb_false_r by assumption.
        split; [reflexivity | cbn; lia].
  - intros callbacks -> Hav.
    destruct (resubscription_attempts_run node_id node callbacks st nd 0
                Hlast Hnd) as (st' & Hrun & _ & Hnd' & Hcount).
    exists st'. split; [exact Hrun|].
    rewrite Hcount, Hnd', Hav. cbn [andb].
    unfold NODE_RESUBSCRIBE_ATTEMPTS_UNAVAILABLE.
    destruct (Nat.leb_spec 3 (length callbacks)) as [H3|H3].
    + rewrite geb_true by lia.
      replace (0 <? Z.of_nat (length callbacks)) with true
        by (symmetry; apply Z.ltb_lt; lia).
      split; [reflexivity|]. eexists. split; [reflexivity|].
      cbn [available with_available]. symmetry. apply Nat.ltb_ge. lia.
    + rewrite geb_false by lia. cbn [andb].
      split; [reflexivity|]. eexists. split; [reflexivity|].
      rewrite Hav. symmetry. apply Nat.ltb_lt. lia.
  - intros st2 nd2 Hnode Hnd2 Hav Hsdk.
    destruct (node_offline_unavailable sdk st2 node_id node nd2
                Hnode Hnd2 Hav Hsdk) as (st3 & Hrun & Htrace & _).
    exists st3. split; [exact Hrun|].
    rewrite Htrace, count_app. cbn. lia.
Qed.

Lemma resubscription_attempted_marks_unavailable_once_witness :
  exists st',
    resubscription_attempts 7 0%nat [(50, 5000); (50, 10000); (50, 20000)]
      (Fixtures.with_node (Fixtures.node 7 true false []))
    = (Returns tt, st')
    /\ count (signals NODE_UPDATED) (trace st') = 1%nat.
Proof.
  destruct (proj1 (proj2 (resubscription_attempted_marks_unavailable_once
                            (Fixtures.healthy [])
                            (Fixtures.with_node
                               (Fixtures.node 7 true false []))
                            7 0%nat (Fixtures.node 7 true false [])
                            0 50 5000 eq_refl eq_refl))
              [(50, 5000); (50, 10000); (50, 20000)] eq_refl eq_refl)
    as (st' & Hrun & Hcount & _).
  exists st'. split; [exact Hrun | exact Hcount].
Defined.

(** C4, as the code has it: for every update other than one of
    [0/Descriptor/PartsList] on a bridge, [attribute_updated] stores the new
    value under the path in the node object of the subscription, schedules
    the write of the node state (when the registry holds the node id and it
    is not a test node: [_write_node_state] does nothing otherwise), and
    emits one [ATTRIBUTE_UPDATED] with the node id, the path and the new
    value, after the re-interview task of a software version change. *)
Theorem attribute_updated_stores_and_emits (st : Controller) (node_id : Z)
  (node : loc) (nd : MatterNodeData) (path : string)
  (old_value new_value : Value) :
  heap st !! node = Some nd ->
  is_bridge nd && String.eqb path DESCRIPTOR_PARTS_LIST_ATTRIBUTE_PATH = false ->
  let reinterview :=
    if String.eqb path BASIC_INFORMATION_SOFTWARE_VERSION_ATTRIBUTE_PATH
       && negb (py_eq new_value old_value)
    then [CreateTask (TaskInterviewNode node_id)]
    else [] in
  let write :=
    match _nodes st !! node_id with
    | Some registered =>
        if node_id >=? TEST_NODE_START then []
        else [StorageSetNode (pretty node_id) registered false]
    | None => []
    end in
  exists st' nd',
    attribute_updated node_id node path old_value new_value st
    = (Returns tt, st')
    /\ heap st' !! node = Some nd'
    /\ nd' = with_attributes (<[path := new_value]> (attributes nd)) nd
    /\ attributes nd' !! path = Some new_value
    /\ trace st'
       = trace st ++ reinterview ++ write
         ++ [SignalEvent ATTRIBUTE_UPDATED
               (AttributeTuple node_id path new_value)]
    /\ count (signals ATTRIBUTE_UPDATED) (trace st')
       = S (count (signals ATTRIBUTE_UPDATED) (trace st)).
Proof.
  intros Hnd Hgate reinterview write.
  assert (Hrun :
    attribute_updated node_id node path old_value new_value st
    = (Returns tt,
       set_trace
         (trace st ++ reinterview ++ write
          ++ [SignalEvent ATTRIBUTE_UPDATED
                (AttributeTuple node_id path new_value)])
         (set_heap
            (alter (fun n =>
                      with_attributes (<[path := new_value]> (attributes n)) n)
                   node (heap st))
            st))).
  { unfold attribute_updated.
    unfold bind at 1, deref at 1. rewrite Hnd, Hgate.
    subst reinterview write.
    destruct (String.eqb path BASIC_INFORMATION_SOFTWARE_VERSION_ATTRIBUTE_PATH
              && negb (py_eq new_value old_value));
      unfold bind, create_task, emit, modify, ret, update_object,
        _write_node_state, gets, signal_event;
      cbn -[pretty Z.geb];
      (destruct (_nodes st !! node_id) as [registered|];
       [destruct (node_id >=? TEST_NODE_START)|]);
      unfold emit, modify, set_trace, set_heap; cbn -[pretty];
      rewrite <- ?app_assoc; reflexivity. }
  rewrite Hrun. eexists. eexists.
  split; [reflexivity|].
  cbn [heap set_heap set_trace trace].
  rewrite lookup_alter_eq, Hnd. cbn [fmap option_fmap option_map].
  split; [reflexivity|]. split; [reflexivity|].
  split; [cbn [attributes with_attributes]; apply lookup_insert_eq|].
  split; [reflexivity|].
  rewrite !count_app.
  replace (count (signals ATTRIBUTE_UPDATED) reinterview) with 0%nat.
  - replace (count (signals ATTRIBUTE_UPDATED) write) with 0%nat.
    + cbn. lia.
    + subst write. destruct (_nodes st !! node_id);
        [destruct (node_id >=? TEST_NODE_START)|]; reflexivity.
  - subst reinterview.
    destruct (String.eqb path BASIC_INFORMATION_SOFTWARE_VERSION_ATTRIBUTE_PATH
              && negb (py_eq new_value old_value)); reflexivity.
Qed.

Lemma attribute_updated_stores_and_emits_witness :
  exists st' nd',
    attribute_updated 7 0%nat "1/6/0" (VBool false) (VBool true)
      (Fixtures.with_node
         (Fixtures.node 7 true true [("1/6/0"%string, VBool false)]))
    = (Returns tt, st')
    /\ heap st' !! 0%nat = Some nd'
    /\ attributes nd' !! "1/6/0"%string = Some (VBool true)
    /\ trace st'
       = [StorageSetNode "7" 0%nat false;
          SignalEvent ATTRIBUTE_UPDATED (AttributeTuple 7 "1/6/0" (VBool true))].
Proof.
  destruct (attribute_updated_stores_and_emits
              (Fixtures.with_node
                 (Fixtures.node 7 true true [("1/6/0"%string, VBool false)]))
              7 0%nat
              (Fixtures.node 7 true true [("1/6/0"%string, VBool false)])
              "1/6/0"%string (VBool false) (VBool true) eq_refl eq_refl)
    as (st' & nd' & Hrun & Hheap & _ & Hattr & Htrace & _).
  exists st', nd'. repeat split; assumption.
Defined.

(** C4, as stated, fails for a [PartsList] update on a bridge: the handler
    returns after it has dealt with the removed endpoint.  The cached
    [PartsList] keeps its old value and no [ATTRIBUTE_UPDATED] is emitted. *)
Lemma attribute_updated_returns_early_on_bridge_parts_list :
  let parts := DESCRIPTOR_PARTS_LIST_ATTRIBUTE_PATH in
  let nd :=
    Fixtures.node 7 true true
      [(parts, VList [VInt 1; VInt 2]); ("1/6/0"%string, VBool true);
       ("2/6/0"%string, VBool true)] in
  let run :=
    attribute_updated 7 0%nat parts (VList [VInt 1; VInt 2])
      (VList [VInt 2]) (Fixtures.with_node nd) in
  is_bridge nd = true
  /\ fst run = Returns tt
  /\ (attributes <$> heap (snd run) !! 0%nat) ≫= (.!! parts)
     = Some (VList [VInt 1; VInt 2])
  /\ trace (snd run)
     = [SignalEvent ENDPOINT_REMOVED (EndpointDict 7 (HInt 1));
        StorageSetNode "7" 0%nat false]
  /\ count (signals ATTRIBUTE_UPDATED) (trace (snd run)) = 0%nat.
Proof. vm_compute. repeat split. Qed.

(** ** Reading attributes *)

Lemma dict_update_lookup_other (items : list (string * Value))
  (m : gmap string Value) (k : string) :
  ~ In k (map fst items) -> dict_update items m !! k = m !! k.
Proof.
  unfold dict_update. revert m.
  induction items as [|[k' v] items IH]; intros m Hk; cbn; [reflexivity|].
  rewrite IH by (intros H; apply Hk; now right).
  apply lookup_insert_ne. intros ->. apply Hk. now left.
Qed.

Lemma dict_update_lookup_item (items : list (string * Value))
  (m : gmap string Value) (k : string) (v : Value) :
  List.NoDup (map fst items) -> In (k, v) items ->
  dict_update items m !! k = Some v.
Proof.
  unfold dict_update. revert m.
  induction items as [|[k' v'] items IH]; intros m Hnd Hin; [destruct Hin|].
  cbn in Hnd. inversion Hnd as [|? ? Hnotin Hnd']; subst.
  destruct Hin as [E|Hin].
  - injection E as -> ->. cbn.
    change (dict_update items (<[k := v]> m) !! k = Some v).
    rewrite dict_update_lookup_other by assumption.
    apply lookup_insert_eq.
  - cbn. apply IH; assumption.
Qed.

Lemma changed_items_members cache items k v :
  In (k, v) (changed_items cache items)
  <-> In (k, v) items /\ py_eq (default VNone (cache !! k)) v = false.
Proof.
  unfold changed_items. rewrite filter_In. cbn.
  rewrite negb_true_iff. tauto.
Qed.

Lemma changed_items_keys cache items k :
  In k (map fst (changed_items cache items)) -> In k (map fst items).
Proof.
  rewrite !in_map_iff. intros ([k' v] & <- & H).
  apply changed_items_members in H. exists (k', v). tauto.
Qed.

Lemma changed_items_nodup cache items :
  List.NoDup (map fst items) -> List.NoDup (map fst (changed_items cache items)).
Proof.
  induction items as [|[k v] items IH]; intros Hnd; [constructor|].
  cbn in Hnd. inversion Hnd as [|? ? Hnotin Hnd']; subst.
  unfold changed_items. cbn [List.filter fst snd].
  destruct (negb _); [|now apply IH].
  cbn. constructor; [|now apply IH].
  intros H. apply Hnotin. now apply changed_items_keys in H.
Qed.

Lemma changed_items_insert cache items k v :
  ~ In k (map fst items) ->
  changed_items (<[k := v]> cache) items = changed_items cache items.
Proof.
  intros Hk. unfold changed_items. apply filter_ext_in.
  intros [k' v'] Hin. cbn.
  rewrite lookup_insert_ne; [reflexivity|].
  intros ->. apply Hk. apply in_map_iff. exists (k', v'). auto.
Qed.

Lemma unique_value (items : list (string * Value)) k v w :
  List.NoDup (map fst items) -> In (k, v) items -> In (k, w) items -> v = w.
Proof.
  induction items as [|[k' v'] items IH]; intros Hnd Hv Hw; [destruct Hv|].
  cbn in Hnd. inversion Hnd as [|? ? Hnotin Hnd']; subst.
  assert (Hkey : forall u, In (k, u) items -> In k (map fst items))
    by (intros u Hu; apply in_map_iff; exists (k, u); auto).
  destruct Hv as [Ev|Hv], Hw as [Ew|Hw].
  - congruence.
  - injection Ev as -> ->. exfalso. eauto.
  - injection Ew as -> ->. exfalso. eauto.
  - eauto.
Qed.

(** The loop of [read_attribute]: it writes back and announces the changed
    items, in the order of the read, and yields whether there was one. *)
Lemma update_cached_attributes_spec (node_id : Z) (node : loc)
  (items : list (string * Value)) :
  forall st nd values_changed,
  heap st !! node = Some nd ->
  List.NoDup (map fst items) ->
  let changed := changed_items (attributes nd) items in
  exists st',
    update_cached_attributes node_id node items values_changed st
    = (Returns (values_changed || match changed with [] => false | _ => true end),
       st')
    /\ heap st' !! node
       = Some (with_attributes (dict_update changed (attributes nd)) nd)
    /\ _nodes st' = _nodes st
    /\ trace st' = trace st ++ attribute_events node_id changed.
Proof.
  induction items as [|[k v] items IH]; intros st nd vc Hnd Hdup changed.
  - exists st. cbn. rewrite orb_false_r, app_nil_r.
    repeat split; auto. rewrite Hnd. now destruct nd.
  - cbn in Hdup. inversion Hdup as [|? ? Hnotin Hdup']; subst.
    cbn [update_cached_attributes].
    unfold bind at 1, deref at 1. rewrite Hnd.
    subst changed. unfold changed_items.
    cbn [List.filter fst snd].
    fold (changed_items (attributes nd) items).
    destruct (negb (py_eq (default VNone (attributes nd !! k)) v)).
    + unfold bind at 1, update_object at 1, modify at 1.
      unfold bind at 1, signal_event at 1, emit at 1, modify at 1.
      match goal with
      | |- context [update_cached_attributes _ _ _ true ?s] => set (st1 := s)
      end.
      destruct (IH st1
                  (with_attributes (<[k := v]> (attributes nd)) nd) true)
        as (st' & Hrun & Hheap & Hnodes & Htrace).
      { subst st1. cbn. now rewrite lookup_alter_eq, Hnd. }
      { assumption. }
      cbn [attributes with_attributes] in *.
      rewrite changed_items_insert in * by assumption.
      exists st'. rewrite Hrun. rewrite orb_true_r.
      split; [reflexivity|]. split; [exact Hheap|].
      split; [rewrite Hnodes; reflexivity|].
      rewrite Htrace. subst st1. cbn. now rewrite <- app_assoc.
    + destruct (IH st nd vc Hnd Hdup') as (st' & Hrun & Hheap & Hnodes & Htrace).
      exists st'. auto.
Qed.

Lemma map_m_lift {A B : Type} (f : A -> Outcome B) (xs : list A)
  (ys : list B) (st : Controller) :
  Forall2 (fun x y => f x = Returns y) xs ys ->
  map_m (fun x => lift (f x)) xs st = (Returns ys, st).
Proof.
  induction 1 as [|x y xs ys Hx _ IH]; [reflexivity|].
  cbn [map_m]. unfold bind at 1, lift at 1. rewrite Hx.
  unfold bind at 1. rewrite IH. reflexivity.
Qed.

(** C6, as the code has it: for an available node that is not a test node
    (its id is below 900000), when the paths parse and the adapter answers
    the read, [read_attribute] decodes the answer, writes back the items
    whose value differs from the cached one and emits [ATTRIBUTE_UPDATED] for
    each of them, in the order of the read, and for none of the others;
    it schedules the write of the node state exactly when an item differed,
    and returns the whole decoded map. *)
Theorem read_attribute_updates_changed_attributes {T N : Type}
  (sdk : ChipDeviceControllerWrapper T) (env : Environment T N)
  (st : Controller) (node_id : Z) (node : loc) (nd : MatterNodeData)
  (attribute_paths : list string) (sdk_paths : list AttributePath)
  (fabric_filtered : bool) (result : T) :
  _nodes st !! node_id = Some node ->
  heap st !! node = Some nd ->
  available nd = true ->
  node_id < TEST_NODE_START ->
  Forall2 (fun p a => parse_attribute_path env p = Returns a)
          attribute_paths sdk_paths ->
  sdk_read sdk (tick st) node_id sdk_paths fabric_filtered = Returns result ->
  let decoded := parse_attributes_from_read_result env result in
  List.NoDup (map fst decoded) ->
  let changed := changed_items (attributes nd) decoded in
  exists st' nd',
    read_attribute sdk env node_id attribute_paths fabric_filtered st
    = (Returns decoded, st')
    /\ heap st' !! node = Some nd'
    /\ attributes nd' = dict_update changed (attributes nd)
    /\ trace st'
       = trace st
         ++ [Sdk (SdkRead node_id sdk_paths fabric_filtered)]
         ++ attribute_events node_id changed
         ++ match changed with
            | [] => []
            | _ => [StorageSetNode (pretty node_id) node false]
            end
    /\ (forall k v,
          In (k, v) decoded ->
          py_eq (default VNone (attributes nd !! k)) v = true ->
          attributes nd' !! k = attributes nd !! k
          /\ forall w,
             ~ In (SignalEvent ATTRIBUTE_UPDATED (AttributeTuple node_id k w))
                  (attribute_events node_id changed))
    /\ (forall k v,
          In (k, v) decoded ->
          py_eq (default VNone (attributes nd !! k)) v = false ->
          attributes nd' !! k = Some v
          /\ In (SignalEvent ATTRIBUTE_UPDATED (AttributeTuple node_id k v))
                (attribute_events node_id changed)).
Proof.
  intros Hnode Hnd Hav Hlt Hpaths Hread decoded Hdup changed.
  unfold read_attribute.
  unfold bind at 1, gets at 1. rewrite Hnode.
  unfold bind at 1, bind at 1, deref at 1. rewrite Hnd.
  unfold ret at 1. rewrite Hav.
  rewrite geb_false by assumption.
  unfold bind at 1. rewrite (map_m_lift _ _ sdk_paths) by assumption.
  unfold bind at 1, await at 1. rewrite Hread.
  fold decoded.
  set (st1 := set_tick _ _).
  destruct (update_cached_attributes_spec node_id node decoded st1 nd false)
    as (st2 & Hrun & Hheap & Hnodes & Htrace); [exact Hnd | exact Hdup |].
  fold changed in Hrun, Hheap, Htrace.
  unfold bind at 1. rewrite Hrun. cbn [orb].
  assert (Hkeys : forall k v, In (k, v) decoded ->
            py_eq (default VNone (attributes nd !! k)) v = true ->
            ~ In k (map fst changed)).
  { intros k v Hin Heq Hk. apply in_map_iff in Hk.
    destruct Hk as ([k' w] & Hk' & Hw). cbn in Hk'. subst k'.
    apply changed_items_members in Hw. destruct Hw as [Hw Hne].
    rewrite (unique_value decoded k v w Hdup Hin Hw) in Heq. congruence. }
  assert (Hfacts :
    (forall k v, In (k, v) decoded ->
       py_eq (default VNone (attributes nd !! k)) v = true ->
       dict_update changed (attributes nd) !! k = attributes nd !! k
       /\ forall w,
          ~ In (SignalEvent ATTRIBUTE_UPDATED (AttributeTuple node_id k w))
               (attribute_events node_id changed))
    /\ (forall k v, In (k, v) decoded ->
       py_eq (default VNone (attributes nd !! k)) v = false ->
       dict_update changed (attributes nd) !! k = Some v
       /\ In (SignalEvent ATTRIBUTE_UPDATED (AttributeTuple node_id k v))
             (attribute_events node_id changed))).
  { split; intros k v Hin Heq.
    - split.
      + apply dict_update_lookup_other. eauto.
      + intros w Hw. unfold attribute_events in Hw. apply in_map_iff in Hw.
        destruct Hw as ([k' w'] & E & Hw). cbn in E. injection E as -> ->.
        apply (Hkeys k v Hin Heq). apply in_map_iff. exists (k, w). auto.
    - assert (Hc : In (k, v) changed)
        by (apply changed_items_members; auto).
      split.
      + apply dict_update_lookup_item; [|exact Hc].
        now apply changed_items_nodup.
      + unfold attribute_events. apply in_map_iff. exists (k, v). auto. }
  destruct changed as [|c changed'] eqn:Hchanged.
  - unfold bind at 1, ret at 1. unfold ret.
    exists st2. eexists. split; [reflexivity|].
    split; [exact Hheap|]. split; [reflexivity|].
    split; [rewrite Htrace; subst st1; cbn; now rewrite <- app_assoc|].
    exact Hfacts.
  - unfold bind at 1, _write_node_state at 1, bind at 1, gets at 1.
    rewrite Hnodes. subst st1. cbn [_nodes set_tick set_trace].
    rewrite Hnode. rewrite geb_false by assumption.
    unfold emit, modify, ret.
    eexists. eexists. split; [reflexivity|].
    cbn [heap set_trace trace].
    split; [exact Hheap|]. split; [reflexivity|].
    split; [rewrite Htrace; cbn; rewrite <- !app_assoc; reflexivity|].
    exact Hfacts.
Qed.

Lemma read_attribute_updates_changed_attributes_witness :
  let nd :=
    Fixtures.node 7 true false
      [("1/6/0"%string, VBool false); ("1/8/0"%string, VInt 254)] in
  let read := [("1/6/0"%string, VBool true); ("1/8/0"%string, VInt 254)] in
  exists st' nd',
    read_attribute (Fixtures.healthy read) Fixtures.env 7
      ["1/6/0"%string; "1/8/0"%string] false (Fixtures.with_node nd)
    = (Returns read, st')
    /\ heap st' !! 0%nat = Some nd'
    /\ attributes nd' !! "1/6/0"%string = Some (VBool true)
    /\ attributes nd' !! "1/8/0"%string = attributes nd !! "1/8/0"%string.
Proof.
  intros nd read.
  destruct (read_attribute_updates_changed_attributes
              (Fixtures.healthy read) Fixtures.env (Fixtures.with_node nd)
              7 0%nat nd ["1/6/0"%string; "1/8/0"%string]
              [{| EndpointId := None; ClusterId := None; AttributeId := None |};
               {| EndpointId := None; ClusterId := None; AttributeId := None |}]
              false read)
    as (st' & nd' & Hrun & Hheap & _ & _ & Hsame & Hnew).
  - reflexivity.
  - reflexivity.
  - reflexivity.
  - unfold TEST_NODE_START. lia.
  - repeat constructor.
  - reflexivity.
  - repeat constructor; cbn; intuition discriminate.
  - exists st', nd'. split; [exact Hrun|]. split; [exact Hheap|]. split.
    + apply (Hnew "1/6/0"%string (VBool true)); [now left | reflexivity].
    + apply (Hsame "1/8/0"%string (VInt 254)); [right; now left | reflexivity].
Defined.

(** C6, as stated, fails for an available test node: [read_attribute]
    answers from the cache.  The adapter is not called, its read, which
    would yield another value, is neither returned nor written back, and no
    event is emitted. *)
Lemma read_attribute_test_node_answers_from_cache :
  let nd := Fixtures.node 900001 true false [("1/6/0"%string, VBool false)] in
  let read := [("1/6/0"%string, VBool true)] in
  let st := Fixtures.with_node nd in
  let run :=
    read_attribute (Fixtures.healthy read) Fixtures.env 900001
      ["1/6/0"%string] false st in
  available nd = true
  /\ sdk_read (Fixtures.healthy read) (tick st) 900001
       [{| EndpointId := None; ClusterId := None; AttributeId := None |}]
       false = Returns read
  /\ fst run = Returns [("1/6/0"%string, VBool false)]
  /\ fst run <> Returns read
  /\ trace (snd run) = []
  /\ (attributes <$> heap (snd run) !! 0%nat) ≫= (.!! "1/6/0"%string)
     = Some (VBool false).
Proof. vm_compute. repeat split. discriminate. Qed.

(** ** Node set-up *)

Lemma same_timer_refl t : same_timer t t.
Proof. unfold same_timer. auto. Qed.

Lemma frame_refl st : frame st st.
Proof. repeat split; eauto using same_timer_refl. Qed.

Lemma frame_trans st1 st2 st3 : frame st1 st2 -> frame st2 st3 -> frame st1 st3.
Proof.
  intros (H1 & H2 & H3) (H1' & H2' & H3'). repeat split; try congruence.
  intros h t Ht. destruct (H3 h t Ht) as (t' & Ht' & D & C & K).
  destruct (H3' h t' Ht') as (t'' & Ht'' & D' & C' & K').
  exists t''. repeat split; try congruence; auto.
Qed.

Lemma preserves_ret {A : Type} (a : A) : preserves (ret a).
Proof. intros st. apply frame_refl. Qed.

Lemma preserves_raise {A : Type} e : preserves (@raise A e).
Proof. intros st. apply frame_refl. Qed.

Lemma preserves_lift {A : Type} (o : Outcome A) : preserves (lift o).
Proof. intros st. apply frame_refl. Qed.

Lemma preserves_gets {A : Type} (f : Controller -> A) : preserves (gets f).
Proof. intros st. apply frame_refl. Qed.

Lemma preserves_bind {A B : Type} (m : M A) (k : A -> M B) :
  preserves m -> (forall a, preserves (k a)) -> preserves (bind m k).
Proof.
  intros Hm Hk st. unfold bind. specialize (Hm st).
  destruct (m st) as [[a|e| |] st']; cbn in *; try assumption.
  eapply frame_trans; [exact Hm | apply Hk].
Qed.

Lemma preserves_try_except {A : Type} (m : M A) catches handler :
  preserves m -> (forall e, preserves (handler e)) ->
  preserves (try_except m catches handler).
Proof.
  intros Hm Hh st. unfold try_except. specialize (Hm st).
  destruct (m st) as [[a|e| |] st']; cbn in *; try assumption.
  destruct (catches e); [|assumption].
  eapply frame_trans; [exact Hm | apply Hh].
Qed.

Lemma preserves_modify (f : Controller -> Controller) :
  (forall st, frame st (f st)) -> preserves (modify f).
Proof. intros H st. apply H. Qed.

Lemma preserves_await {A : Type} e (answer : nat -> Outcome A) :
  preserves (await e answer).
Proof. intros st. repeat split; cbn; eauto using same_timer_refl. Qed.

Lemma preserves_deref l : preserves (deref l).
Proof. intros st. unfold deref. destruct (_ !! _); apply frame_refl. Qed.

Lemma preserves_new_object n : preserves (new_object n).
Proof. intros st. repeat split; cbn; eauto using same_timer_refl. Qed.

Lemma preserves_call_later d cb : preserves (call_later d cb).
Proof.
  intros st. repeat split; cbn; auto.
  intros h t Ht. exists t. split; [|apply same_timer_refl].
  now apply lookup_app_l_Some.
Qed.

Lemma preserves_cancel_timer h : preserves (cancel_timer h).
Proof.
  intros st. repeat split; cbn; auto.
  intros h' t Ht. rewrite list_lookup_alter. destruct (decide (h = h')).
  - subst. rewrite Ht. cbn. eexists. split; [reflexivity|].
    unfold same_timer. cbn. auto.
  - exists t. split; [assumption | apply same_timer_refl].
Qed.

Lemma preserves_for_each {A : Type} (l : list A) (body : A -> M unit) :
  (forall x, preserves (body x)) -> preserves (for_each l body).
Proof.
  intros H. induction l; cbn [for_each].
  - apply preserves_ret.
  - apply preserves_bind; auto.
Qed.

(** A field update that touches none of the three. *)
Ltac frame_fields :=
  intros ?; repeat split; cbn; eauto using same_timer_refl.

Ltac preserves_step :=
  cbv zeta;
  lazymatch goal with
  | |- preserves (bind _ _) => apply preserves_bind; [|intros ?]
  | |- preserves (ret _) => apply preserves_ret
  | |- preserves (raise _) => apply preserves_raise
  | |- preserves (lift _) => apply preserves_lift
  | |- preserves (gets _) => apply preserves_gets
  | |- preserves (await _ _) => apply preserves_await
  | |- preserves (deref _) => apply preserves_deref
  | |- preserves (new_object _) => apply preserves_new_object
  | |- preserves (call_later _ _) => apply preserves_call_later
  | |- preserves (cancel_timer _) => apply preserves_cancel_timer
  | |- preserves (try_except _ _ _) =>
      apply preserves_try_except; [|intros ?]
  | |- preserves (for_each _ _) => apply preserves_for_each; intros ?
  | |- preserves (modify _) => apply preserves_modify; frame_fields
  | |- preserves (emit _) => apply preserves_modify; frame_fields
  | |- preserves (signal_event _ _) => apply preserves_modify; frame_fields
  | |- preserves (create_task _) => apply preserves_modify; frame_fields
  | |- preserves (update_object _ _) => apply preserves_modify; frame_fields
  | |- preserves (sleep _) => apply preserves_modify; frame_fields
  | |- preserves (time_now) => apply preserves_gets
  | |- preserves (match ?x with _ => _ end) => destruct x
  end.

Lemma preserves_write_node_state node_id force :
  preserves (_write_node_state node_id force).
Proof. unfold _write_node_state. repeat preserves_step. Qed.

Lemma preserves_interview_node {T N : Type}
  (sdk : ChipDeviceControllerWrapper T) (env : Environment T N) node_id :
  preserves (interview_node sdk env node_id).
Proof.
  unfold interview_node.
  repeat (preserves_step || apply preserves_write_node_state).
Qed.

Lemma preserves_shutdown_subscription {T : Type}
  (sdk : ChipDeviceControllerWrapper T) node_id :
  preserves (shutdown_subscription sdk node_id).
Proof. unfold shutdown_subscription. repeat preserves_step. Qed.

Lemma preserves_subscribe_node {T N : Type}
  (sdk : ChipDeviceControllerWrapper T) (env : Environment T N) node_id :
  preserves (_subscribe_node sdk env node_id).
Proof.
  unfold _subscribe_node.
  repeat (preserves_step || apply preserves_shutdown_subscription).
Qed.

Lemma preserves_schedule_custom_attributes_poller :
  preserves _schedule_custom_attributes_poller.
Proof. unfold _schedule_custom_attributes_poller. repeat preserves_step. Qed.

Lemma preserves_setup_steps {T N : Type}
  (sdk : ChipDeviceControllerWrapper T) (env : Environment T N)
  node_id node_data :
  preserves (setup_steps sdk env node_id node_data).
Proof.
  unfold setup_steps.
  repeat (preserves_step
          || apply (preserves_interview_node sdk env)
          || apply (preserves_subscribe_node sdk env)
          || apply preserves_schedule_custom_attributes_poller).
Qed.

(** [_setup_node] ends as its [try] block ends, after the [finally] clause
    and the release of the permit. *)
Lemma setup_node_runs_the_steps {T N : Type}
  (sdk : ChipDeviceControllerWrapper T) (env : Environment T N)
  (st : Controller) (node_id : Z) (node_data : loc) (p : nat) :
  _nodes st !! node_id = Some node_data ->
  node_id ∉ _nodes_in_setup st ->
  _node_setup_throttle st = S p ->
  _setup_node sdk env node_id st
  = match setup_steps sdk env node_id node_data (armed node_id p st) with
    | (Returns a, s) => (Returns a, finished node_id (length (timers st)) s)
    | (Raises e, s) => (Raises e, finished node_id (length (timers st)) s)
    | (Pending, s) => (Pending, s)
    | (Stuck, s) => (Stuck, s)
    end.
Proof.
  intros Hnode Hfree Hpermit. unfold _setup_node.
  unfold bind at 1, gets at 1. rewrite Hnode.
  unfold bind at 1, gets at 1.
  rewrite bool_decide_eq_false_2 by assumption.
  unfold bind at 1, modify at 1.
  unfold with_throttle. unfold bind at 1, gets at 1.
  cbn [_node_setup_throttle set_nodes_in_setup]. rewrite Hpermit.
  unfold bind at 1, modify at 1.
  unfold try_finally at 1.
  unfold bind at 1, time_now at 1, gets at 1.
  unfold bind at 1, call_later at 1.
  unfold try_finally at 1.
  cbn [timers clock set_node_setup_throttle set_nodes_in_setup].
  change (set_timers _ _) with (armed node_id p st).
  destruct (setup_steps sdk env node_id node_data (armed node_id p st))
    as [[[]|e| |] s]; reflexivity.
Qed.

(** What the clean-up establishes, whatever the steps have done. *)
Lemma finished_after_steps (st s : Controller) (node_id : Z) (p : nat) :
  node_id ∉ _nodes_in_setup st ->
  frame (armed node_id p st) s ->
  let s' := finished node_id (length (timers st)) s in
  (node_id ∉ _nodes_in_setup s')
  /\ _nodes_in_setup s' = _nodes_in_setup st
  /\ _node_setup_throttle s' = S p
  /\ exists t,
       timers s' !! length (timers st) = Some t
       /\ callback t = LogNodeLongSetup node_id (clock st)
       /\ cancelled t = true.
Proof.
  intros Hfree (Hset & Hpermits & Htimers) s'. subst s'.
  unfold finished. cbn.
  cbn in Hset, Hpermits. rewrite Hset, Hpermits.
  split.
  { rewrite elem_of_difference, elem_of_singleton. tauto. }
  split.
  { apply set_eq. intros x.
    rewrite elem_of_difference, elem_of_union, !elem_of_singleton.
    split; [tauto|]. intros Hx. split; [tauto|]. congruence. }
  split; [reflexivity|].
  destruct (Htimers (length (timers st))
              {| delay := 15 * 60;
                 callback := LogNodeLongSetup node_id (clock st);
                 cancelled := false |}) as (t' & Ht' & _ & Hcb & _).
  { cbn. rewrite lookup_app_r by lia. now rewrite Nat.sub_diag. }
  rewrite list_lookup_alter_eq, Ht'. cbn.
  eexists. split; [reflexivity|]. cbn. auto.
Qed.

(** ** Concurrent set-ups *)

Lemma set_phase_inv tasks task n0 p0 q i n p :
  tasks !! task = Some (n0, p0) ->
  Protocol.set_phase task q tasks !! i = Some (n, p) ->
  (i = task /\ n = n0 /\ p = q) \/ (i <> task /\ tasks !! i = Some (n, p)).
Proof.
  intros Htask. unfold Protocol.set_phase. rewrite list_lookup_alter.
  destruct (decide (task = i)) as [->|Hne].
  - rewrite Htask. cbn. intros [= <- <-]. auto.
  - intros H. right. auto.
Qed.

Lemma set_phase_same tasks task n0 p0 q :
  tasks !! task = Some (n0, p0) ->
  Protocol.set_phase task q tasks !! task = Some (n0, q).
Proof.
  intros Htask. unfold Protocol.set_phase.
  now rewrite list_lookup_alter_eq, Htask.
Qed.

Lemma set_phase_other tasks task q o :
  o <> task -> Protocol.set_phase task q tasks !! o = tasks !! o.
Proof.
  intros Hne. unfold Protocol.set_phase. now rewrite list_lookup_alter_ne.
Qed.

Lemma set_timer_armed watchdogs h0 state h o :
  state <> Protocol.Armed ->
  Protocol.set_timer h0 state watchdogs !! h = Some (o, Protocol.Armed) ->
  h <> h0 /\ watchdogs !! h = Some (o, Protocol.Armed).
Proof.
  intros Hstate. unfold Protocol.set_timer. rewrite list_lookup_alter.
  destruct (decide (h0 = h)) as [->|Hne].
  - destruct (watchdogs !! h) as [[]|]; cbn; intros [= ]; congruence.
  - auto.
Qed.

(** A coroutine whose phase changes without entering or leaving a set-up. *)
Lemma serialized_tasks_same_status (s : Protocol.Sched) task n0 p0 q
  i n p :
  Protocol.tasks s !! task = Some (n0, p0) ->
  Protocol.setting_up q = Protocol.setting_up p0 ->
  Protocol.set_phase task q (Protocol.tasks s) !! i = Some (n, p) ->
  Protocol.setting_up p = true ->
  exists p', Protocol.tasks s !! i = Some (n, p')
             /\ Protocol.setting_up p' = true.
Proof.
  intros Htask Hq Hi Hp.
  destruct (set_phase_inv _ _ _ _ _ _ _ _ Htask Hi) as [(-> & -> & ->)|[_ H]].
  - exists p0. split; [assumption | congruence].
  - eauto.
Qed.

Lemma serialized_start (nodes : gset Z) : serialized (Protocol.start nodes).
Proof.
  repeat split; cbn; intros; rewrite lookup_nil in *; discriminate.
Qed.

Lemma serialized_step (s s' : Protocol.Sched) (e : Protocol.Event) :
  serialized s -> Protocol.step s e = Some s' -> serialized s'.
Proof.
  intros (HA & HB & HC) Hstep.
  destruct e as [n0|task|task raised|task|n0|n0]; cbn in Hstep.
  - (* Spawn *)
    injection Hstep as <-.
    assert (Hold : forall i n p,
              (Protocol.tasks s ++ [(n0, Protocol.Entering)]) !! i = Some (n, p) ->
              Protocol.setting_up p = true ->
              Protocol.tasks s !! i = Some (n, p)).
    { intros i n p Hi Hp. apply lookup_snoc_Some in Hi.
      destruct Hi as [[_ Hi]|[_ Hi]]; [assumption|].
      injection Hi as <- <-. discriminate. }
    repeat split; cbn.
    + intros i j n p q Hi Hj Hp Hq. eauto.
    + intros i n p Hi Hp. eauto.
    + intros h o Hh. destruct (HC h o Hh) as [n Hn].
      exists n. now apply lookup_app_l_Some.
  - (* Resume *)
    destruct (Protocol.tasks s !! task) as [[n0 [| |lt|r]]|] eqn:Htask;
      try discriminate.
    + (* the guards *)
      assert (HC' : forall q h o,
                Protocol.watchdogs s !! h = Some (o, Protocol.Armed) ->
                exists n, Protocol.set_phase task q (Protocol.tasks s) !! o
                          = Some (n, Protocol.InTry h)).
      { intros q h o Hh. destruct (HC h o Hh) as [n Hn]. exists n.
        rewrite set_phase_other; [assumption|]. intros ->. congruence. }
      assert (Hdone : forall q,
                Protocol.setting_up q = false ->
                serialized
                  {| Protocol.known_nodes := Protocol.known_nodes s;
                     Protocol.nodes_in_setup := Protocol.nodes_in_setup s;
                     Protocol.permits := Protocol.permits s;
                     Protocol.watchdogs := Protocol.watchdogs s;
                     Protocol.tasks :=
                       Protocol.set_phase task q (Protocol.tasks s) |}).
      { intros q Hq. repeat split; cbn; [| |apply HC'].
        - intros i j n p p' Hi Hj Hp Hp'.
          destruct (serialized_tasks_same_status s task n0 _ q i n p
                      Htask Hq Hi Hp) as (pi & Hpi & Spi).
          destruct (serialized_tasks_same_status s task n0 _ q j n p'
                      Htask Hq Hj Hp') as (pj & Hpj & Spj).
          eauto.
        - intros i n p Hi Hp.
          destruct (serialized_tasks_same_status s task n0 _ q i n p
                      Htask Hq Hi Hp) as (pi & Hpi & Spi).
          eauto. }
      destruct (bool_decide (n0 ∉ Protocol.known_nodes s));
        [injection Hstep as <-; now apply Hdone|].
      destruct (bool_decide (n0 ∈ Protocol.nodes_in_setup s)) eqn:Hin;
        [injection Hstep as <-; now apply Hdone|].
      apply bool_decide_eq_false in Hin.
      injection Hstep as <-. repeat split; cbn; [| |apply HC'].
      * intros i j n p q Hi Hj Hp Hq.
        destruct (set_phase_inv _ _ _ _ _ _ _ _ Htask Hi)
          as [(-> & -> & ->)|[Hni Hi']];
        destruct (set_phase_inv _ _ _ _ _ _ _ _ Htask Hj)
          as [(-> & E & ->)|[Hnj Hj']]; subst; try reflexivity.
        -- exfalso. apply Hin. eauto.
        -- exfalso. apply Hin. eauto.
        -- eauto.
      * intros i n p Hi Hp.
        destruct (set_phase_inv _ _ _ _ _ _ _ _ Htask Hi)
          as [(-> & -> & ->)|[Hni Hi']].
        -- apply elem_of_union_l. now apply elem_of_singleton.
        -- apply elem_of_union_r. eauto.
    + (* the permit *)
      destruct (Protocol.permits s) as [|permits]; [discriminate|].
      injection Hstep as <-. repeat split; cbn.
      * intros i j n p q Hi Hj Hp Hq.
        destruct (serialized_tasks_same_status s task n0 _
                    (Protocol.InTry (length (Protocol.watchdogs s))) i n p
                    Htask eq_refl Hi Hp) as (pi & Hpi & Spi).
        destruct (serialized_tasks_same_status s task n0 _
                    (Protocol.InTry (length (Protocol.watchdogs s))) j n q
                    Htask eq_refl Hj Hq) as (pj & Hpj & Spj).
        eauto.
      * intros i n p Hi Hp.
        destruct (serialized_tasks_same_status s task n0 _
                    (Protocol.InTry (length (Protocol.watchdogs s))) i n p
                    Htask eq_refl Hi Hp) as (pi & Hpi & Spi).
        eauto.
      * intros h o Hh. apply lookup_snoc_Some in Hh.
        destruct Hh as [[_ Hh]|[-> Hh]].
        -- destruct (HC h o Hh) as [n Hn]. exists n.
           rewrite set_phase_other; [assumption|]. intros ->. congruence.
        -- injection Hh as <-. exists n0.
           eapply set_phase_same; eassumption.
  - (* Leave *)
    destruct (Protocol.tasks s !! task) as [[n0 [| |lt|r]]|] eqn:Htask;
      try discriminate.
    injection Hstep as <-. repeat split; cbn.
    + intros i j n p q Hi Hj Hp Hq.
      destruct (set_phase_inv _ _ _ _ _ _ _ _ Htask Hi)
        as [(-> & -> & ->)|[Hni Hi']]; [discriminate|].
      destruct (set_phase_inv _ _ _ _ _ _ _ _ Htask Hj)
        as [(-> & -> & ->)|[Hnj Hj']]; [discriminate|].
      eauto.
    + intros i n p Hi Hp.
      destruct (set_phase_inv _ _ _ _ _ _ _ _ Htask Hi)
        as [(-> & -> & ->)|[Hni Hi']]; [discriminate|].
      apply elem_of_difference. split; [eauto|].
      rewrite elem_of_singleton. intros ->.
      apply Hni. exact (HA i task n0 p (Protocol.InTry lt) Hi' Htask Hp eq_refl).
    + intros h o Hh.
      apply set_timer_armed in Hh; [|discriminate].
      destruct Hh as [Hne Hh]. destruct (HC h o Hh) as [n Hn]. exists n.
      rewrite set_phase_other; [assumption|]. intros ->.
      rewrite Htask in Hn. congruence.
  - (* WatchdogFires *)
    destruct (Protocol.tasks s !! task) as [[n0 [| |lt|r]]|] eqn:Htask;
      try discriminate.
    destruct (Protocol.watchdogs s !! lt) as [[o0 []]|] eqn:Hlt;
      try discriminate.
    injection Hstep as <-. repeat split; cbn.
    + intros i j n p q Hi Hj Hp Hq.
      destruct (serialized_tasks_same_status s task n0 _
                    (Protocol.InTry (length (Protocol.watchdogs s))) i n p
                  Htask eq_refl Hi Hp) as (pi & Hpi & Spi).
      destruct (serialized_tasks_same_status s task n0 _
                    (Protocol.InTry (length (Protocol.watchdogs s))) j n q
                  Htask eq_refl Hj Hq) as (pj & Hpj & Spj).
      eauto.
    + intros i n p Hi Hp.
      destruct (serialized_tasks_same_status s task n0 _
                    (Protocol.InTry (length (Protocol.watchdogs s))) i n p
                  Htask eq_refl Hi Hp) as (pi & Hpi & Spi).
      eauto.
    + intros h o Hh. apply lookup_snoc_Some in Hh.
      destruct Hh as [[_ Hh]|[-> Hh]].
      * apply set_timer_armed in Hh; [|discriminate].
        destruct Hh as [Hne Hh]. destruct (HC h o Hh) as [n Hn]. exists n.
        rewrite set_phase_other; [assumption|]. intros ->.
        rewrite Htask in Hn. congruence.
      * injection Hh as <-. exists n0.
        unfold Protocol.set_timer. rewrite length_alter.
        eapply set_phase_same; eassumption.
  - injection Hstep as <-. repeat split; cbn; eauto.
  - injection Hstep as <-. repeat split; cbn; eauto.
Qed.

Lemma serialized_run (events : list Protocol.Event) :
  forall s s',
  serialized s -> Protocol.run s events = Some s' -> serialized s'.
Proof.
  induction events as [|e events IH]; intros s s' Hs Hrun; cbn in Hrun.
  - now injection Hrun as <-.
  - destruct (Protocol.step s e) as [s1|] eqn:Hstep; [|discriminate].
    eapply IH; [|exact Hrun]. eapply serialized_step; eassumption.
Qed.



(** * More properties *)

(** ** The interview *)

(** What a successful interview does, for a node the registry may or may
    not hold. *)
Lemma interview_node_succeeds {T N : Type}
  (sdk : ChipDeviceControllerWrapper T) (env : Environment T N)
  (st : Controller) (node_id : Z) (read_response : T)
  (existing : option MatterNodeData) (bridge : bool) :
  node_id < TEST_NODE_START ->
  sdk_read_attribute sdk (tick st) node_id = Returns read_response ->
  match _nodes st !! node_id with
  | Some l => heap st !! l = existing /\ is_Some existing
  | None => existing = None
  end ->
  let decoded := parse_attributes_from_read_result env read_response in
  detect_bridge (dict_update decoded ∅) = Returns bridge ->
  let node := fresh (dom (heap st)) in
  let record :=
    interviewed (DATA_MODEL_SCHEMA_VERSION env) node_id (clock st)
                existing decoded bridge in
  exists st',
    interview_node sdk env node_id st = (Returns tt, st')
    /\ _nodes st' = <[node_id := node]> (_nodes st)
    /\ heap st' = <[node := record]> (heap st)
    /\ heap st !! node = None
    /\ trace st'
       = trace st
         ++ [Sdk (SdkReadAttribute node_id false);
             StorageSetNode (pretty node_id) node true;
             SignalEvent
               (match existing with None => NODE_ADDED | Some _ => NODE_UPDATED end)
               (NodeObject node)]
    /\ tick st' = S (tick st)
    /\ clock st' = clock st
    /\ timers st' = timers st
    /\ _nodes_in_setup st' = _nodes_in_setup st
    /\ _node_setup_throttle st' = _node_setup_throttle st
    /\ _last_subscription_attempt st' = _last_subscription_attempt st
    /\ subscription_callbacks st' = subscription_callbacks st
    /\ _polled_attributes st' = _polled_attributes st
    /\ storage_last_node_id st' = storage_last_node_id st.
Proof.
  intros Hlt Hread Hexisting decoded Hbridge node record.
  assert (Hfresh : heap st !! node = None)
    by (apply not_elem_of_dom, is_fresh).
  unfold detect_bridge in Hbridge.
  unfold interview_node. rewrite geb_false by assumption.
  unfold bind, try_except, await, gets, ret, time_now, new_object, deref,
    update_object, modify, lift, _write_node_state, signal_event, emit, modify.
  rewrite Hread. cbn -[pretty Z.geb fresh dom].
  fold decoded. fold node.
  destruct (_nodes st !! node_id) as [l|] eqn:Hnode.
  - destruct Hexisting as [Hl [old ->]].
    cbn -[pretty Z.geb fresh dom]. rewrite Hl. cbn -[pretty Z.geb fresh dom]. fold node.
    rewrite !lookup_insert_eq. cbn -[pretty Z.geb fresh dom].
    destruct (dict_update decoded ∅ !! "1/29/0"%string) as [attr_data|];
      [destruct (truthy attr_data);
       [destruct (py_iter attr_data) as [items|e| |]; try discriminate;
        rewrite Hbridge|injection Hbridge as <-]
      |injection Hbridge as <-];
      cbn -[pretty Z.geb fresh dom];
      rewrite ?lookup_insert_eq, geb_false by assumption;
      (eexists; split; [reflexivity|]);
      cbn -[pretty Z.geb fresh dom];
      rewrite <- ?app_assoc, ?alter_insert_eq;
      repeat split; auto.
  - subst existing.
    cbn -[pretty Z.geb fresh dom]. fold node.
    rewrite !lookup_insert_eq. cbn -[pretty Z.geb fresh dom].
    destruct (dict_update decoded ∅ !! "1/29/0"%string) as [attr_data|];
      [destruct (truthy attr_data);
       [destruct (py_iter attr_data) as [items|e| |]; try discriminate;
        rewrite Hbridge|injection Hbridge as <-]
      |injection Hbridge as <-];
      cbn -[pretty Z.geb fresh dom];
      rewrite ?lookup_insert_eq, geb_false by assumption;
      (eexists; split; [reflexivity|]);
      cbn -[pretty Z.geb fresh dom];
      rewrite <- ?app_assoc, ?alter_insert_eq;
      repeat split; auto.
Qed.

Lemma dict_update_empty_lookup (items : list (string * Value)) k v :
  List.NoDup (map fst items) ->
  dict_update items ∅ !! k = Some v <-> In (k, v) items.
Proof.
  intros Hdup. split.
  - intros Hk.
    destruct (in_dec string_dec k (map fst items)) as [Hin|Hout].
    + apply in_map_iff in Hin. destruct Hin as ([k' w] & E & Hin).
      cbn in E. subst k'.
      rewrite (dict_update_lookup_item items ∅ k w Hdup Hin) in Hk.
      now injection Hk as <-.
    + rewrite dict_update_lookup_other in Hk by assumption.
      now rewrite lookup_empty in Hk.
  - now apply dict_update_lookup_item.
Qed.

(** X1.  Interview, then [get_node]: after a successful interview of a node
    that is not a test node, [get_node] yields a record whose attributes are
    exactly the items of the decoded read, stamped with the current schema
    version and time; the date of commissioning, the attribute subscriptions
    and the availability are those of the record the node had before (now,
    none and unavailable for a new node).  The record is written to storage
    with [force=True], and announced with [NODE_ADDED] the first time and
    with [NODE_UPDATED] afterwards. *)
Theorem interview_then_get_node {T N : Type}
  (sdk : ChipDeviceControllerWrapper T) (env : Environment T N)
  (st : Controller) (node_id : Z) (read_response : T)
  (existing : option MatterNodeData) (bridge : bool) :
  node_id < TEST_NODE_START ->
  sdk_read_attribute sdk (tick st) node_id = Returns read_response ->
  match _nodes st !! node_id with
  | Some l => heap st !! l = existing /\ is_Some existing
  | None => existing = None
  end ->
  let decoded := parse_attributes_from_read_result env read_response in
  List.NoDup (map fst decoded) ->
  detect_bridge (dict_update decoded ∅) = Returns bridge ->
  exists st' node nd,
    interview_node sdk env node_id st = (Returns tt, st')
    /\ get_node node_id st' = (Returns node, st')
    /\ heap st' !! node = Some nd
    /\ (forall k v, attributes nd !! k = Some v <-> In (k, v) decoded)
    /\ id_of nd = node_id
    /\ interview_version nd = DATA_MODEL_SCHEMA_VERSION env
    /\ last_interview nd = clock st
    /\ is_bridge nd = bridge
    /\ date_commissioned nd
       = match existing with Some e => date_commissioned e | None => clock st end
    /\ attribute_subscriptions nd
       = match existing with
         | Some e => attribute_subscriptions e
         | None => []
         end
    /\ available nd
       = match existing with Some e => available e | None => false end
    /\ trace st'
       = trace st
         ++ [Sdk (SdkReadAttribute node_id false);
             StorageSetNode (pretty node_id) node true;
             SignalEvent
               (match existing with None => NODE_ADDED | Some _ => NODE_UPDATED end)
               (NodeObject node)].
Proof.
  intros Hlt Hread Hexisting decoded Hdup Hbridge.
  destruct (interview_node_succeeds sdk env st node_id read_response existing
              bridge Hlt Hread Hexisting Hbridge)
    as (st' & Hrun & Hnodes & Hheap & _ & Htrace & _).
  eexists st', _, _. split; [exact Hrun|].
  split.
  { unfold get_node, bind, gets. rewrite Hnodes, lookup_insert_eq. reflexivity. }
  split.
  { rewrite Hheap. apply lookup_insert_eq. }
  split.
  { intros k v. cbn [attributes interviewed].
    now apply dict_update_empty_lookup. }
  repeat split; try reflexivity. exact Htrace.
Qed.

Lemma interview_then_get_node_witness :
  exists st' node nd,
    interview_node
      (Fixtures.healthy [("0/40/9"%string, VInt 3); ("1/6/0"%string, VBool true)])
      Fixtures.env 7 Fixtures.fresh
    = (Returns tt, st')
    /\ get_node 7 st' = (Returns node, st')
    /\ heap st' !! node = Some nd
    /\ attributes nd !! "1/6/0"%string = Some (VBool true)
    /\ trace st'
       = [Sdk (SdkReadAttribute 7 false);
          StorageSetNode "7" node true;
          SignalEvent NODE_ADDED (NodeObject node)].
Proof.
  destruct (interview_then_get_node
              (Fixtures.healthy
                 [("0/40/9"%string, VInt 3); ("1/6/0"%string, VBool true)])
              Fixtures.env Fixtures.fresh 7
              [("0/40/9"%string, VInt 3); ("1/6/0"%string, VBool true)]
              None false)
    as (st' & node & nd & Hrun & Hget & Hheap & Hattrs & _ & _ & _ & _ & _ & _
        & _ & Htrace).
  - unfold TEST_NODE_START. lia.
  - reflexivity.
  - reflexivity.
  - repeat constructor; cbn; intuition discriminate.
  - reflexivity.
  - exists st', node, nd. split; [exact Hrun|]. split; [exact Hget|].
    split; [exact Hheap|]. split; [|exact Htrace].
    apply Hattrs. right. now left.
Defined.

(** X2.  A failed interview changes nothing: when the read of the interview
    raises, [interview_node] raises [NodeInterviewFailed] for a stack error
    and the error itself otherwise, and the registry, the node objects, the
    stored ids and the events are as they were; all that is left is the call
    of the SDK. *)
Theorem interview_failure_leaves_the_registry {T N : Type}
  (sdk : ChipDeviceControllerWrapper T) (env : Environment T N)
  (st : Controller) (node_id : Z) (e : PyError) :
  node_id < TEST_NODE_START ->
  sdk_read_attribute sdk (tick st) node_id = Raises e ->
  exists st',
    interview_node sdk env node_id st
    = (Raises (if PyError_eqb ChipStackError e then NodeInterviewFailed else e),
       st')
    /\ _nodes st' = _nodes st
    /\ heap st' = heap st
    /\ storage_last_node_id st' = storage_last_node_id st
    /\ trace st' = trace st ++ [Sdk (SdkReadAttribute node_id false)].
Proof.
  intros Hlt Hread. eexists. split.
  - now apply interview_node_read_fails.
  - cbn. auto.
Qed.

Lemma interview_failure_leaves_the_registry_witness :
  exists st',
    interview_node Fixtures.interview_fails Fixtures.env 7
      (Fixtures.with_node (Fixtures.node 7 true false []))
    = (Raises NodeInterviewFailed, st')
    /\ _nodes st' = _nodes (Fixtures.with_node (Fixtures.node 7 true false [])).
Proof.
  destruct (interview_failure_leaves_the_registry
              Fixtures.interview_fails Fixtures.env
              (Fixtures.with_node (Fixtures.node 7 true false []))
              7 ChipStackError)
    as (st' & Hrun & Hnodes & _).
  - unfold TEST_NODE_START. lia.
  - reflexivity.
  - exists st'. split; [exact Hrun | exact Hnodes].
Defined.

(** X3.  The interview of a test node: for an id of 900000 or more the SDK
    is not asked; a node the registry holds is announced with
    [NODE_UPDATED] and nothing else changes, and an id the registry does
    not hold makes the command raise [KeyError], which is none of the
    documented error kinds. *)
Theorem interview_of_a_test_node {T N : Type}
  (sdk : ChipDeviceControllerWrapper T) (env : Environment T N)
  (st : Controller) (node_id : Z) :
  TEST_NODE_START <= node_id ->
  (forall node,
     _nodes st !! node_id = Some node ->
     interview_node sdk env node_id st
     = (Returns tt,
        set_trace (trace st ++ [SignalEvent NODE_UPDATED (NodeObject node)]) st))
  /\ (_nodes st !! node_id = None ->
      interview_node sdk env node_id st = (Raises KeyError, st)
      /\ documented_error KeyError = false).
Proof.
  intros Hge. unfold interview_node. rewrite geb_true by assumption.
  unfold bind, gets. split.
  - intros node Hnode. rewrite Hnode. reflexivity.
  - intros Hnone. rewrite Hnone. split; reflexivity.
Qed.

Lemma interview_of_a_test_node_witness :
  interview_node Fixtures.interview_fails Fixtures.env 900001 Fixtures.fresh
  = (Raises KeyError, Fixtures.fresh)
  /\ interview_node Fixtures.interview_fails Fixtures.env 900001
       (Fixtures.with_node (Fixtures.node 900001 true false []))
     = (Returns tt,
        set_trace [SignalEvent NODE_UPDATED (NodeObject 0%nat)]
          (Fixtures.with_node (Fixtures.node 900001 true false []))).
Proof.
  split.
  - apply (interview_of_a_test_node Fixtures.interview_fails Fixtures.env
             Fixtures.fresh 900001); [unfold TEST_NODE_START; lia | reflexivity].
  - apply (interview_of_a_test_node Fixtures.interview_fails Fixtures.env
             (Fixtures.with_node (Fixtures.node 900001 true false []))
             900001); [unfold TEST_NODE_START; lia | reflexivity].
Defined.

Lemma any_device_type_14_entries (types : list (Z * Z)) :
  any_device_type_14
    (map (fun tr => device_type_entry (fst tr) (snd tr)) types)
  = Returns (existsb (fun tr => fst tr =? 14) types).
Proof.
  induction types as [|[t r] types IH]; [reflexivity|].
  cbn [map any_device_type_14 device_type_entry py_getitem0 assoc fst snd
       existsb].
  change (0 =? 0) with true. cbv iota. cbn [py_eq].
  destruct (t =? 14); [reflexivity | exact IH].
Qed.

(** When the bridge test raises, so does the interview, and the node is not
    stored. *)
Lemma interview_node_bridge_error {T N : Type}
  (sdk : ChipDeviceControllerWrapper T) (env : Environment T N)
  (st : Controller) (node_id : Z) (read_response : T) (e : PyError) :
  node_id < TEST_NODE_START ->
  sdk_read_attribute sdk (tick st) node_id = Returns read_response ->
  match _nodes st !! node_id with
  | Some l => is_Some (heap st !! l)
  | None => True
  end ->
  detect_bridge
    (dict_update (parse_attributes_from_read_result env read_response) ∅)
  = Raises e ->
  exists st',
    interview_node sdk env node_id st = (Raises e, st')
    /\ _nodes st' = _nodes st
    /\ trace st' = trace st ++ [Sdk (SdkReadAttribute node_id false)].
Proof.
  intros Hlt Hread Hexisting Hbridge.
  unfold detect_bridge in Hbridge.
  unfold interview_node. rewrite geb_false by assumption.
  unfold bind, try_except, await, gets, ret, time_now, new_object, deref,
    update_object, modify, lift, _write_node_state, signal_event, emit, modify.
  rewrite Hread. cbn -[pretty Z.geb fresh dom].
  destruct (_nodes st !! node_id) as [l|] eqn:Hnode.
  - destruct Hexisting as [old Hl].
    cbn -[pretty Z.geb fresh dom]. rewrite Hl.
    cbn -[pretty Z.geb fresh dom].
    rewrite !lookup_insert_eq. cbn -[pretty Z.geb fresh dom].
    destruct (dict_update _ ∅ !! "1/29/0"%string) as [attr_data|];
      [destruct (truthy attr_data);
       [destruct (py_iter attr_data) as [items|e'| |]; try discriminate;
        [rewrite Hbridge | injection Hbridge as ->]
       |discriminate]
      |discriminate];
      cbn -[pretty Z.geb fresh dom];
      (eexists; split; [reflexivity|]); cbn; auto.
  - cbn -[pretty Z.geb fresh dom].
    rewrite !lookup_insert_eq. cbn -[pretty Z.geb fresh dom].
    destruct (dict_update _ ∅ !! "1/29/0"%string) as [attr_data|];
      [destruct (truthy attr_data);
       [destruct (py_iter attr_data) as [items|e'| |]; try discriminate;
        [rewrite Hbridge | injection Hbridge as ->]
       |discriminate]
      |discriminate];
      cbn -[pretty Z.geb fresh dom];
      (eexists; split; [reflexivity|]); cbn; auto.
Qed.



(** ** Subscriptions *)

(** What a successful [_subscribe_node] does. *)
Lemma subscribe_node_succeeds {T N : Type}
  (sdk : ChipDeviceControllerWrapper T) (env : Environment T N)
  (st : Controller) (node_id : Z) (node : loc) (nd : MatterNodeData)
  (sub : T) :
  _nodes st !! node_id = Some node ->
  heap st !! node = Some nd ->
  sdk_shutdown_subscription sdk (tick st) node_id = Returns tt ->
  let ceiling := subscription_ceiling (attributes nd) in
  sdk_subscribe sdk (S (tick st)) node_id 0 ceiling = Returns sub ->
  exists st',
    _subscribe_node sdk env node_id st = (Returns tt, st')
    /\ heap st'
       = <[node :=
             with_attributes
               (dict_update (parse_attributes_from_read_result env sub)
                            (attributes nd))
               (with_available true nd)]> (heap st)
    /\ _nodes st' = _nodes st
    /\ _last_subscription_attempt st'
       = <[node_id := 0]> (_last_subscription_attempt st)
    /\ subscription_callbacks st'
       = <[node_id := node]> (subscription_callbacks st)
    /\ _node_last_seen st' = <[node_id := clock st]> (_node_last_seen st)
    /\ trace st'
       = trace st
         ++ [Sdk (SdkShutdownSubscription node_id);
             Sdk (SdkSubscribe node_id 0 ceiling);
             SignalEvent NODE_UPDATED (NodeObject node)]
    /\ tick st' = S (S (tick st))
    /\ clock st' = clock st
    /\ timers st' = timers st
    /\ _nodes_in_setup st' = _nodes_in_setup st
    /\ _node_setup_throttle st' = _node_setup_throttle st
    /\ _polled_attributes st' = _polled_attributes st
    /\ _custom_attribute_poller_timer st' = _custom_attribute_poller_timer st
    /\ storage_last_node_id st' = storage_last_node_id st.
Proof.
  intros Hnode Hnd Hshut ceiling Hsub.
  unfold _subscribe_node, shutdown_subscription.
  unfold bind, await, gets, ret, time_now, deref, update_object, modify,
    signal_event, emit, modify.
  rewrite Hnode, Hshut. cbn -[pretty Z.geb]. rewrite Hnd.
  fold (subscription_ceiling (attributes nd)). fold ceiling.
  cbn -[pretty Z.geb]. rewrite Hsub.
  eexists. split; [reflexivity|].
  cbn. rewrite <- !app_assoc.
  repeat split; auto.
  - apply map_eq. intros l.
    destruct (decide (node = l)) as [<-|Hne].
    + rewrite !lookup_alter_eq, lookup_insert_eq, Hnd. reflexivity.
    + now rewrite !lookup_alter_ne, lookup_insert_ne.
  - apply insert_delete_eq.
Qed.

(** X5.  The report interval of a subscription.  [_subscribe_node] first
    shuts down the subscription the node may have, then asks for a new one
    with floor 0 and a ceiling read off the cached routing role
    ([0/53/1]): 60 seconds when there is none, 600 seconds for a sleepy end
    device, 60 seconds for every other role.  This holds whatever the SDK
    answers to the subscription request. *)
Theorem subscribe_node_report_interval {T N : Type}
  (sdk : ChipDeviceControllerWrapper T) (env : Environment T N)
  (st : Controller) (node_id : Z) (node : loc) (nd : MatterNodeData) :
  _nodes st !! node_id = Some node ->
  heap st !! node = Some nd ->
  sdk_shutdown_subscription sdk (tick st) node_id = Returns tt ->
  exists ceiling added,
    trace (snd (_subscribe_node sdk env node_id st))
    = trace st
      ++ [Sdk (SdkShutdownSubscription node_id);
          Sdk (SdkSubscribe node_id 0 ceiling)]
      ++ added
    /\ (attributes nd !! ROUTING_ROLE_ATTRIBUTE_PATH = None
        \/ attributes nd !! ROUTING_ROLE_ATTRIBUTE_PATH = Some VNone ->
        ceiling = 60)
    /\ (attributes nd !! ROUTING_ROLE_ATTRIBUTE_PATH
        = Some (VInt kSleepyEndDevice) ->
        ceiling = 600)
    /\ (forall role,
        attributes nd !! ROUTING_ROLE_ATTRIBUTE_PATH = Some (VInt role) ->
        role <> kSleepyEndDevice ->
        ceiling = 60).
Proof.
  intros Hnode Hnd Hshut.
  exists (subscription_ceiling (attributes nd)).
  unfold _subscribe_node, shutdown_subscription.
  unfold bind, await, gets, ret, time_now, deref, update_object, modify,
    signal_event, emit, modify.
  rewrite Hnode, Hshut. cbn -[pretty Z.geb]. rewrite Hnd.
  fold (subscription_ceiling (attributes nd)).
  cbn -[pretty Z.geb].
  destruct (sdk_subscribe sdk (S (tick st)) node_id 0
              (subscription_ceiling (attributes nd))) as [sub|e| |];
    eexists; (split; [cbn; rewrite <- ?app_assoc; cbn; reflexivity|]);
    unfold subscription_ceiling;
    (split; [intros [-> | ->]; reflexivity|]);
    (split; [intros ->; reflexivity|]);
    intros role -> Hrole; cbn [py_eq];
    (replace (role =? kSleepyEndDevice) with false
       by (symmetry; now apply Z.eqb_neq)); reflexivity.
Qed.

Lemma subscribe_node_report_interval_witness :
  exists added,
    trace (snd (_subscribe_node (Fixtures.healthy []) Fixtures.env 7
                  (Fixtures.with_node
                     (Fixtures.node 7 false false
                        [(ROUTING_ROLE_ATTRIBUTE_PATH, VInt 2)]))))
    = [Sdk (SdkShutdownSubscription 7); Sdk (SdkSubscribe 7 0 600)] ++ added.
Proof.
  destruct (subscribe_node_report_interval (Fixtures.healthy []) Fixtures.env
              (Fixtures.with_node
                 (Fixtures.node 7 false false
                    [(ROUTING_ROLE_ATTRIBUTE_PATH, VInt 2)]))
              7 0%nat
              (Fixtures.node 7 false false
                 [(ROUTING_ROLE_ATTRIBUTE_PATH, VInt 2)])
              eq_refl eq_refl eq_refl)
    as (ceiling & added & Htrace & _ & Hsleepy & _).
  exists added. rewrite Htrace. rewrite (Hsleepy eq_refl). reflexivity.
Defined.

(** X6.  A subscription that succeeds: the node object becomes available,
    the snapshot of the subscription is merged into its cached attributes
    (a path of the snapshot gets the value of the snapshot, every other
    path keeps its cached value), the attempt counter of the node is 0, the
    callbacks of the subscription hold this node object, and one
    [NODE_UPDATED] is emitted. *)
Theorem subscribe_node_marks_available {T N : Type}
  (sdk : ChipDeviceControllerWrapper T) (env : Environment T N)
  (st : Controller) (node_id : Z) (node : loc) (nd : MatterNodeData)
  (sub : T) :
  _nodes st !! node_id = Some node ->
  heap st !! node = Some nd ->
  sdk_shutdown_subscription sdk (tick st) node_id = Returns tt ->
  sdk_subscribe sdk (S (tick st)) node_id 0
    (subscription_ceiling (attributes nd)) = Returns sub ->
  let snapshot := parse_attributes_from_read_result env sub in
  List.NoDup (map fst snapshot) ->
  exists st' nd',
    _subscribe_node sdk env node_id st = (Returns tt, st')
    /\ heap st' !! node = Some nd'
    /\ available nd' = true
    /\ (forall k v, In (k, v) snapshot -> attributes nd' !! k = Some v)
    /\ (forall k, ~ In k (map fst snapshot) ->
                  attributes nd' !! k = attributes nd !! k)
    /\ _last_subscription_attempt st' !! node_id = Some 0
    /\ subscription_callbacks st' !! node_id = Some node
    /\ count (signals NODE_UPDATED) (trace st')
       = S (count (signals NODE_UPDATED) (trace st)).
Proof.
  intros Hnode Hnd Hshut Hsub snapshot Hdup.
  destruct (subscribe_node_succeeds sdk env st node_id node nd sub
              Hnode Hnd Hshut Hsub)
    as (st' & Hrun & Hheap & _ & Hattempt & Hcb & _ & Htrace & _).
  eexists st', _. split; [exact Hrun|].
  split; [rewrite Hheap; apply lookup_insert_eq|].
  split; [reflexivity|].
  split.
  { intros k v Hin. cbn [attributes with_attributes].
    now apply dict_update_lookup_item. }
  split.
  { intros k Hk. cbn [attributes with_attributes with_available].
    now apply dict_update_lookup_other. }
  split; [rewrite Hattempt; apply lookup_insert_eq|].
  split; [rewrite Hcb; apply lookup_insert_eq|].
  rewrite Htrace, count_app. cbn. lia.
Qed.

Lemma subscribe_node_marks_available_witness :
  exists st' nd',
    _subscribe_node (Fixtures.healthy [("1/6/0"%string, VBool true)])
      Fixtures.env 7
      (Fixtures.with_node
         (Fixtures.node 7 false false [("1/6/0"%string, VBool false)]))
    = (Returns tt, st')
    /\ heap st' !! 0%nat = Some nd'
    /\ available nd' = true
    /\ attributes nd' !! "1/6/0"%string = Some (VBool true).
Proof.
  destruct (subscribe_node_marks_available
              (Fixtures.healthy [("1/6/0"%string, VBool true)])
              Fixtures.env
              (Fixtures.with_node
                 (Fixtures.node 7 false false [("1/6/0"%string, VBool false)]))
              7 0%nat
              (Fixtures.node 7 false false [("1/6/0"%string, VBool false)])
              [("1/6/0"%string, VBool true)]
              eq_refl eq_refl eq_refl eq_refl)
    as (st' & nd' & Hrun & Hheap & Hav & Hsnap & _).
  - repeat constructor. cbn. tauto.
  - exists st', nd'. split; [exact Hrun|]. split; [exact Hheap|].
    split; [exact Hav|]. apply Hsnap. now left.
Defined.

(** X7.  A subscription that the SDK refuses: when the subscription request
    raises, [_subscribe_node] raises the same error; the node object is not
    touched, so a node is never marked available without a subscription,
    but the subscription it had is gone and its attempt counter is 0. *)
Theorem subscribe_node_failure {T N : Type}
  (sdk : ChipDeviceControllerWrapper T) (env : Environment T N)
  (st : Controller) (node_id : Z) (node : loc) (nd : MatterNodeData)
  (e : PyError) :
  _nodes st !! node_id = Some node ->
  heap st !! node = Some nd ->
  sdk_shutdown_subscription sdk (tick st) node_id = Returns tt ->
  sdk_subscribe sdk (S (tick st)) node_id 0
    (subscription_ceiling (attributes nd)) = Raises e ->
  exists st',
    _subscribe_node sdk env node_id st = (Raises e, st')
    /\ heap st' = heap st
    /\ subscription_callbacks st' !! node_id = None
    /\ _last_subscription_attempt st' !! node_id = Some 0
    /\ count (signals NODE_UPDATED) (trace st')
       = count (signals NODE_UPDATED) (trace st).
Proof.
  intros Hnode Hnd Hshut Hsub.
  unfold _subscribe_node, shutdown_subscription.
  unfold bind, await, gets, ret, time_now, deref, update_object, modify,
    signal_event, emit, modify.
  rewrite Hnode, Hshut. cbn -[pretty Z.geb]. rewrite Hnd.
  fold (subscription_ceiling (attributes nd)).
  cbn -[pretty Z.geb]. rewrite Hsub.
  eexists. split; [reflexivity|].
  cbn -[count]. split; [reflexivity|].
  split; [apply lookup_delete_eq|].
  split; [apply lookup_insert_eq|].
  rewrite <- app_assoc, count_app. cbn. lia.
Qed.

Lemma subscribe_node_failure_witness :
  exists st',
    _subscribe_node Fixtures.interview_fails Fixtures.env 7
      (Fixtures.with_node (Fixtures.node 7 false false []))
    = (Raises ChipStackError, st')
    /\ heap st' = heap (Fixtures.with_node (Fixtures.node 7 false false []))
    /\ subscription_callbacks st' !! 7 = None.
Proof.
  destruct (subscribe_node_failure Fixtures.interview_fails Fixtures.env
              (Fixtures.with_node (Fixtures.node 7 false false []))
              7 0%nat (Fixtures.node 7 false false []) ChipStackError
              eq_refl eq_refl eq_refl eq_refl)
    as (st' & Hrun & Hheap & Hcb & _).
  exists st'. split; [exact Hrun|]. split; [exact Hheap | exact Hcb].
Defined.

Lemma resubscription_succeeded_step (st : Controller) (node_id : Z)
  (node : loc) (nd : MatterNodeData) :
  heap st !! node = Some nd ->
  exists st',
    resubscription_succeeded node_id node st = (Returns tt, st')
    /\ _last_subscription_attempt st' !! node_id = Some 0
    /\ _node_last_seen st' !! node_id = Some (clock st)
    /\ heap st' !! node
       = Some (if available nd then nd else with_available true nd)
    /\ trace st'
       = trace st
         ++ (if available nd then []
             else [SignalEvent NODE_UPDATED (NodeObject node)]).
Proof.
  intros Hnd. unfold resubscription_succeeded.
  unfold bind, time_now, gets, modify, deref, update_object, signal_event,
    emit, modify, ret.
  cbn. rewrite Hnd.
  destruct (available nd); cbn.
  - eexists. split; [reflexivity|]. cbn.
    rewrite !lookup_insert_eq, app_nil_r. auto.
  - eexists. split; [reflexivity|]. cbn.
    rewrite !lookup_insert_eq, lookup_alter_eq, Hnd. auto.
Qed.

(** X8.  Losing and regaining a subscription.  The resubscription-succeeded
    callback sets the attempt counter of the node to 0; it marks an
    unavailable node available and emits one [NODE_UPDATED], and emits
    nothing for a node that is available.  So when an available node with a
    counter of 0 gets a run of resubscription-attempted callbacks and then a
    resubscription-succeeded callback, it ends available with a counter of 0,
    and two [NODE_UPDATED] are emitted if the run had three callbacks or more
    (one for the loss, one for the recovery), none if it was shorter. *)
Theorem resubscription_round_trip (st : Controller) (node_id : Z)
  (node : loc) (nd : MatterNodeData) :
  heap st !! node = Some nd ->
  (exists st' nd',
     resubscription_succeeded node_id node st = (Returns tt, st')
     /\ _last_subscription_attempt st' !! node_id = Some 0
     /\ heap st' !! node = Some nd'
     /\ available nd' = true
     /\ count (signals NODE_UPDATED) (trace st')
        = (count (signals NODE_UPDATED) (trace st)
           + if available nd then 0 else 1)%nat)
  /\ (forall callbacks,
      _last_subscription_attempt st !! node_id = Some 0 ->
      available nd = true ->
      exists st' nd',
        (resubscription_attempts node_id node callbacks ;;;
         resubscription_succeeded node_id node) st
        = (Returns tt, st')
        /\ _last_subscription_attempt st' !! node_id = Some 0
        /\ heap st' !! node = Some nd'
        /\ available nd' = true
        /\ count (signals NODE_UPDATED) (trace st')
           = (count (signals NODE_UPDATED) (trace st)
              + if (3 <=? length callbacks)%nat then 2 else 0)%nat).
Proof.
  intros Hnd. split.
  - destruct (resubscription_succeeded_step st node_id node nd Hnd)
      as (st' & Hrun & Hattempt & _ & Hheap & Htrace).
    eexists st', _. split; [exact Hrun|]. split; [exact Hattempt|].
    split; [exact Hheap|]. rewrite Htrace, count_app.
    destruct (available nd) eqn:Hav; cbn; split; auto; lia.
  - intros callbacks Hzero Hav.
    destruct (resubscription_attempts_run node_id node callbacks st nd 0
                Hzero Hnd) as (st1 & Hrun1 & _ & Hheap1 & Hcount1).
    cbv zeta in Hheap1, Hcount1.
    destruct (resubscription_succeeded_step st1 node_id node _ Hheap1)
      as (st' & Hrun & Hattempt & _ & Hheap & Htrace).
    eexists st', _. unfold bind at 1. rewrite Hrun1.
    split; [exact Hrun|]. split; [exact Hattempt|].
    split; [exact Hheap|].
    rewrite Htrace, count_app, Hcount1.
    rewrite Hav in *. cbn [andb] in *.
    unfold NODE_RESUBSCRIBE_ATTEMPTS_UNAVAILABLE in *.
    destruct (Nat.leb_spec 3 (length callbacks)) as [H3|H3].
    + rewrite geb_true by lia.
      replace (0 <? Z.of_nat (length callbacks)) with true
        by (symmetry; apply Z.ltb_lt; lia).
      cbn. split; [reflexivity | lia].
    + rewrite geb_false by lia. cbn [andb]. rewrite Hav.
      cbn. split; [assumption | lia].
Qed.

Lemma resubscription_round_trip_witness :
  exists st' nd',
    (resubscription_attempts 7 0%nat [(50, 5000); (50, 10000); (50, 20000)] ;;;
     resubscription_succeeded 7 0%nat)
      (Fixtures.with_node (Fixtures.node 7 true false []))
    = (Returns tt, st')
    /\ heap st' !! 0%nat = Some nd'
    /\ available nd' = true
    /\ count (signals NODE_UPDATED) (trace st') = 2%nat.
Proof.
  destruct (proj2 (resubscription_round_trip
                     (Fixtures.with_node (Fixtures.node 7 true false []))
                     7 0%nat (Fixtures.node 7 true false []) eq_refl)
              [(50, 5000); (50, 10000); (50, 20000)] eq_refl eq_refl)
    as (st' & nd' & Hrun & _ & Hheap & Hav & Hcount).
  exists st', nd'. split; [exact Hrun|]. split; [exact Hheap|].
  split; [exact Hav | exact Hcount].
Defined.



(** ** Bridged endpoints *)

Lemma lookup_purge (m : gmap string Value) (p k : string) :
  filter (fun kv : string * Value => String.prefix p (fst kv) = false) m !! k
  = if String.prefix p k then None else m !! k.
Proof.
  destruct (String.prefix p k) eqn:Hp.
  - apply map_lookup_filter_None. right. intros x _. cbn. congruence.
  - destruct (m !! k) as [x|] eqn:Hk.
    + apply map_lookup_filter_Some. auto.
    + apply map_lookup_filter_None. auto.
Qed.

(** The loop of [_handle_endpoints_removed]. *)
Lemma purge_endpoints_loop (node_id : Z) (node : loc)
  (endpoints : list Hashable) :
  forall st nd,
  heap st !! node = Some nd ->
  exists st' attrs,
    for_each endpoints (fun endpoint_id =>
      update_object node (fun n =>
        with_attributes
          (filter
             (fun kv =>
                String.prefix (py_str endpoint_id ++ "/") (fst kv) = false)
             (attributes n))
          n) ;;;
      signal_event ENDPOINT_REMOVED (EndpointDict node_id endpoint_id)) st
    = (Returns tt, st')
    /\ heap st' !! node = Some (with_attributes attrs nd)
    /\ (forall k, attrs !! k
                  = if of_endpoints endpoints k then None
                    else attributes nd !! k)
    /\ _nodes st' = _nodes st
    /\ trace st'
       = trace st ++ endpoint_events ENDPOINT_REMOVED node_id endpoints.
Proof.
  induction endpoints as [|e endpoints IH]; intros st nd Hnd.
  - exists st, (attributes nd). cbn. rewrite app_nil_r.
    repeat split; auto. rewrite Hnd. now destruct nd.
  - cbn [for_each].
    unfold bind at 1, bind at 1, update_object at 1, modify at 1,
      signal_event at 1, emit at 1, modify at 1.
    match goal with |- context [for_each _ _ ?s] => set (st1 := s) end.
    destruct (IH st1 (with_attributes
                        (filter
                           (fun kv =>
                              String.prefix (py_str e ++ "/") (fst kv) = false)
                           (attributes nd)) nd))
      as (st' & attrs & Hrun & Hheap & Hattrs & Hnodes & Htrace).
    { subst st1. cbn. now rewrite lookup_alter_eq, Hnd. }
    exists st', attrs. split; [exact Hrun|].
    split; [exact Hheap|].
    split.
    { intros k. rewrite Hattrs. cbn [attributes with_attributes].
      rewrite lookup_purge.
      change (of_endpoints (e :: endpoints) k)
        with (String.prefix (py_str e ++ "/") k || of_endpoints endpoints k).
      destruct (String.prefix (py_str e ++ "/") k); cbn [orb].
      - now destruct (of_endpoints endpoints k).
      - reflexivity. }
    split; [rewrite Hnodes; reflexivity|].
    rewrite Htrace. subst st1. cbn. now rewrite <- app_assoc.
Qed.

Lemma endpoints_removed_run (st : Controller) (node_id : Z)
  (endpoints : list Hashable) :
  (forall node nd,
     _nodes st !! node_id = Some node ->
     heap st !! node = Some nd ->
     exists st' nd',
       _handle_endpoints_removed node_id endpoints st = (Returns tt, st')
       /\ heap st' !! node = Some nd'
       /\ (forall k, attributes nd' !! k
                     = if of_endpoints endpoints k then None
                       else attributes nd !! k)
       /\ available nd' = available nd
       /\ is_bridge nd' = is_bridge nd
       /\ trace st'
          = trace st
            ++ endpoint_events ENDPOINT_REMOVED node_id endpoints
            ++ node_state_write st node_id false)
  /\ (_nodes st !! node_id = None ->
      _handle_endpoints_removed node_id endpoints st = (Raises KeyError, st)).
Proof.
  split.
  - intros node nd Hnode Hnd. unfold _handle_endpoints_removed.
    unfold bind at 1, gets at 1. rewrite Hnode.
    destruct (purge_endpoints_loop node_id node endpoints st nd Hnd)
      as (st1 & attrs & Hrun & Hheap & Hattrs & Hnodes & Htrace).
    unfold bind at 1. rewrite Hrun.
    unfold _write_node_state, bind, gets, node_state_write.
    rewrite Hnodes, Hnode.
    destruct (node_id >=? TEST_NODE_START).
    + eexists st1, _. split; [reflexivity|]. split; [exact Hheap|].
      split; [exact Hattrs|]. rewrite Htrace, app_nil_r. auto.
    + eexists _, _. split; [reflexivity|]. cbn.
      split; [exact Hheap|]. split; [exact Hattrs|].
      rewrite Htrace, <- app_assoc. auto.
  - intros Hnone. unfold _handle_endpoints_removed, bind, gets.
    now rewrite Hnone.
Qed.

(** X10.  Removing bridged endpoints.  [_handle_endpoints_removed] drops
    from the cached attributes of the node exactly the paths that start
    with the id of a removed endpoint and a slash, and keeps every other
    path with its value; it emits one [ENDPOINT_REMOVED] per endpoint, in
    order, and then schedules the write of the node state.  For a node id
    the registry does not hold it raises [KeyError]. *)
Theorem handle_endpoints_removed_purges (st : Controller) (node_id : Z)
  (endpoints : list Hashable) :
  (forall node nd,
     _nodes st !! node_id = Some node ->
     heap st !! node = Some nd ->
     exists st' nd',
       _handle_endpoints_removed node_id endpoints st = (Returns tt, st')
       /\ heap st' !! node = Some nd'
       /\ (forall k, attributes nd' !! k
                     = if of_endpoints endpoints k then None
                       else attributes nd !! k)
       /\ available nd' = available nd
       /\ is_bridge nd' = is_bridge nd
       /\ trace st'
          = trace st
            ++ endpoint_events ENDPOINT_REMOVED node_id endpoints
            ++ node_state_write st node_id false)
  /\ (_nodes st !! node_id = None ->
      _handle_endpoints_removed node_id endpoints st = (Raises KeyError, st)).
Proof. exact (endpoints_removed_run st node_id endpoints). Qed.

Lemma handle_endpoints_removed_purges_witness :
  exists st' nd',
    _handle_endpoints_removed 7 [HInt 1]
      (Fixtures.with_node
         (Fixtures.node 7 true true
            [("1/6/0"%string, VBool true); ("11/6/0"%string, VBool true)]))
    = (Returns tt, st')
    /\ heap st' !! 0%nat = Some nd'
    /\ attributes nd' !! "1/6/0"%string = None
    /\ attributes nd' !! "11/6/0"%string = Some (VBool true).
Proof.
  destruct (proj1 (handle_endpoints_removed_purges
                     (Fixtures.with_node
                        (Fixtures.node 7 true true
                           [("1/6/0"%string, VBool true);
                            ("11/6/0"%string, VBool true)]))
                     7 [HInt 1])
              0%nat _ eq_refl eq_refl)
    as (st' & nd' & Hrun & Hheap & Hattrs & _).
  exists st', nd'. split; [exact Hrun|]. split; [exact Hheap|].
  split; [exact (Hattrs "1/6/0"%string) | exact (Hattrs "11/6/0"%string)].
Defined.



(** ** Addresses *)

Lemma strip_interface_unscoped (a : string) :
  scoped_address (strip_interface a) = false.
Proof.
  induction a as [|c a IH]; [reflexivity|].
  cbn. destruct (Ascii.eqb c "%") eqn:Hc; [reflexivity|].
  cbn. now rewrite Hc, IH.
Qed.

(** X12.  The address cache round trip.  When mDNS answers, a query with
    [prefer_cache=False] stores the scoped addresses for the node and
    returns them (stripped of the interface index unless [scoped]); and
    once a non-empty list is cached, a call with [prefer_cache=True] is
    answered from it with no mDNS query, whether or not the node is (still)
    in the registry. *)
Theorem ip_addresses_cache_round_trip {T N : Type} (env : Environment T N)
  (st : Controller) (node_id : Z) (node : loc) (ips : list string)
  (scoped : bool) :
  _nodes st !! node_id = Some node ->
  mdns_info_request env (tick st) node_id = Some ips ->
  ips <> [] ->
  (exists st1,
     get_node_ip_addresses env node_id false scoped st
     = (Returns (addresses_view scoped ips), st1)
     /\ _last_known_ip_addresses st1 !! node_id = Some ips
     /\ trace st1 = trace st ++ [Mdns (pretty node_id)])
  /\ (forall st2 scoped',
      _last_known_ip_addresses st2 !! node_id = Some ips ->
      get_node_ip_addresses env node_id true scoped' st2
      = (Returns (addresses_view scoped' ips), st2)).
Proof.
  intros Hnode Hmdns Hne. split.
  - unfold get_node_ip_addresses, bind, gets, await, modify, ret.
    cbn [andb]. rewrite Hnode, Hmdns.
    eexists. split; [reflexivity|]. cbn.
    split; [apply lookup_insert_eq | reflexivity].
  - intros st2 scoped' Hcache.
    unfold get_node_ip_addresses, bind, gets, ret. rewrite Hcache.
    cbn [default andb]. destruct ips; [congruence | reflexivity].
Qed.

Lemma ip_addresses_cache_round_trip_witness :
  exists st1,
    get_node_ip_addresses
      (Network.env (Some ["fe80::1%eth0"%string]) (fun _ => true)) 7 false false
      (Fixtures.with_node (Fixtures.node 7 true false []))
    = (Returns ["fe80::1"%string], st1)
    /\ get_node_ip_addresses
         (Network.env (Some ["fe80::1%eth0"%string]) (fun _ => true))
         7 true true st1
       = (Returns ["fe80::1%eth0"%string], st1).
Proof.
  destruct (ip_addresses_cache_round_trip
              (Network.env (Some ["fe80::1%eth0"%string]) (fun _ => true))
              (Fixtures.with_node (Fixtures.node 7 true false []))
              7 0%nat ["fe80::1%eth0"%string] false
              eq_refl eq_refl ltac:(discriminate))
    as [(st1 & Hrun & Hcache & _) Hagain].
  exists st1. split; [exact Hrun | exact (Hagain st1 true Hcache)].
Defined.

(** X13.  Without a usable cache entry, [get_node_ip_addresses] looks the
    node up before it asks mDNS: for an unknown node it raises
    [NodeNotExists] and sends no query.  For a known node that mDNS cannot
    find it returns the cached list (or the empty list) as it is cached,
    and leaves the cache alone. *)
Theorem ip_addresses_without_answer {T N : Type} (env : Environment T N)
  (st : Controller) (node_id : Z) (prefer_cache scoped : bool) :
  prefer_cache = false \/ _last_known_ip_addresses st !! node_id = None ->
  (_nodes st !! node_id = None ->
   get_node_ip_addresses env node_id prefer_cache scoped st
   = (Raises NodeNotExists, st))
  /\ (forall node,
      _nodes st !! node_id = Some node ->
      mdns_info_request env (tick st) node_id = None ->
      exists st',
        get_node_ip_addresses env node_id prefer_cache scoped st
        = (Returns (default [] (_last_known_ip_addresses st !! node_id)), st')
        /\ _last_known_ip_addresses st' = _last_known_ip_addresses st
        /\ trace st' = trace st ++ [Mdns (pretty node_id)]).
Proof.
  intros Hcache.
  assert (Hguard :
            prefer_cache
            && match default [] (_last_known_ip_addresses st !! node_id) with
               | [] => false
               | _ :: _ => true
               end = false).
  { destruct Hcache as [-> | ->]; [reflexivity|]. apply andb_false_r. }
  split.
  - intros Hnone. unfold get_node_ip_addresses, bind, gets.
    now rewrite Hguard, Hnone.
  - intros node Hnode Hmdns.
    unfold get_node_ip_addresses, bind, gets, await, ret.
    rewrite Hguard, Hnode, Hmdns.
    eexists. split; [reflexivity|]. cbn. auto.
Qed.

Lemma ip_addresses_without_answer_witness :
  get_node_ip_addresses Fixtures.env 8 true false
    (Fixtures.with_node (Fixtures.node 7 true false []))
  = (Raises NodeNotExists, Fixtures.with_node (Fixtures.node 7 true false [])).
Proof.
  exact (proj1 (ip_addresses_without_answer Fixtures.env
                  (Fixtures.with_node (Fixtures.node 7 true false []))
                  8 true false (or_intror eq_refl))
           eq_refl).
Defined.

(** X14.  Addresses asked for with [scoped=False] carry no interface index,
    with one exception: when mDNS does not answer, the cached addresses are
    returned as they are cached, that is, scoped. *)
Theorem unscoped_addresses {T N : Type} (env : Environment T N)
  (st st' : Controller) (node_id : Z) (prefer_cache : bool)
  (result : list string) :
  get_node_ip_addresses env node_id prefer_cache false st
  = (Returns result, st') ->
  Forall (fun a => scoped_address a = false) result
  \/ (mdns_info_request env (tick st) node_id = None
      /\ result = default [] (_last_known_ip_addresses st !! node_id)).
Proof.
  unfold get_node_ip_addresses, bind, gets, await, modify, ret.
  assert (Hmap : forall l,
            Forall (fun a => scoped_address a = false)
                   (map strip_interface l)).
  { intros l. apply Forall_forall. intros a Ha.
    apply list_elem_of_In, in_map_iff in Ha. destruct Ha as (b & <- & _).
    apply strip_interface_unscoped. }
  destruct (prefer_cache && _).
  - intros [= <- _]. left. apply Hmap.
  - destruct (_nodes st !! node_id); [|discriminate].
    destruct (mdns_info_request env (tick st) node_id) as [ips|].
    + intros [= <- _]. left. apply Hmap.
    + intros [= <- _]. right. auto.
Qed.

Lemma unscoped_addresses_witness :
  Forall (fun a => scoped_address a = false) ["fe80::1"%string]
  \/ (mdns_info_request
        (Network.env (Some ["fe80::1%eth0"%string]) (fun _ => true)) 0 7
      = None
      /\ ["fe80::1"%string] = []).
Proof.
  exact (unscoped_addresses
           (Network.env (Some ["fe80::1%eth0"%string]) (fun _ => true))
           (Fixtures.with_node (Fixtures.node 7 true false []))
           _ 7 false ["fe80::1"%string] eq_refl).
Defined.

(** ** Pings *)

Lemma dict_mem_dict_set {A : Type} (k k' : string) (v : A)
  (d : list (string * A)) :
  dict_mem k (dict_set k' v d) = String.eqb k k' || dict_mem k d.
Proof.
  induction d as [|[k1 v1] d IH]; cbn.
  - reflexivity.
  - destruct (String.eqb k' k1) eqn:Hk; cbn.
    + apply String.eqb_eq in Hk. subst k1.
      now destruct (String.eqb k k'), (dict_mem k d).
    + rewrite IH. now destruct (String.eqb k k1), (String.eqb k k').
Qed.

Lemma dict_set_In {A : Type} (k : string) (v : A) (d : list (string * A)) :
  In (k, v) (dict_set k v d).
Proof.
  induction d as [|[k1 v1] d IH]; cbn; [now left|].
  destruct (String.eqb k k1); [now left | now right].
Qed.

Lemma do_pings_run {T N : Type} (env : Environment T N) (timeout attempts : Z)
  (ips : list string) :
  (forall n ip, exists b, ping_ip env n ip timeout attempts = Returns b) ->
  forall result st,
  exists result' st',
    do_pings env ips timeout attempts result st = (Returns result', st')
    /\ heap st' = heap st
    /\ tick st' = (tick st + length ips)%nat
    /\ trace st'
       = trace st ++ map (fun ip => Ping ip timeout attempts) ips
    /\ (forall k, dict_mem k result' = true
                  <-> In k (map strip_interface ips)
                      \/ dict_mem k result = true).
Proof.
  intros Hping. induction ips as [|ip ips IH]; intros result st.
  - exists result, st. cbn. rewrite app_nil_r, Nat.add_0_r.
    repeat split; auto. tauto.
  - cbn [do_pings]. unfold bind at 1, await at 1.
    destruct (Hping (tick st) ip) as [b ->].
    match goal with
    | |- context [do_pings _ _ _ _ ?r ?s] =>
        destruct (IH r s) as (result' & st' & Hrun & Hheap & Htick & Htrace & Hmem)
    end.
    exists result', st'. split; [exact Hrun|].
    split; [rewrite Hheap; reflexivity|].
    split; [rewrite Htick; cbn; lia|].
    split; [rewrite Htrace; cbn; now rewrite <- app_assoc|].
    intros k. rewrite Hmem, dict_mem_dict_set, orb_true_iff, String.eqb_eq.
    cbn [map In]. intuition congruence.
Qed.

(** X15.  A ping of a real node.  [ping_node] asks mDNS for the addresses
    (falling back on the cached ones), pings each of them in turn, with a
    timeout of 60 s for a sleepy end device and 10 s otherwise, and then
    asks the SDK for the address it uses.  The result has one entry per
    address without its interface index; the address of the SDK is added,
    as reachable, when it was not pinged and the node is available. *)
Theorem ping_node_pings_every_address {T N : Type}
  (sdk : ChipDeviceControllerWrapper T) (env : Environment T N)
  (st : Controller) (node_id attempts : Z) (node : loc) (nd : MatterNodeData)
  (active : option (string * Z)) :
  let timeout := ping_timeout (attributes nd) in
  let ips :=
    match mdns_info_request env (tick st) node_id with
    | Some ips => ips
    | None => default [] (_last_known_ip_addresses st !! node_id)
    end in
  node_id < TEST_NODE_START ->
  _nodes st !! node_id = Some node ->
  heap st !! node = Some nd ->
  (forall n ip, exists b, ping_ip env n ip timeout attempts = Returns b) ->
  sdk_get_address_and_port sdk (S (tick st) + length ips) node_id
  = Returns active ->
  exists result st',
    ping_node sdk env node_id attempts st = (Returns result, st')
    /\ trace st'
       = trace st
         ++ Mdns (pretty node_id)
            :: map (fun ip => Ping ip timeout attempts) ips
         ++ [Sdk (SdkGetAddressAndPort node_id)]
    /\ (forall k,
        dict_mem k result = true
        <-> In k (map strip_interface ips)
            \/ (available nd = true /\ exists port, active = Some (k, port)))
    /\ (forall a port,
        active = Some (a, port) ->
        available nd = true ->
        ~ In a (map strip_interface ips) ->
        In (a, true) result).
Proof.
  intros timeout ips Hlt Hnode Hnd Hping Hsdk.
  unfold ping_node. rewrite (geb_false _ _ Hlt).
  unfold bind at 1, gets at 1. rewrite Hnode.
  unfold bind at 1, deref at 1. rewrite Hnd.
  fold (ping_timeout (attributes nd)). fold timeout.
  assert (Hips : exists st1,
            get_node_ip_addresses env node_id false true st
            = (Returns ips, st1)
            /\ heap st1 = heap st
            /\ tick st1 = S (tick st)
            /\ trace st1 = trace st ++ [Mdns (pretty node_id)]).
  { unfold get_node_ip_addresses, bind, gets, await, modify, ret.
    cbn [andb]. rewrite Hnode. subst ips.
    destruct (mdns_info_request env (tick st) node_id);
      eexists; (split; [reflexivity|]); cbn; auto. }
  destruct Hips as (st1 & Hrun1 & Hheap1 & Htick1 & Htrace1).
  unfold bind at 1. rewrite Hrun1.
  destruct (do_pings_run env timeout attempts ips Hping [] st1)
    as (pinged & st2 & Hrun2 & Hheap2 & Htick2 & Htrace2 & Hmem).
  unfold bind at 1. rewrite Hrun2.
  unfold bind at 1, await at 1.
  rewrite Htick2, Htick1. cbn [Nat.add] in Hsdk |- *. rewrite Hsdk.
  assert (Htrace :
            trace st2 ++ [Sdk (SdkGetAddressAndPort node_id)]
            = trace st
              ++ Mdns (pretty node_id)
                 :: map (fun ip => Ping ip timeout attempts) ips
              ++ [Sdk (SdkGetAddressAndPort node_id)]).
  { rewrite Htrace2, Htrace1, <- !app_assoc. reflexivity. }
  assert (Hpinged : forall k,
            dict_mem k pinged = true <-> In k (map strip_interface ips)).
  { intros k. rewrite Hmem. cbn. intuition discriminate. }
  destruct active as [[a port]|].
  - unfold bind at 1, deref at 1.
    cbn [heap set_tick set_trace]. rewrite Hheap2, Hheap1, Hnd.
    destruct (negb (dict_mem a pinged) && available nd) eqn:Hadd.
    + eexists _, _. split; [reflexivity|]. split; [exact Htrace|].
      apply andb_true_iff in Hadd. destruct Hadd as [_ Hav].
      split.
      * intros k. rewrite dict_mem_dict_set, orb_true_iff, String.eqb_eq,
          Hpinged.
        split.
        -- intros [-> | Hk]; [right; eauto | now left].
        -- intros [Hk | [_ [p [= -> _]]]]; [now right | now left].
      * intros a' port' [= <- <-] _ _. apply dict_set_In.
    + eexists _, _. split; [reflexivity|]. split; [exact Htrace|].
      apply andb_false_iff in Hadd.
      split.
      * intros k. rewrite Hpinged. split; [now left|].
        intros [Hk | [Hav [p [= -> _]]]]; [exact Hk|].
        destruct Hadd as [Hadd | Hadd]; [|congruence].
        apply negb_false_iff in Hadd. now apply Hpinged.
      * intros a' port' [= <- <-] Hav Hnot.
        destruct Hadd as [Hadd | Hadd]; [|congruence].
        apply negb_false_iff in Hadd. now apply Hpinged in Hadd.
  - eexists _, _. split; [reflexivity|]. split; [exact Htrace|].
    split.
    + intros k. rewrite Hpinged. split; [now left|].
      intros [Hk | [_ [p Hp]]]; [exact Hk | discriminate].
    + intros a port Hp. discriminate.
Qed.

Lemma ping_node_pings_every_address_witness :
  exists result st',
    ping_node (Network.sdk (Some ("fd00::2"%string, 5540)))
      (Network.env (Some ["fe80::1%eth0"%string; "fe80::1%wlan0"%string])
         (fun _ => false))
      7 1
      (Fixtures.with_node
         (Fixtures.node 7 true false [("0/53/1"%string, VInt 2)]))
    = (Returns result, st')
    /\ trace st'
       = [Mdns (pretty 7);
          Ping "fe80::1%eth0" 60 1; Ping "fe80::1%wlan0" 60 1;
          Sdk (SdkGetAddressAndPort 7)]
    /\ In ("fd00::2"%string, true) result.
Proof.
  destruct (ping_node_pings_every_address
              (Network.sdk (Some ("fd00::2"%string, 5540)))
              (Network.env
                 (Some ["fe80::1%eth0"%string; "fe80::1%wlan0"%string])
                 (fun _ => false))
              (Fixtures.with_node
                 (Fixtures.node 7 true false [("0/53/1"%string, VInt 2)]))
              7 1 0%nat _ (Some ("fd00::2"%string, 5540))
              ltac:(reflexivity) eq_refl eq_refl
              (fun _ ip => ex_intro _ false eq_refl) eq_refl)
    as (result & st' & Hrun & Htrace & _ & Hactive).
  exists result, st'. split; [exact Hrun|]. split; [exact Htrace|].
  apply (Hactive _ 5540 eq_refl eq_refl).
  cbn. intros [H | [H | []]]; discriminate.
Defined.

(** ** Set-up of a node *)

(** X16.  A set-up starts by asking the SDK for a session with the node.
    When that raises [NodeNotResolving], [_setup_node] returns normally;
    any other error leaves [_setup_node] as it is.  Either way the node is
    neither interviewed nor subscribed to: the session request is the only
    call made, and the registry, the node objects and the subscriptions are
    as they were. *)
Theorem setup_node_unresolved {T N : Type}
  (sdk : ChipDeviceControllerWrapper T) (env : Environment T N)
  (st : Controller) (node_id : Z) (node_data : loc) (p : nat) (e : PyError) :
  _nodes st !! node_id = Some node_data ->
  node_id ∉ _nodes_in_setup st ->
  _node_setup_throttle st = S p ->
  sdk_find_or_establish_case_session sdk (tick st) node_id = Raises e ->
  exists st',
    _setup_node sdk env node_id st
    = (if PyError_eqb NodeNotResolving e then Returns tt else Raises e, st')
    /\ trace st' = trace st ++ [Sdk (SdkFindOrEstablishCaseSession node_id)]
    /\ heap st' = heap st
    /\ _nodes st' = _nodes st
    /\ subscription_callbacks st' = subscription_callbacks st.
Proof.
  intros Hnode Hfree Hpermit Hsession.
  rewrite (setup_node_runs_the_steps sdk env st node_id node_data p)
    by assumption.
  unfold setup_steps.
  unfold bind at 1, try_except at 1, bind at 1, await at 1.
  change (tick (armed node_id p st)) with (tick st). rewrite Hsession.
  destruct (PyError_eqb NodeNotResolving e).
  - cbn [ret negb]. eexists. split; [reflexivity|]. cbn. auto.
  - eexists. split; [reflexivity|]. cbn. auto.
Qed.

Lemma setup_node_unresolved_witness :
  exists st',
    _setup_node (Fixtures.session_fails NodeNotResolving) Fixtures.env 7
      (Fixtures.with_node (Fixtures.node 7 false false []))
    = (Returns tt, st')
    /\ trace st' = [Sdk (SdkFindOrEstablishCaseSession 7)].
Proof.
  destruct (setup_node_unresolved
              (Fixtures.session_fails NodeNotResolving) Fixtures.env
              (Fixtures.with_node (Fixtures.node 7 false false []))
              7 0%nat 4 NodeNotResolving
              eq_refl ltac:(apply not_elem_of_empty) eq_refl eq_refl)
    as (st' & Hrun & Htrace & _).
  exists st'. split; [exact Hrun | exact Htrace].
Defined.

(** ** The poller of custom attributes *)

Lemma schedule_custom_attributes_poller_run (st : Controller) :
  _schedule_custom_attributes_poller st
  = (Returns tt,
     if bool_decide (_polled_attributes st = ∅)
     then set_timers (poller_cancelled st) st
     else
       set_custom_attribute_poller_timer (Some (length (timers st)))
         (set_timers
            (poller_cancelled st
             ++ [{| delay := CUSTOM_ATTRIBUTES_POLLER_INTERVAL;
                    callback := RunCustomAttributesPoller;
                    cancelled := false |}])
            st)).
Proof.
  unfold _schedule_custom_attributes_poller, poller_cancelled, bind, gets,
    cancel_timer, call_later, modify, ret.
  destruct (_custom_attribute_poller_timer st) as [h|] eqn:Hh; cbn.
  - destruct (bool_decide (_polled_attributes st = ∅)); cbn.
    + reflexivity.
    + now rewrite length_alter.
  - destruct (bool_decide (_polled_attributes st = ∅)); cbn.
    + now destruct st.
    + reflexivity.
Qed.

(** X17.  Scheduling the poller keeps at most one of its timers armed.  If
    the only armed timer of the poller is the one the controller holds,
    this is still so after [_schedule_custom_attributes_poller]; a timer of
    the poller is armed afterwards exactly when there are attributes to
    poll, and the timers of other callbacks are as they were. *)
Theorem schedule_poller_keeps_one_timer (st : Controller) :
  single_poller st ->
  let st' := snd (_schedule_custom_attributes_poller st) in
  fst (_schedule_custom_attributes_poller st) = Returns tt
  /\ single_poller st'
  /\ ((exists h t, timers st' !! h = Some t /\ armed_poller t = true)
      <-> _polled_attributes st <> ∅)
  /\ (forall h t, timers st !! h = Some t -> is_poller t = false ->
                  timers st' !! h = Some t).
Proof.
  intros [Hheld Hone] st'. subst st'.
  rewrite schedule_custom_attributes_poller_run. cbn [fst snd].
  split; [reflexivity|].
  assert (Hlen : length (poller_cancelled st) = length (timers st)).
  { unfold poller_cancelled. destruct (_custom_attribute_poller_timer st);
      [apply length_alter | reflexivity]. }
  assert (Hold : forall h t,
            poller_cancelled st !! h = Some t -> armed_poller t = false).
  { intros h t. unfold poller_cancelled.
    destruct (_custom_attribute_poller_timer st) as [h0|] eqn:Hh0.
    - destruct (decide (h = h0)) as [->|Hne].
      + rewrite list_lookup_alter_eq.
        destruct (timers st !! h0); [|discriminate].
        intros [= <-]. unfold armed_poller. cbn. apply andb_false_r.
      + rewrite list_lookup_alter_ne by congruence. intros Ht.
        destruct (armed_poller t) eqn:Harmed; [|reflexivity].
        specialize (Hone h t Ht Harmed). congruence.
    - intros Ht. destruct (armed_poller t) eqn:Harmed; [|reflexivity].
      specialize (Hone h t Ht Harmed). discriminate. }
  assert (Hkept : forall h t,
            timers st !! h = Some t -> is_poller t = false ->
            poller_cancelled st !! h = Some t).
  { intros h t Ht Hno. unfold poller_cancelled.
    destruct (_custom_attribute_poller_timer st) as [h0|] eqn:Hh0; [|exact Ht].
    destruct (decide (h = h0)) as [->|Hne].
    - destruct (Hheld h0 eq_refl) as (t0 & Ht0 & Hp). congruence.
    - now rewrite list_lookup_alter_ne by congruence. }
  assert (Hpoller : forall h t,
            poller_cancelled st !! h = Some t ->
            _custom_attribute_poller_timer st = Some h ->
            is_poller t = true).
  { intros h t Ht Hh. unfold poller_cancelled in Ht. rewrite Hh in Ht.
    rewrite list_lookup_alter_eq in Ht.
    destruct (Hheld h Hh) as (t0 & Ht0 & Hp). rewrite Ht0 in Ht.
    injection Ht as <-. exact Hp. }
  destruct (bool_decide (_polled_attributes st = ∅)) eqn:Hpolled.
  - apply bool_decide_eq_true in Hpolled. unfold single_poller. cbn.
    split; [split|split].
    + intros h Hh. destruct (Hheld h Hh) as (t0 & Ht0 & Hp).
      unfold poller_cancelled. rewrite Hh, list_lookup_alter_eq, Ht0.
      eexists. split; [reflexivity|]. exact Hp.
    + intros h t Ht Harmed. rewrite (Hold h t Ht) in Harmed. discriminate.
    + split; [|congruence].
      intros (h & t & Ht & Harmed). rewrite (Hold h t Ht) in Harmed.
      discriminate.
    + exact Hkept.
  - apply bool_decide_eq_false in Hpolled. unfold single_poller. cbn.
    split; [split|split].
    + intros h [= <-]. rewrite <- Hlen, list_lookup_middle by reflexivity.
      eexists. split; reflexivity.
    + intros h t Ht Harmed. apply lookup_snoc_Some in Ht.
      destruct Ht as [[_ Ht] | [Hh _]].
      * rewrite (Hold h t Ht) in Harmed. discriminate.
      * rewrite <- Hlen. now f_equal.
    + split; [intros _; exact Hpolled|]. intros _.
      exists (length (poller_cancelled st)). eexists.
      split; [apply list_lookup_middle; reflexivity | reflexivity].
    + intros h t Ht Hno. apply lookup_app_l_Some. now apply Hkept.
Qed.

Lemma schedule_poller_keeps_one_timer_witness :
  single_poller
    (snd (_schedule_custom_attributes_poller
            (set_polled_attributes {[7 := ["0/4874/5"%string]]}
               (set_custom_attribute_poller_timer (Some 0%nat)
                  (set_timers
                     [{| delay := 30; callback := RunCustomAttributesPoller;
                         cancelled := false |}]
                     Fixtures.fresh))))).
Proof.
  apply (schedule_poller_keeps_one_timer
           (set_polled_attributes {[7 := ["0/4874/5"%string]]}
              (set_custom_attribute_poller_timer (Some 0%nat)
                 (set_timers
                    [{| delay := 30; callback := RunCustomAttributesPoller;
                        cancelled := false |}]
                    Fixtures.fresh)))).
  split.
  - intros h [= <-]. eexists. split; reflexivity.
  - intros [|h] t Ht Harmed; [reflexivity|]. destruct h; discriminate.
Defined.

(** What the set-up of a node with a usable cache does. *)
Lemma setup_of_cached_node {T N : Type}
  (sdk : ChipDeviceControllerWrapper T) (env : Environment T N)
  (st : Controller) (node_id : Z) (node_data : loc) (nd : MatterNodeData)
  (p : nat) (sub : T) :
  _nodes st !! node_id = Some node_data ->
  heap st !! node_data = Some nd ->
  node_id ∉ _nodes_in_setup st ->
  _node_setup_throttle st = S p ->
  attributes nd <> ∅ ->
  interview_version nd = DATA_MODEL_SCHEMA_VERSION env ->
  sdk_find_or_establish_case_session sdk (tick st) node_id = Returns tt ->
  sdk_shutdown_subscription sdk (S (tick st)) node_id = Returns tt ->
  sdk_subscribe sdk (S (S (tick st))) node_id 0
    (subscription_ceiling (attributes nd)) = Returns sub ->
  let nd' :=
    with_attributes
      (dict_update (parse_attributes_from_read_result env sub) (attributes nd))
      (with_available true nd) in
  exists st',
    _setup_node sdk env node_id st = (Returns tt, st')
    /\ _nodes st' = _nodes st
    /\ heap st' = <[node_data := nd']> (heap st)
    /\ trace st'
       = trace st
         ++ [Sdk (SdkFindOrEstablishCaseSession node_id);
             Sdk (SdkShutdownSubscription node_id);
             Sdk (SdkSubscribe node_id 0 (subscription_ceiling (attributes nd)));
             SignalEvent NODE_UPDATED (NodeObject node_data)]
    /\ _polled_attributes st'
       = match check_polled_attributes env nd' with
         | [] => _polled_attributes st
         | polled => <[node_id := polled]> (_polled_attributes st)
         end
    /\ storage_last_node_id st' = storage_last_node_id st.
Proof.
  intros Hnode Hnd Hfree Hpermit Hattrs Hversion Hsession Hshut Hsub nd'.
  rewrite (setup_node_runs_the_steps sdk env st node_id node_data p)
    by assumption.
  unfold setup_steps.
  unfold bind at 1, try_except at 1, bind at 1, await at 1.
  change (tick (armed node_id p st)) with (tick st). rewrite Hsession.
  cbn [ret negb].
  unfold bind at 1, deref at 1.
  cbn [heap set_tick set_trace armed set_timers set_node_setup_throttle
       set_nodes_in_setup].
  rewrite Hnd.
  assert (Hsize : Nat.eqb (size (attributes nd)) 0 = false).
  { apply Nat.eqb_neq. intros H. apply Hattrs. now apply map_size_empty_inv. }
  rewrite Hsize, Hversion, Z.eqb_refl. cbn [negb orb ret].
  unfold bind at 1, ret at 1. cbn [negb].
  set (s1 := set_tick _ _).
  destruct (subscribe_node_succeeds sdk env s1 node_id node_data nd sub)
    as (s2 & Hrun & Hheap & Hnodes & _ & _ & _ & Htrace & _ & _ & Htimers
        & Hsetup & Hthrottle & Hpolled & Hheld & Hstored); try assumption.
  unfold bind at 1, try_except at 1, bind at 1. rewrite Hrun. cbn [ret negb].
  unfold bind at 1, deref at 1. rewrite Hheap, lookup_insert_eq.
  fold nd'.
  assert (Hdone : forall s : Controller,
            trace s = trace s2 -> heap s = heap s2 -> _nodes s = _nodes s2 ->
            storage_last_node_id s = storage_last_node_id s2 ->
            exists st',
              (Returns tt, finished node_id (length (timers st)) s)
              = (Returns tt, st')
              /\ _nodes st' = _nodes st
              /\ heap st' = <[node_data := nd']> (heap st)
              /\ trace st'
                 = trace st
                   ++ [Sdk (SdkFindOrEstablishCaseSession node_id);
                       Sdk (SdkShutdownSubscription node_id);
                       Sdk (SdkSubscribe node_id 0
                              (subscription_ceiling (attributes nd)));
                       SignalEvent NODE_UPDATED (NodeObject node_data)]
              /\ _polled_attributes st' = _polled_attributes s
              /\ storage_last_node_id st' = storage_last_node_id st).
  { intros s Ht Hh Hn Hs. eexists. split; [reflexivity|]. cbn.
    rewrite Hn, Hnodes, Hh, Hheap, Ht, Htrace, Hs, Hstored. subst s1. cbn.
    rewrite <- app_assoc. auto. }
  destruct (check_polled_attributes env nd') as [|a polled].
  - cbn [ret].
    destruct (Hdone s2) as (st' & Heq & H1 & H2 & H3 & H4 & H5); auto.
    exists st'. rewrite Heq. repeat split; auto.
    rewrite H4, Hpolled. reflexivity.
  - unfold bind at 1, modify at 1.
    rewrite schedule_custom_attributes_poller_run.
    match goal with
    | |- context [finished _ _ ?s] =>
        destruct (Hdone s) as (st' & Heq & H1 & H2 & H3 & H4 & H5)
    end.
    + now destruct (bool_decide _).
    + now destruct (bool_decide _).
    + now destruct (bool_decide _).
    + now destruct (bool_decide _).
    + exists st'. rewrite Heq. repeat split; auto.
      rewrite H4. destruct (bool_decide _); cbn; now rewrite Hpolled.
Qed.

(** X18.  The set-up of a node with a usable cache.  A node that has cached
    attributes of the current schema version is not interviewed again:
    after the session request [_setup_node] goes on to the subscription,
    and when that succeeds the node object of the registry is available
    and holds the snapshot of the subscription.  The attributes to poll are
    then taken from this updated object. *)
Theorem setup_node_with_cache {T N : Type}
  (sdk : ChipDeviceControllerWrapper T) (env : Environment T N)
  (st : Controller) (node_id : Z) (node_data : loc) (nd : MatterNodeData)
  (p : nat) (sub : T) :
  _nodes st !! node_id = Some node_data ->
  heap st !! node_data = Some nd ->
  node_id ∉ _nodes_in_setup st ->
  _node_setup_throttle st = S p ->
  attributes nd <> ∅ ->
  interview_version nd = DATA_MODEL_SCHEMA_VERSION env ->
  sdk_find_or_establish_case_session sdk (tick st) node_id = Returns tt ->
  sdk_shutdown_subscription sdk (S (tick st)) node_id = Returns tt ->
  sdk_subscribe sdk (S (S (tick st))) node_id 0
    (subscription_ceiling (attributes nd)) = Returns sub ->
  let nd' :=
    with_attributes
      (dict_update (parse_attributes_from_read_result env sub) (attributes nd))
      (with_available true nd) in
  exists st',
    _setup_node sdk env node_id st = (Returns tt, st')
    /\ _nodes st' = _nodes st
    /\ heap st' = <[node_data := nd']> (heap st)
    /\ trace st'
       = trace st
         ++ [Sdk (SdkFindOrEstablishCaseSession node_id);
             Sdk (SdkShutdownSubscription node_id);
             Sdk (SdkSubscribe node_id 0 (subscription_ceiling (attributes nd)));
             SignalEvent NODE_UPDATED (NodeObject node_data)]
    /\ _polled_attributes st'
       = match check_polled_attributes env nd' with
         | [] => _polled_attributes st
         | polled => <[node_id := polled]> (_polled_attributes st)
         end.
Proof.
  intros Hnode Hnd Hfree Hpermit Hattrs Hversion Hsession Hshut Hsub nd'.
  destruct (setup_of_cached_node sdk env st node_id node_data nd p sub)
    as (st' & Hrun & H1 & H2 & H3 & H4 & _); try assumption.
  exists st'. auto.
Qed.

Lemma setup_node_with_cache_witness :
  exists st',
    _setup_node (Fixtures.healthy [("1/6/0"%string, VBool true)]) Fixtures.env 7
      (Fixtures.with_node
         (Fixtures.node 7 false false [("1/6/0"%string, VBool false)]))
    = (Returns tt, st')
    /\ trace st'
       = [Sdk (SdkFindOrEstablishCaseSession 7);
          Sdk (SdkShutdownSubscription 7);
          Sdk (SdkSubscribe 7 0 60);
          SignalEvent NODE_UPDATED (NodeObject 0%nat)].
Proof.
  destruct (setup_node_with_cache
              (Fixtures.healthy [("1/6/0"%string, VBool true)]) Fixtures.env
              (Fixtures.with_node
                 (Fixtures.node 7 false false [("1/6/0"%string, VBool false)]))
              7 0%nat _ 4 [("1/6/0"%string, VBool true)]
              eq_refl eq_refl ltac:(apply not_elem_of_empty) eq_refl
              ltac:(apply insert_non_empty) eq_refl eq_refl eq_refl eq_refl)
    as (st' & Hrun & _ & _ & Htrace & _).
  exists st'. split; [exact Hrun | exact Htrace].
Defined.

(** X19.  The set-up of a node that needs an interview.  A node without
    cached attributes, or with attributes of another schema version, is
    interviewed before the subscription.  The interview puts a new node
    object into the registry, and the subscription makes that one
    available; the object the set-up started with is left as it was, and
    it is this old object that the attributes to poll are taken from. *)
Theorem setup_node_with_interview {T N : Type}
  (sdk : ChipDeviceControllerWrapper T) (env : Environment T N)
  (st : Controller) (node_id : Z) (node_data : loc) (nd : MatterNodeData)
  (p : nat) (read_response sub : T) (bridge : bool) :
  _nodes st !! node_id = Some node_data ->
  heap st !! node_data = Some nd ->
  node_id ∉ _nodes_in_setup st ->
  _node_setup_throttle st = S p ->
  node_id < TEST_NODE_START ->
  attributes nd = ∅ \/ interview_version nd <> DATA_MODEL_SCHEMA_VERSION env ->
  sdk_find_or_establish_case_session sdk (tick st) node_id = Returns tt ->
  sdk_read_attribute sdk (S (tick st)) node_id = Returns read_response ->
  let decoded := parse_attributes_from_read_result env read_response in
  detect_bridge (dict_update decoded ∅) = Returns bridge ->
  let record :=
    interviewed (DATA_MODEL_SCHEMA_VERSION env) node_id (clock st)
                (Some nd) decoded bridge in
  sdk_shutdown_subscription sdk (S (S (tick st))) node_id = Returns tt ->
  sdk_subscribe sdk (S (S (S (tick st)))) node_id 0
    (subscription_ceiling (attributes record)) = Returns sub ->
  exists st' node,
    _setup_node sdk env node_id st = (Returns tt, st')
    /\ node <> node_data
    /\ _nodes st' !! node_id = Some node
    /\ heap st' !! node
       = Some (with_attributes
                 (dict_update (parse_attributes_from_read_result env sub)
                              (attributes record))
                 (with_available true record))
    /\ heap st' !! node_data = Some nd
    /\ _polled_attributes st'
       = match check_polled_attributes env nd with
         | [] => _polled_attributes st
         | polled => <[node_id := polled]> (_polled_attributes st)
         end.
Proof.
  intros Hnode Hnd Hfree Hpermit Hlt Hstale Hsession Hread decoded Hbridge
    record Hshut Hsub.
  rewrite (setup_node_runs_the_steps sdk env st node_id node_data p)
    by assumption.
  unfold setup_steps.
  unfold bind at 1, try_except at 1, bind at 1, await at 1.
  change (tick (armed node_id p st)) with (tick st). rewrite Hsession.
  cbn [ret negb].
  unfold bind at 1, deref at 1.
  cbn [heap set_tick set_trace armed set_timers set_node_setup_throttle
       set_nodes_in_setup].
  rewrite Hnd.
  assert (Hneeded :
            Nat.eqb (size (attributes nd)) 0
            || negb (interview_version nd =? DATA_MODEL_SCHEMA_VERSION env)
            = true).
  { destruct Hstale as [-> | Hversion].
    - now rewrite map_size_empty.
    - apply orb_true_iff. right. apply negb_true_iff. now apply Z.eqb_neq. }
  rewrite Hneeded.
  set (s1 := set_tick _ _).
  destruct (interview_node_succeeds sdk env s1 node_id read_response
              (Some nd) bridge)
    as (s2 & Hrun2 & Hnodes2 & Hheap2 & Hfresh & _ & Htick2 & Hclock2 & _ & _
        & _ & _ & _ & Hpolled2 & _); try assumption.
  { subst s1. cbn. rewrite Hnode. split; [exact Hnd | eauto]. }
  assert (Hs1 : heap s1 = heap st) by reflexivity.
  assert (Hc1 : clock s1 = clock st) by reflexivity.
  assert (Ht1 : tick s1 = S (tick st)) by reflexivity.
  assert (Hn1 : _nodes s1 = _nodes st) by reflexivity.
  assert (Hp1 : _polled_attributes s1 = _polled_attributes st) by reflexivity.
  rewrite Hs1 in *. rewrite Hc1 in *.
  fold decoded in Hheap2. fold record in Hheap2.
  set (node := fresh (dom (heap st))) in *.
  assert (Hne : node <> node_data) by congruence.
  unfold bind at 1, try_except at 1, bind at 1. rewrite Hrun2.
  cbn [ret negb].
  destruct (subscribe_node_succeeds sdk env s2 node_id node record sub)
    as (s3 & Hrun3 & Hheap3 & Hnodes3 & _ & _ & _ & _ & _ & _ & _
        & _ & _ & Hpolled3 & _).
  { rewrite Hnodes2. apply lookup_insert_eq. }
  { rewrite Hheap2. apply lookup_insert_eq. }
  { rewrite Htick2, Ht1. exact Hshut. }
  { rewrite Htick2, Ht1. exact Hsub. }
  unfold bind at 1, try_except at 1, bind at 1. rewrite Hrun3.
  cbn [ret negb].
  unfold bind at 1, deref at 1.
  rewrite Hheap3, Hheap2, !lookup_insert_ne, Hnd by congruence.
  assert (Hdone : forall s : Controller,
            heap s = heap s3 -> _nodes s = _nodes s3 ->
            exists st',
              (Returns tt, finished node_id (length (timers st)) s)
              = (Returns tt, st')
              /\ node <> node_data
              /\ _nodes st' !! node_id = Some node
              /\ heap st' !! node
                 = Some (with_attributes
                           (dict_update
                              (parse_attributes_from_read_result env sub)
                              (attributes record))
                           (with_available true record))
              /\ heap st' !! node_data = Some nd
              /\ _polled_attributes st' = _polled_attributes s).
  { intros s Hh Hn. eexists. split; [reflexivity|]. cbn.
    rewrite Hn, Hnodes3, Hnodes2, Hh, Hheap3, Hheap2.
    rewrite !lookup_insert_eq, !lookup_insert_ne, Hnd by congruence. auto. }
  destruct (check_polled_attributes env nd) as [|a polled].
  - cbn [ret]. destruct (Hdone s3) as (st' & Heq & H1 & H2 & H3 & H4 & H5);
      auto.
    exists st', node. rewrite Heq. repeat split; auto.
    rewrite H5, Hpolled3, Hpolled2. reflexivity.
  - unfold bind at 1, modify at 1.
    rewrite schedule_custom_attributes_poller_run.
    match goal with
    | |- context [finished _ _ ?s] =>
        destruct (Hdone s) as (st' & Heq & H1 & H2 & H3 & H4 & H5)
    end.
    + now destruct (bool_decide _).
    + now destruct (bool_decide _).
    + exists st', node. rewrite Heq. repeat split; auto.
      rewrite H5. destruct (bool_decide _); cbn;
        now rewrite Hpolled3, Hpolled2.
Qed.

Lemma setup_node_with_interview_witness :
  exists st' node,
    _setup_node (Fixtures.healthy [("1/6/0"%string, VBool true)]) Fixtures.env 7
      (Fixtures.with_node (Fixtures.node 7 false false []))
    = (Returns tt, st')
    /\ node <> 0%nat
    /\ _nodes st' !! 7 = Some node
    /\ heap st' !! 0%nat = Some (Fixtures.node 7 false false []).
Proof.
  destruct (setup_node_with_interview
              (Fixtures.healthy [("1/6/0"%string, VBool true)]) Fixtures.env
              (Fixtures.with_node (Fixtures.node 7 false false []))
              7 0%nat _ 4 [("1/6/0"%string, VBool true)]
              [("1/6/0"%string, VBool true)] false
              eq_refl eq_refl ltac:(apply not_elem_of_empty) eq_refl
              ltac:(reflexivity) (or_introl eq_refl)
              eq_refl eq_refl eq_refl eq_refl eq_refl)
    as (st' & node & Hrun & Hne & Hnode & _ & Hold & _).
  exists st', node. auto.
Defined.

(** ** Commissioning, from the request to the subscription *)

Lemma dict_update_non_empty (items : list (string * Value))
  (cache : gmap string Value) :
  cache <> ∅ -> dict_update items cache <> ∅.
Proof.
  revert cache. induction items as [|[k v] items IH]; intros cache Hne.
  - exact Hne.
  - apply (IH (<[k := v]> cache)). apply insert_non_empty.
Qed.

Lemma dict_update_items_non_empty (items : list (string * Value)) :
  items <> [] -> dict_update items ∅ <> ∅.
Proof.
  destruct items as [|[k v] items]; [congruence|]. intros _.
  apply (dict_update_non_empty items (<[k := v]> ∅)), insert_non_empty.
Qed.

Lemma interview_loop_first_try {T N : Type}
  (sdk : ChipDeviceControllerWrapper T) (env : Environment T N)
  fuel catches node_id retries st st1 :
  retries <> 0 ->
  interview_node sdk env node_id st = (Returns tt, st1) ->
  interview_loop sdk env (S fuel) catches node_id retries st
  = (Returns tt, st1).
Proof.
  intros Hne Hrun. cbn [interview_loop].
  replace (retries =? 0) with false by (symmetry; now apply Z.eqb_neq).
  unfold bind at 1, try_except at 1, bind at 1. now rewrite Hrun.
Qed.

(** What follows the commissioning call when every step succeeds at the
    first attempt: the interview, the set-up and [get_node]. *)
Lemma commissioned_node_is_set_up {T N : Type}
  (sdk : ChipDeviceControllerWrapper T) (env : Environment T N)
  (fuel : nat) (retries : Z)
  (catches : PyError -> bool) (s : Controller) (node_id : Z) (p : nat)
  (read_response sub : T) (bridge : bool) :
  retries <> 0 ->
  node_id < TEST_NODE_START ->
  _nodes s !! node_id = None ->
  node_id ∉ _nodes_in_setup s ->
  _node_setup_throttle s = S p ->
  sdk_read_attribute sdk (tick s) node_id = Returns read_response ->
  let decoded := parse_attributes_from_read_result env read_response in
  decoded <> [] ->
  detect_bridge (dict_update decoded ∅) = Returns bridge ->
  let record :=
    interviewed (DATA_MODEL_SCHEMA_VERSION env) node_id (clock s)
                None decoded bridge in
  sdk_find_or_establish_case_session sdk (S (tick s)) node_id = Returns tt ->
  sdk_shutdown_subscription sdk (S (S (tick s))) node_id = Returns tt ->
  sdk_subscribe sdk (S (S (S (tick s)))) node_id 0
    (subscription_ceiling (attributes record)) = Returns sub ->
  exists st' node,
    (interview_loop sdk env (S fuel) catches node_id retries ;;;
     _setup_node sdk env node_id ;;;
     get_node node_id) s
    = (Returns node, st')
    /\ _nodes st' = <[node_id := node]> (_nodes s)
    /\ heap s !! node = None
    /\ heap st' !! node
       = Some (with_attributes
                 (dict_update (parse_attributes_from_read_result env sub)
                              (attributes record))
                 (with_available true record))
    /\ storage_last_node_id st' = storage_last_node_id s
    /\ trace st'
       = trace s
         ++ [Sdk (SdkReadAttribute node_id false);
             StorageSetNode (pretty node_id) node true;
             SignalEvent NODE_ADDED (NodeObject node);
             Sdk (SdkFindOrEstablishCaseSession node_id);
             Sdk (SdkShutdownSubscription node_id);
             Sdk (SdkSubscribe node_id 0
                    (subscription_ceiling (attributes record)));
             SignalEvent NODE_UPDATED (NodeObject node)].
Proof.
  intros Hretries Hlt Hnew Hfree Hpermit Hread decoded Hdecoded Hbridge record
    Hsession Hshut Hsub.
  destruct (interview_node_succeeds sdk env s node_id read_response None bridge)
    as (s2 & Hrun2 & Hnodes2 & Hheap2 & Hfresh & Htrace2 & Htick2 & Hclock2
        & _ & Hsetup2 & Hthrottle2 & _ & _ & _ & Hstored2); try assumption.
  { now rewrite Hnew. }
  fold decoded in Hheap2. fold record in Hheap2.
  set (node := fresh (dom (heap s))) in *.
  unfold bind at 1.
  rewrite (interview_loop_first_try sdk env _ _ _ _ _ s2) by assumption.
  destruct (setup_of_cached_node sdk env s2 node_id node record p sub)
    as (s3 & Hrun3 & Hnodes3 & Hheap3 & Htrace3 & _ & Hstored3).
  { rewrite Hnodes2. apply lookup_insert_eq. }
  { rewrite Hheap2. apply lookup_insert_eq. }
  { now rewrite Hsetup2. }
  { now rewrite Hthrottle2. }
  { apply dict_update_items_non_empty. exact Hdecoded. }
  { reflexivity. }
  { now rewrite Htick2. }
  { now rewrite Htick2. }
  { now rewrite Htick2. }
  unfold bind at 1. rewrite Hrun3.
  unfold get_node, bind, gets. rewrite Hnodes3, Hnodes2, lookup_insert_eq.
  exists s3, node. split; [reflexivity|].
  split; [congruence|]. split; [exact Hfresh|].
  split; [rewrite Hheap3; apply lookup_insert_eq|].
  split; [congruence|].
  rewrite Htrace3, Htrace2, <- app_assoc. reflexivity.
Qed.

(** X20.  Commissioning with a code, when every step succeeds at the first
    attempt.  The node gets the id that follows the stored one, and the id
    is stored at once; the SDK is asked to commission, the node is
    interviewed, announced with [NODE_ADDED] and written to storage, then
    set up: a session, a subscription, [NODE_UPDATED].  The command returns
    the node object of the registry, which is available and holds the
    attributes of the interview updated with those of the subscription. *)
Theorem commission_with_code_succeeds {T N : Type}
  (sdk : ChipDeviceControllerWrapper T) (env : Environment T N)
  (st : Controller) (pairing_code : string) (network_only : bool) (p : nat)
  (result : option PyChipError) (read_response sub : T) (bridge : bool) :
  let new_id := default 0 (storage_last_node_id st) + 1 in
  let discovery :=
    if network_only then DISCOVERY_NETWORK_ONLY else DISCOVERY_ALL in
  new_id < TEST_NODE_START ->
  _nodes st !! new_id = None ->
  new_id ∉ _nodes_in_setup st ->
  _node_setup_throttle st = S p ->
  sdk_commission_with_code sdk (tick st) new_id pairing_code discovery
  = Returns result ->
  commission_succeeded result = true ->
  sdk_read_attribute sdk (S (tick st)) new_id = Returns read_response ->
  let decoded := parse_attributes_from_read_result env read_response in
  decoded <> [] ->
  detect_bridge (dict_update decoded ∅) = Returns bridge ->
  let record :=
    interviewed (DATA_MODEL_SCHEMA_VERSION env) new_id (clock st)
                None decoded bridge in
  sdk_find_or_establish_case_session sdk (S (S (tick st))) new_id
  = Returns tt ->
  sdk_shutdown_subscription sdk (S (S (S (tick st)))) new_id = Returns tt ->
  sdk_subscribe sdk (S (S (S (S (tick st))))) new_id 0
    (subscription_ceiling (attributes record)) = Returns sub ->
  exists st' node nd,
    commission_with_code sdk env pairing_code network_only st
    = (Returns node, st')
    /\ _nodes st' !! new_id = Some node
    /\ heap st !! node = None
    /\ heap st' !! node = Some nd
    /\ id_of nd = new_id
    /\ available nd = true
    /\ attributes nd
       = dict_update (parse_attributes_from_read_result env sub)
                     (dict_update decoded ∅)
    /\ storage_last_node_id st' = Some new_id
    /\ trace st'
       = trace st
         ++ [StorageSetLastNodeId new_id true;
             Sdk (SdkCommissionWithCode new_id pairing_code discovery);
             Sdk (SdkReadAttribute new_id false);
             StorageSetNode (pretty new_id) node true;
             SignalEvent NODE_ADDED (NodeObject node);
             Sdk (SdkFindOrEstablishCaseSession new_id);
             Sdk (SdkShutdownSubscription new_id);
             Sdk (SdkSubscribe new_id 0
                    (subscription_ceiling (attributes record)));
             SignalEvent NODE_UPDATED (NodeObject node)].
Proof.
  intros new_id discovery Hlt Hnew Hfree Hpermit Hcommission Hok Hread decoded
    Hdecoded Hbridge record Hsession Hshut Hsub.
  unfold commission_with_code.
  unfold bind at 1, _get_next_node_id at 1.
  unfold bind at 1, gets at 1. fold new_id.
  unfold bind at 1, modify at 1. unfold bind at 1, emit at 1, modify at 1.
  unfold ret at 1. fold discovery.
  set (s0 := set_trace _ _).
  unfold bind at 1.
  rewrite (commission_loop_success _ _ _ _ s0 result);
    [| unfold MAX_COMMISSION_RETRIES; lia | exact Hcommission | exact Hok].
  set (s1 := called _ s0).
  destruct (commissioned_node_is_set_up sdk env 2 3
              (fun e => PyError_eqb NodeNotResolving e
                        || PyError_eqb NodeInterviewFailed e)
              s1 new_id p read_response sub bridge)
    as (st' & node & Hrun & Hnodes & Hfresh & Hheap & Hstored & Htrace);
    try assumption; [lia|].
  exists st', node. eexists. split; [exact Hrun|].
  split; [rewrite Hnodes; apply lookup_insert_eq|].
  split; [exact Hfresh|]. split; [exact Hheap|].
  split; [reflexivity|]. split; [reflexivity|]. split; [reflexivity|].
  split; [rewrite Hstored; reflexivity|].
  rewrite Htrace. subst s1 s0. unfold called. cbn.
  rewrite <- !app_assoc. reflexivity.
Qed.

Lemma commission_with_code_succeeds_witness :
  exists st' node nd,
    commission_with_code (Fixtures.healthy [("0/40/1"%string, VStr "Acme")])
      Fixtures.env "MT:Y.K9042C00KA0648G00" false Fixtures.fresh
    = (Returns node, st')
    /\ _nodes st' !! 1 = Some node
    /\ heap st' !! node = Some nd
    /\ available nd = true
    /\ storage_last_node_id st' = Some 1.
Proof.
  destruct (commission_with_code_succeeds
              (Fixtures.healthy [("0/40/1"%string, VStr "Acme")])
              Fixtures.env Fixtures.fresh "MT:Y.K9042C00KA0648G00" false 4
              (Some {| code := 0 |})
              [("0/40/1"%string, VStr "Acme")]
              [("0/40/1"%string, VStr "Acme")] false
              ltac:(reflexivity) eq_refl ltac:(apply not_elem_of_empty)
              eq_refl eq_refl eq_refl eq_refl ltac:(discriminate) eq_refl
              eq_refl eq_refl eq_refl)
    as (st' & node & nd & Hrun & Hnode & _ & Hheap & _ & Hav & _ & Hstored & _).
  exists st', node, nd. auto.
Defined.

(** X21.  Commissioning on the network.  With an IP address the SDK is
    asked to commission that address, scoped by [scope_ipv6_lla], and the
    filter is not used; without one it is asked to discover the node with
    the filter.  When every step succeeds at the first attempt, what
    follows is as for a pairing code: the new id is stored, the node is
    interviewed, set up, and returned available. *)
Theorem commission_on_network_succeeds {T N : Type}
  (sdk : ChipDeviceControllerWrapper T) (env : Environment T N)
  (st : Controller) (setup_pin_code filter_type : Z) (filter : Value)
  (ip_addr : option string) (p : nat)
  (result : option PyChipError) (read_response sub : T) (bridge : bool) :
  let new_id := default 0 (storage_last_node_id st) + 1 in
  new_id < TEST_NODE_START ->
  _nodes st !! new_id = None ->
  new_id ∉ _nodes_in_setup st ->
  _node_setup_throttle st = S p ->
  on_network_answer sdk (scope_ipv6_lla env) (tick st)
    new_id setup_pin_code filter_type filter ip_addr
  = Returns result ->
  commission_succeeded result = true ->
  sdk_read_attribute sdk (S (tick st)) new_id = Returns read_response ->
  let decoded := parse_attributes_from_read_result env read_response in
  decoded <> [] ->
  detect_bridge (dict_update decoded ∅) = Returns bridge ->
  let record :=
    interviewed (DATA_MODEL_SCHEMA_VERSION env) new_id (clock st)
                None decoded bridge in
  sdk_find_or_establish_case_session sdk (S (S (tick st))) new_id
  = Returns tt ->
  sdk_shutdown_subscription sdk (S (S (S (tick st)))) new_id = Returns tt ->
  sdk_subscribe sdk (S (S (S (S (tick st))))) new_id 0
    (subscription_ceiling (attributes record)) = Returns sub ->
  exists st' node nd added,
    commission_on_network sdk env setup_pin_code filter_type filter ip_addr st
    = (Returns node, st')
    /\ _nodes st' !! new_id = Some node
    /\ heap st' !! node = Some nd
    /\ id_of nd = new_id
    /\ available nd = true
    /\ storage_last_node_id st' = Some new_id
    /\ trace st'
       = trace st
         ++ [StorageSetLastNodeId new_id true;
             Sdk (on_network_request (scope_ipv6_lla env)
                    new_id setup_pin_code filter_type filter ip_addr);
             Sdk (SdkReadAttribute new_id false)]
         ++ added.
Proof.
  intros new_id Hlt Hnew Hfree Hpermit Hcommission Hok Hread decoded
    Hdecoded Hbridge record Hsession Hshut Hsub.
  unfold commission_on_network.
  unfold bind at 1, _get_next_node_id at 1.
  unfold bind at 1, gets at 1. fold new_id.
  unfold bind at 1, modify at 1. unfold bind at 1, emit at 1, modify at 1.
  unfold ret at 1.
  set (s0 := set_trace _ _).
  unfold bind at 1.
  assert (Hloop : exists s1,
            commission_loop (S (Z.to_nat MAX_COMMISSION_RETRIES))
              match
                match ip_addr with
                | Some a => Some (scope_ipv6_lla env a)
                | None => None
                end
              with
              | Some a =>
                  await (Sdk (SdkCommissionIp new_id setup_pin_code a))
                    (fun n => sdk_commission_ip sdk n new_id setup_pin_code a)
              | None =>
                  await
                    (Sdk (SdkCommissionOnNetwork new_id setup_pin_code
                            filter_type filter))
                    (fun n =>
                       sdk_commission_on_network sdk n new_id setup_pin_code
                         filter_type filter)
              end 0 s0
            = (Returns tt, s1)
            /\ s1 = called (Sdk (on_network_request (scope_ipv6_lla env)
                                   new_id setup_pin_code filter_type filter
                                   ip_addr)) s0).
  { destruct ip_addr as [a|]; cbn [on_network_answer on_network_request] in *;
      eexists; (split; [|reflexivity]);
      apply (commission_loop_success _ _ _ _ s0 result);
      (unfold MAX_COMMISSION_RETRIES; lia) || assumption. }
  destruct Hloop as (s1 & Hloop & Hs1). rewrite Hloop.
  destruct (commissioned_node_is_set_up sdk env 2 3
              (PyError_eqb NodeInterviewFailed)
              s1 new_id p read_response sub bridge)
    as (st' & node & Hrun & Hnodes & Hfresh & Hheap & Hstored & Htrace);
    try (subst s1; assumption); [lia|].
  exists st', node. eexists. eexists. split; [exact Hrun|].
  split; [rewrite Hnodes; apply lookup_insert_eq|].
  split; [exact Hheap|].
  split; [reflexivity|]. split; [reflexivity|].
  split; [rewrite Hstored, Hs1; reflexivity|].
  rewrite Htrace, Hs1. subst s0. unfold called. cbn.
  rewrite <- !app_assoc. cbn. reflexivity.
Qed.

Lemma commission_on_network_succeeds_witness :
  exists st' node nd,
    commission_on_network (Fixtures.healthy [("0/40/1"%string, VStr "Acme")])
      Fixtures.env 20202021 0 VNone (Some "fe80::1"%string) Fixtures.fresh
    = (Returns node, st')
    /\ heap st' !! node = Some nd
    /\ available nd = true
    /\ In (Sdk (SdkCommissionIp 1 20202021 "fe80::1")) (trace st').
Proof.
  destruct (commission_on_network_succeeds
              (Fixtures.healthy [("0/40/1"%string, VStr "Acme")])
              Fixtures.env Fixtures.fresh 20202021 0 VNone
              (Some "fe80::1"%string) 4
              (Some {| code := 0 |})
              [("0/40/1"%string, VStr "Acme")]
              [("0/40/1"%string, VStr "Acme")] false
              ltac:(reflexivity) eq_refl ltac:(apply not_elem_of_empty)
              eq_refl eq_refl eq_refl eq_refl ltac:(discriminate) eq_refl
              eq_refl eq_refl eq_refl)
    as (st' & node & nd & added & Hrun & _ & Hheap & _ & Hav & _ & Htrace).
  exists st', node, nd. split; [exact Hrun|]. split; [exact Hheap|].
  split; [exact Hav|]. rewrite Htrace. cbn. right. now left.
Defined.

(** ** A subscription and the node object it captured *)

Lemma alter_known (f : MatterNodeData -> MatterNodeData) (l : loc)
  (nd : MatterNodeData) (objects : gmap loc MatterNodeData) :
  objects !! l = Some nd -> alter f l objects = <[l := f nd]> objects.
Proof.
  intros Hl. apply map_eq. intros l'.
  destruct (decide (l = l')) as [<-|Hne].
  - now rewrite lookup_alter_eq, lookup_insert_eq, Hl.
  - now rewrite lookup_alter_ne, lookup_insert_ne.
Qed.

(** A report of a value that differs from the cached one. *)
Lemma attribute_updated_callback_changed (st : Controller) (node_id : Z)
  (node : loc) (nd : MatterNodeData) (path : string) (value : Value) :
  heap st !! node = Some nd ->
  py_eq (default VNone (attributes nd !! path)) value = false ->
  attribute_updated_callback node_id node path (Some value) st
  = attribute_updated node_id node path
      (default VNone (attributes nd !! path)) value
      (set_node_last_seen (<[node_id := clock st]> (_node_last_seen st)) st).
Proof.
  intros Hnd Hdiffers.
  unfold attribute_updated_callback, bind, time_now, gets, modify, deref, ret.
  change (heap (set_node_last_seen _ st)) with (heap st).
  now rewrite Hnd, Hdiffers.
Qed.

(** An update that is stored: the state it leaves. *)
Lemma attribute_updated_run (st : Controller) (node_id : Z) (node : loc)
  (nd : MatterNodeData) (path : string) (old_value new_value : Value) :
  heap st !! node = Some nd ->
  is_bridge nd && String.eqb path DESCRIPTOR_PARTS_LIST_ATTRIBUTE_PATH = false ->
  exists st',
    attribute_updated node_id node path old_value new_value st
    = (Returns tt, st')
    /\ heap st'
       = <[node := with_attributes (<[path := new_value]> (attributes nd)) nd]>
           (heap st)
    /\ _nodes st' = _nodes st
    /\ subscription_callbacks st' = subscription_callbacks st
    /\ trace st'
       = trace st
         ++ (if String.eqb path BASIC_INFORMATION_SOFTWARE_VERSION_ATTRIBUTE_PATH
                && negb (py_eq new_value old_value)
             then [CreateTask (TaskInterviewNode node_id)]
             else [])
         ++ node_state_write st node_id false
         ++ [SignalEvent ATTRIBUTE_UPDATED
               (AttributeTuple node_id path new_value)].
Proof.
  intros Hnd Hplain. unfold attribute_updated.
  unfold bind at 1, deref at 1. rewrite Hnd, Hplain.
  unfold node_state_write.
  destruct (String.eqb path BASIC_INFORMATION_SOFTWARE_VERSION_ATTRIBUTE_PATH
            && negb (py_eq new_value old_value));
    unfold bind, create_task, ret, update_object, _write_node_state, gets,
      signal_event, emit, modify;
    cbn -[pretty Z.geb];
    destruct (_nodes st !! node_id) as [registered|];
    cbn -[pretty Z.geb];
    try destruct (node_id >=? TEST_NODE_START);
    cbn -[pretty Z.geb];
    (eexists; split; [reflexivity|]); cbn -[pretty];
    rewrite ?app_nil_r, <- ?app_assoc;
    (split;
     [ now apply (alter_known
                    (fun n =>
                       with_attributes (<[path := new_value]> (attributes n)) n))
     | auto ]).
Qed.



(** ** Nodes that go offline *)

(** X23.  [_node_offline] shuts the subscription of the node down before it
    looks the node up.  A node of the registry ends unavailable, with its
    attributes kept, and [NODE_UPDATED] is emitted only if it was available;
    for an id the registry does not hold, [KeyError] is raised after the
    subscription is shut down. *)
Theorem node_offline_marks_unavailable {T : Type}
  (sdk : ChipDeviceControllerWrapper T) (st : Controller) (node_id : Z) :
  sdk_shutdown_subscription sdk (tick st) node_id = Returns tt ->
  (forall node nd,
     _nodes st !! node_id = Some node ->
     heap st !! node = Some nd ->
     exists st' nd',
       _node_offline sdk node_id st = (Returns tt, st')
       /\ subscription_callbacks st' !! node_id = None
       /\ heap st' !! node = Some nd'
       /\ available nd' = false
       /\ attributes nd' = attributes nd
       /\ trace st'
          = trace st
            ++ Sdk (SdkShutdownSubscription node_id)
               :: (if available nd
                   then [SignalEvent NODE_UPDATED (NodeObject node)]
                   else []))
  /\ (_nodes st !! node_id = None ->
      exists st',
        _node_offline sdk node_id st = (Raises KeyError, st')
        /\ subscription_callbacks st' !! node_id = None
        /\ trace st' = trace st ++ [Sdk (SdkShutdownSubscription node_id)]).
Proof.
  intros Hshut. split.
  - intros node nd Hnode Hnd.
    unfold _node_offline, shutdown_subscription, bind, await, gets, modify,
      deref, update_object, signal_event, emit, modify, ret.
    rewrite Hshut. cbn -[pretty]. rewrite Hnode. cbn -[pretty]. rewrite Hnd.
    destruct (available nd) eqn:Hav; cbn -[pretty].
    + eexists. eexists. split; [reflexivity|]. cbn.
      split; [apply lookup_delete_eq|].
      split; [rewrite lookup_alter_eq, Hnd; reflexivity|].
      rewrite <- app_assoc. auto.
    + exists (set_subscription_callbacks
                (delete node_id (subscription_callbacks st))
                (set_tick (S (tick st))
                   (set_trace
                      (trace st ++ [Sdk (SdkShutdownSubscription node_id)])
                      st))), nd.
      split; [reflexivity|]. cbn.
      split; [apply lookup_delete_eq|]. auto.
  - intros Hnone.
    unfold _node_offline, shutdown_subscription, bind, await, gets, modify,
      raise.
    rewrite Hshut. cbn -[pretty]. rewrite Hnone.
    eexists. split; [reflexivity|]. cbn.
    split; [apply lookup_delete_eq | reflexivity].
Qed.

Lemma node_offline_marks_unavailable_witness :
  exists st' nd',
    _node_offline (Fixtures.healthy []) 7
      (Fixtures.with_node (Fixtures.node 7 true false []))
    = (Returns tt, st')
    /\ subscription_callbacks st' !! 7 = None
    /\ heap st' !! 0%nat = Some nd'
    /\ available nd' = false.
Proof.
  destruct (proj1 (node_offline_marks_unavailable (Fixtures.healthy [])
                     (Fixtures.with_node (Fixtures.node 7 true false []))
                     7 eq_refl)
              0%nat _ eq_refl eq_refl)
    as (st' & nd' & Hrun & Hsub & Hheap & Hav & _).
  exists st', nd'. auto.
Defined.

(** ** Endpoints that are added *)

(** X24.  Endpoints added to a bridge.  [_handle_endpoints_added]
    interviews the node again and then emits one [ENDPOINT_ADDED] per
    endpoint, in order; when the read of the interview fails it raises and
    no [ENDPOINT_ADDED] is emitted. *)
Theorem handle_endpoints_added_after_interview {T N : Type}
  (sdk : ChipDeviceControllerWrapper T) (env : Environment T N)
  (st : Controller) (node_id : Z) (node : loc) (nd : MatterNodeData)
  (endpoints : list Hashable) :
  node_id < TEST_NODE_START ->
  _nodes st !! node_id = Some node ->
  heap st !! node = Some nd ->
  (forall read_response bridge,
     sdk_read_attribute sdk (tick st) node_id = Returns read_response ->
     detect_bridge
       (dict_update (parse_attributes_from_read_result env read_response) ∅)
     = Returns bridge ->
     exists st' new,
       _handle_endpoints_added sdk env node_id endpoints st = (Returns tt, st')
       /\ _nodes st' !! node_id = Some new
       /\ trace st'
          = trace st
            ++ [Sdk (SdkReadAttribute node_id false);
                StorageSetNode (pretty node_id) new true;
                SignalEvent NODE_UPDATED (NodeObject new)]
            ++ endpoint_events ENDPOINT_ADDED node_id endpoints)
  /\ (forall e,
      sdk_read_attribute sdk (tick st) node_id = Raises e ->
      exists st',
        _handle_endpoints_added sdk env node_id endpoints st
        = (Raises (if PyError_eqb ChipStackError e
                   then NodeInterviewFailed else e),
           st')
        /\ _nodes st' = _nodes st
        /\ count (signals ENDPOINT_ADDED) (trace st')
           = count (signals ENDPOINT_ADDED) (trace st)).
Proof.
  intros Hlt Hnode Hnd. split.
  - intros read_response bridge Hread Hbridge.
    destruct (interview_node_succeeds sdk env st node_id read_response
                (Some nd) bridge)
      as (s2 & Hrun2 & Hnodes2 & _ & _ & Htrace2 & _); try assumption.
    { rewrite Hnode. split; [exact Hnd | eauto]. }
    unfold _handle_endpoints_added, bind. rewrite Hrun2.
    assert (Hloop : forall s : Controller,
              exists s',
                for_each endpoints
                  (fun endpoint_id =>
                     signal_event ENDPOINT_ADDED
                       (EndpointDict node_id endpoint_id)) s
                = (Returns tt, s')
                /\ _nodes s' = _nodes s
                /\ trace s'
                   = trace s ++ endpoint_events ENDPOINT_ADDED node_id endpoints).
    { induction endpoints as [|e endpoints IH]; intros s.
      - exists s. cbn. now rewrite app_nil_r.
      - cbn [for_each]. unfold bind at 1, signal_event at 1, emit at 1,
          modify at 1.
        destruct (IH (set_trace
                        (trace s
                         ++ [SignalEvent ENDPOINT_ADDED
                               (EndpointDict node_id e)]) s))
          as (s' & Hrun & Hn & Ht).
        exists s'. split; [exact Hrun|]. split; [rewrite Hn; reflexivity|].
        rewrite Ht. cbn. now rewrite <- app_assoc. }
    destruct (Hloop s2) as (st' & Hrun & Hnodes & Htrace).
    exists st', (fresh (dom (heap st))). split; [exact Hrun|].
    split; [rewrite Hnodes, Hnodes2; apply lookup_insert_eq|].
    rewrite Htrace, Htrace2, <- app_assoc. reflexivity.
  - intros e Hread.
    unfold _handle_endpoints_added, bind.
    rewrite (interview_node_read_fails sdk env node_id st e Hlt Hread).
    eexists. split; [reflexivity|]. split; [reflexivity|].
    unfold called. cbn -[count]. rewrite count_app. cbn. lia.
Qed.

Lemma handle_endpoints_added_after_interview_witness :
  exists st',
    _handle_endpoints_added Fixtures.interview_fails Fixtures.env 7
      [HInt 3; HInt 4]
      (Fixtures.with_node (Fixtures.node 7 true true []))
    = (Raises NodeInterviewFailed, st')
    /\ count (signals ENDPOINT_ADDED) (trace st') = 0%nat.
Proof.
  destruct (proj2 (handle_endpoints_added_after_interview
                     Fixtures.interview_fails Fixtures.env
                     (Fixtures.with_node (Fixtures.node 7 true true []))
                     7 0%nat _ [HInt 3; HInt 4]
                     ltac:(reflexivity) eq_refl eq_refl)
              ChipStackError eq_refl)
    as (st' & Hrun & _ & Hcount).
  exists st'. split; [exact Hrun | exact Hcount].
Defined.

(** ** Reading twice *)

(** The loop of [read_attribute] when no item differs from the cache. *)
Lemma update_cached_attributes_unchanged (node_id : Z) (node : loc)
  (items : list (string * Value)) (st : Controller) (nd : MatterNodeData)
  (values_changed : bool) :
  heap st !! node = Some nd ->
  changed_items (attributes nd) items = [] ->
  update_cached_attributes node_id node items values_changed st
  = (Returns values_changed, st).
Proof.
  intros Hnd. induction items as [|[k v] items IH]; intros Hnone.
  - reflexivity.
  - unfold changed_items in Hnone. cbn [List.filter fst snd] in Hnone.
    cbn [update_cached_attributes]. unfold bind at 1, deref at 1. rewrite Hnd.
    destruct (negb (py_eq (default VNone (attributes nd !! k)) v));
      [discriminate|].
    apply IH. exact Hnone.
Qed.

(** What the loop of [read_attribute] leaves alone. *)
Lemma update_cached_attributes_keeps (node_id : Z) (node : loc)
  (items : list (string * Value)) :
  forall st nd values_changed,
  heap st !! node = Some nd ->
  exists b st' nd',
    update_cached_attributes node_id node items values_changed st
    = (Returns b, st')
    /\ heap st' = <[node := nd']> (heap st)
    /\ available nd' = available nd
    /\ _nodes st' = _nodes st
    /\ tick st' = tick st
    /\ clock st' = clock st
    /\ timers st' = timers st
    /\ _polled_attributes st' = _polled_attributes st
    /\ _custom_attribute_poller_timer st' = _custom_attribute_poller_timer st.
Proof.
  induction items as [|[k v] items IH]; intros st nd vc Hnd.
  - exists vc, st, nd. cbn. rewrite insert_id by exact Hnd. repeat split; auto.
  - cbn [update_cached_attributes]. unfold bind at 1, deref at 1. rewrite Hnd.
    destruct (negb (py_eq (default VNone (attributes nd !! k)) v)).
    + unfold bind at 1, update_object at 1, modify at 1.
      unfold bind at 1, signal_event at 1, emit at 1, modify at 1.
      match goal with
      | |- context [update_cached_attributes _ _ _ true ?s] => set (st1 := s)
      end.
      destruct (IH st1 (with_attributes (<[k := v]> (attributes nd)) nd) true)
        as (b & st' & nd' & Hrun & Hheap & Hav & Hrest).
      { subst st1. cbn. now rewrite lookup_alter_eq, Hnd. }
      exists b, st', nd'. split; [exact Hrun|].
      split.
      { rewrite Hheap. subst st1. cbn.
        rewrite (alter_known _ _ nd) by exact Hnd.
        apply insert_insert_eq. }
      split; [exact Hav|]. exact Hrest.
    + apply IH. exact Hnd.
Qed.

Lemma filter_none {A : Type} (f : A -> bool) (l : list A) :
  (forall x, In x l -> f x = false) -> List.filter f l = [].
Proof.
  induction l as [|x l IH]; intros H; [reflexivity|].
  cbn. rewrite (H x) by now left. apply IH. intros y Hy. apply H. now right.
Qed.

(** A read of a real node that is answered: the state it leaves. *)
Lemma read_attribute_run {T N : Type}
  (sdk : ChipDeviceControllerWrapper T) (env : Environment T N)
  (st : Controller) (node_id : Z) (node : loc) (nd : MatterNodeData)
  (attribute_paths : list string) (sdk_paths : list AttributePath)
  (fabric_filtered : bool) (result : T) :
  _nodes st !! node_id = Some node ->
  heap st !! node = Some nd ->
  available nd = true ->
  node_id < TEST_NODE_START ->
  Forall2 (fun p a => parse_attribute_path env p = Returns a)
          attribute_paths sdk_paths ->
  sdk_read sdk (tick st) node_id sdk_paths fabric_filtered = Returns result ->
  let decoded := parse_attributes_from_read_result env result in
  List.NoDup (map fst decoded) ->
  let changed := changed_items (attributes nd) decoded in
  exists st',
    read_attribute sdk env node_id attribute_paths fabric_filtered st
    = (Returns decoded, st')
    /\ _nodes st' = _nodes st
    /\ heap st'
       = <[node := with_attributes (dict_update changed (attributes nd)) nd]>
           (heap st)
    /\ tick st' = S (tick st)
    /\ clock st' = clock st
    /\ timers st' = timers st
    /\ _polled_attributes st' = _polled_attributes st
    /\ _custom_attribute_poller_timer st' = _custom_attribute_poller_timer st
    /\ trace st'
       = trace st
         ++ [Sdk (SdkRead node_id sdk_paths fabric_filtered)]
         ++ attribute_events node_id changed
         ++ match changed with
            | [] => []
            | _ => [StorageSetNode (pretty node_id) node false]
            end.
Proof.
  intros Hnode Hnd Hav Hlt Hpaths Hread decoded Hdup changed.
  unfold read_attribute.
  unfold bind at 1, gets at 1. rewrite Hnode.
  unfold bind at 1, bind at 1, deref at 1. rewrite Hnd.
  unfold ret at 1. rewrite Hav.
  rewrite geb_false by assumption.
  unfold bind at 1. rewrite (map_m_lift _ _ sdk_paths) by assumption.
  unfold bind at 1, await at 1. rewrite Hread.
  fold decoded.
  set (st1 := set_tick _ _).
  destruct (update_cached_attributes_spec node_id node decoded st1 nd false)
    as (st2 & Hrun & Hlookup & _ & Htrace); [exact Hnd | exact Hdup |].
  destruct (update_cached_attributes_keeps node_id node decoded st1 nd false)
    as (b & st2' & nd' & Hrun' & Hheap & _ & Hnodes & Htick & Hclock & Htimers
        & Hpolled & Hheld); [exact Hnd|].
  rewrite Hrun in Hrun'. injection Hrun' as _ <-.
  fold changed in Hrun, Hlookup, Htrace.
  assert (Hnd' : nd' = with_attributes (dict_update changed (attributes nd)) nd).
  { rewrite Hheap, lookup_insert_eq in Hlookup. congruence. }
  subst nd'.
  unfold bind at 1. rewrite Hrun. cbn [orb].
  destruct changed as [|c changed'] eqn:Hchanged.
  - unfold bind at 1, ret at 1. unfold ret.
    exists st2. split; [reflexivity|].
    rewrite Hnodes, Hheap, Htick, Hclock, Htimers, Hpolled, Hheld, Htrace.
    subst st1. cbn. rewrite <- !app_assoc. repeat split; auto.
  - unfold bind at 1, _write_node_state at 1, bind at 1, gets at 1.
    rewrite Hnodes. subst st1. cbn [_nodes set_tick set_trace].
    rewrite Hnode. rewrite geb_false by assumption.
    unfold emit, modify, ret.
    eexists. split; [reflexivity|]. cbn.
    rewrite Hnodes, Hheap, Htick, Hclock, Htimers, Hpolled, Hheld, Htrace.
    cbn. rewrite <- !app_assoc. repeat split; auto.
Qed.

(** X25.  Reading twice.  When a read of an available node is repeated and
    the node answers with the same values, the second read changes nothing:
    it returns the same map, and adds only its SDK call to what the
    controller does; no [ATTRIBUTE_UPDATED] is emitted and no write is
    scheduled.  (The values are taken to be equal to themselves, as the
    values of Python are that a read decodes.) *)
Theorem read_attribute_twice {T N : Type}
  (sdk : ChipDeviceControllerWrapper T) (env : Environment T N)
  (st : Controller) (node_id : Z) (node : loc) (nd : MatterNodeData)
  (attribute_paths : list string) (sdk_paths : list AttributePath)
  (fabric_filtered : bool) (result : T) :
  _nodes st !! node_id = Some node ->
  heap st !! node = Some nd ->
  available nd = true ->
  node_id < TEST_NODE_START ->
  Forall2 (fun p a => parse_attribute_path env p = Returns a)
          attribute_paths sdk_paths ->
  sdk_read sdk (tick st) node_id sdk_paths fabric_filtered = Returns result ->
  sdk_read sdk (S (tick st)) node_id sdk_paths fabric_filtered
  = Returns result ->
  let decoded := parse_attributes_from_read_result env result in
  List.NoDup (map fst decoded) ->
  (forall k v, In (k, v) decoded -> py_eq v v = true) ->
  exists st1 st2,
    read_attribute sdk env node_id attribute_paths fabric_filtered st
    = (Returns decoded, st1)
    /\ read_attribute sdk env node_id attribute_paths fabric_filtered st1
       = (Returns decoded, st2)
    /\ heap st2 = heap st1
    /\ trace st2
       = trace st1 ++ [Sdk (SdkRead node_id sdk_paths fabric_filtered)].
Proof.
  intros Hnode Hnd Hav Hlt Hpaths Hread Hagain decoded Hdup Hrefl.
  destruct (read_attribute_run sdk env st node_id node nd attribute_paths
              sdk_paths fabric_filtered result)
    as (st1 & Hrun1 & Hnodes1 & Hheap1 & Htick1 & _); try assumption.
  fold decoded in Hrun1, Hheap1.
  set (changed := changed_items (attributes nd) decoded) in *.
  set (nd1 := with_attributes (dict_update changed (attributes nd)) nd) in *.
  assert (Hsettled : changed_items (attributes nd1) decoded = []).
  { unfold changed_items.
    apply filter_none.
    intros [k v] Hin. cbn [fst snd attributes nd1 with_attributes].
    apply negb_false_iff.
    destruct (py_eq (default VNone (attributes nd !! k)) v) eqn:Hsame.
    - rewrite dict_update_lookup_other; [exact Hsame|].
      intros Hk. apply in_map_iff in Hk.
      destruct Hk as ([k' w] & Hk' & Hw). cbn in Hk'. subst k'.
      apply changed_items_members in Hw. destruct Hw as [Hw Hne].
      rewrite (unique_value decoded k v w Hdup Hin Hw) in Hsame. congruence.
    - rewrite (dict_update_lookup_item changed (attributes nd) k v).
      + cbn. exact (Hrefl k v Hin).
      + now apply changed_items_nodup.
      + apply changed_items_members. auto. }
  destruct (read_attribute_run sdk env st1 node_id node nd1 attribute_paths
              sdk_paths fabric_filtered result)
    as (st2 & Hrun2 & _ & Hheap2 & _ & _ & _ & _ & _ & Htrace2);
    try assumption.
  { now rewrite Hnodes1. }
  { rewrite Hheap1. apply lookup_insert_eq. }
  { now rewrite Htick1. }
  fold decoded in Hrun2, Hheap2, Htrace2.
  rewrite Hsettled in Hheap2, Htrace2. cbn in Hheap2, Htrace2.
  exists st1, st2. split; [exact Hrun1|]. split; [exact Hrun2|].
  split; [|exact Htrace2].
  rewrite Hheap2. apply insert_id. rewrite Hheap1, lookup_insert_eq.
  now destruct nd.
Qed.

Lemma read_attribute_twice_witness :
  exists st1 st2,
    read_attribute (Fixtures.healthy [("1/6/0"%string, VBool true)])
      Fixtures.env 7 ["1/6/0"%string] false
      (Fixtures.with_node
         (Fixtures.node 7 true false [("1/6/0"%string, VBool false)]))
    = (Returns [("1/6/0"%string, VBool true)], st1)
    /\ read_attribute (Fixtures.healthy [("1/6/0"%string, VBool true)])
         Fixtures.env 7 ["1/6/0"%string] false st1
       = (Returns [("1/6/0"%string, VBool true)], st2)
    /\ heap st2 = heap st1.
Proof.
  destruct (read_attribute_twice
              (Fixtures.healthy [("1/6/0"%string, VBool true)]) Fixtures.env
              (Fixtures.with_node
                 (Fixtures.node 7 true false [("1/6/0"%string, VBool false)]))
              7 0%nat _ ["1/6/0"%string]
              [{| EndpointId := None; ClusterId := None; AttributeId := None |}]
              false [("1/6/0"%string, VBool true)]
              eq_refl eq_refl eq_refl ltac:(reflexivity)
              ltac:(repeat constructor) eq_refl eq_refl
              ltac:(repeat constructor; intros [])
              ltac:(intros k v [[= <- <-]|[]]; reflexivity))
    as (st1 & st2 & Hrun1 & Hrun2 & Hheap & _).
  exists st1, st2. auto.
Defined.

(** ** The poller at work *)

Lemma same_nodes_refl st : same_nodes st st.
Proof. repeat split; eauto. Qed.

Lemma same_nodes_trans st1 st2 st3 :
  same_nodes st1 st2 -> same_nodes st2 st3 -> same_nodes st1 st3.
Proof.
  intros (H1 & H2 & H3 & H4 & H5) (G1 & G2 & G3 & G4 & G5).
  repeat split; try congruence.
  intros l nd Hl. destruct (H5 l nd Hl) as (nd' & Hl' & Hav).
  destruct (G5 l nd' Hl') as (nd'' & Hl'' & Hav'').
  exists nd''. split; [exact Hl'' | congruence].
Qed.

Lemma same_nodes_is_available st st' node_id :
  same_nodes st st' ->
  (forall node, _nodes st !! node_id = Some node -> is_Some (heap st !! node)) ->
  is_available st' node_id = is_available st node_id.
Proof.
  intros (H1 & _ & _ & _ & H5) Hobj. unfold is_available. rewrite H1.
  destruct (_nodes st !! node_id) as [node|] eqn:Hnode; [|reflexivity].
  destruct (Hobj node eq_refl) as [nd Hnd]. rewrite Hnd.
  destruct (H5 node nd Hnd) as (nd' & -> & Hav). exact Hav.
Qed.

Lemma parse_all {A B : Type} (f : A -> Outcome B) (xs : list A) :
  (forall x, exists y, f x = Returns y) ->
  exists ys, Forall2 (fun x y => f x = Returns y) xs ys.
Proof.
  intros H. induction xs as [|x xs [ys IH]].
  - exists []. constructor.
  - destruct (H x) as [y Hy]. exists (y :: ys). now constructor.
Qed.

(** A read made by the poller either returns or raises [ChipStackError],
    when this is so of the SDK; it keeps the clock and the nodes. *)
Lemma read_attribute_contained {T N : Type}
  (sdk : ChipDeviceControllerWrapper T) (env : Environment T N)
  (st : Controller) (node_id : Z) (node : loc) (nd : MatterNodeData)
  (attribute_paths : list string) :
  (forall p, exists a, parse_attribute_path env p = Returns a) ->
  (forall n paths,
     (exists r, sdk_read sdk n node_id paths false = Returns r)
     \/ sdk_read sdk n node_id paths false = Raises ChipStackError) ->
  _nodes st !! node_id = Some node ->
  heap st !! node = Some nd ->
  available nd = true ->
  exists o st',
    read_attribute sdk env node_id attribute_paths false st = (o, st')
    /\ ((exists r, o = Returns r) \/ o = Raises ChipStackError)
    /\ clock st' = clock st
    /\ same_nodes st st'.
Proof.
  intros Hparse Hsdk Hnode Hnd Hav.
  unfold read_attribute.
  unfold bind at 1, gets at 1. rewrite Hnode.
  unfold bind at 1, bind at 1, deref at 1. rewrite Hnd.
  unfold ret at 1. rewrite Hav.
  destruct (node_id >=? TEST_NODE_START).
  - unfold bind, deref, ret. rewrite Hnd.
    eexists _, st. split; [reflexivity|].
    split; [left; eauto|]. split; [reflexivity | apply same_nodes_refl].
  - destruct (parse_all (parse_attribute_path env) attribute_paths Hparse)
      as [sdk_paths Hpaths].
    unfold bind at 1. rewrite (map_m_lift _ _ sdk_paths) by assumption.
    unfold bind at 1, await at 1.
    destruct (Hsdk (tick st) sdk_paths) as [[r Hr] | Hr]; rewrite Hr.
    + set (st1 := set_tick _ _).
      destruct (update_cached_attributes_keeps node_id node
                  (parse_attributes_from_read_result env r) st1 nd false)
        as (b & st2 & nd' & Hrun & Hheap & Hav' & Hnodes & _ & Hclock
            & Htimers & Hpolled & Hheld); [exact Hnd|].
      unfold st1 in Hheap, Hnodes, Hclock, Htimers, Hpolled, Hheld.
      cbn in Hheap, Hnodes, Hclock, Htimers, Hpolled, Hheld.
      unfold bind at 1. rewrite Hrun.
      assert (Hkept : forall s : Controller,
                heap s = heap st2 -> _nodes s = _nodes st2 ->
                clock s = clock st2 -> timers s = timers st2 ->
                _polled_attributes s = _polled_attributes st2 ->
                _custom_attribute_poller_timer s
                = _custom_attribute_poller_timer st2 ->
                clock s = clock st /\ same_nodes st s).
      { intros s E1 E2 E3 E4 E5 E6. split; [congruence|].
        repeat split; try congruence.
        intros l nd0 Hl. rewrite E1, Hheap.
        destruct (decide (node = l)) as [<-|Hne].
        - rewrite lookup_insert_eq. exists nd'. split; [reflexivity|].
          congruence.
        - rewrite lookup_insert_ne by exact Hne. eauto. }
      destruct b.
      * unfold bind at 1, _write_node_state at 1, bind at 1, gets at 1.
        rewrite Hnodes, Hnode. unfold bind, ret, emit, modify.
        destruct (node_id >=? TEST_NODE_START);
          eexists _, _; (split; [reflexivity|]);
          (split; [left; eauto|]); apply Hkept; reflexivity.
      * unfold bind, ret. eexists _, _. split; [reflexivity|].
        split; [left; eauto|]. apply Hkept; reflexivity.
    + eexists _, _. split; [reflexivity|]. split; [now right|].
      split; [reflexivity|]. repeat split; eauto.
Qed.

(** The loop of the poller goes through all the nodes. *)
Lemma poll_nodes_run {T N : Type}
  (sdk : ChipDeviceControllerWrapper T) (env : Environment T N)
  (node_ids : list Z) :
  (forall p, exists a, parse_attribute_path env p = Returns a) ->
  (forall n node_id paths,
     (exists r, sdk_read sdk n node_id paths false = Returns r)
     \/ sdk_read sdk n node_id paths false = Raises ChipStackError) ->
  forall st,
  (forall node_id, In node_id node_ids ->
     exists paths node nd,
       _polled_attributes st !! node_id = Some paths
       /\ _nodes st !! node_id = Some node
       /\ heap st !! node = Some nd) ->
  exists st',
    poll_nodes sdk env node_ids st = (Returns tt, st')
    /\ clock st'
       = clock st
         + 2 * Z.of_nat (length (List.filter (is_available st) node_ids))
    /\ same_nodes st st'.
Proof.
  intros Hparse Hsdk.
  induction node_ids as [|node_id rest IH]; intros st Hknown.
  - exists st. cbn. split; [reflexivity|]. split; [lia | apply same_nodes_refl].
  - destruct (Hknown node_id (or_introl eq_refl))
      as (paths & node & nd & Hpaths & Hnode & Hnd).
    assert (Hrest : forall s, same_nodes st s ->
              exists st',
                poll_nodes sdk env rest s = (Returns tt, st')
                /\ clock st'
                   = clock s
                     + 2 * Z.of_nat
                             (length (List.filter (is_available st) rest))
                /\ same_nodes st st').
    { intros s Hs.
      destruct (IH s) as (st' & Hrun & Hclock & Hsame).
      - intros id Hid.
        destruct (Hknown id (or_intror Hid))
          as (paths' & node' & nd' & Hp & Hn & Hh).
        destruct Hs as (H1 & H2 & _ & _ & H5).
        destruct (H5 node' nd' Hh) as (nd'' & Hh' & _).
        exists paths', node', nd''. rewrite H1, H2. auto.
      - exists st'. split; [exact Hrun|].
        split; [|exact (same_nodes_trans _ _ _ Hs Hsame)].
        rewrite Hclock. do 4 f_equal.
        apply filter_ext_in. intros id Hid.
        apply same_nodes_is_available; [exact Hs|].
        intros node' Hn.
        destruct (Hknown id (or_intror Hid))
          as (_ & node'' & nd'' & _ & Hn' & Hh).
        rewrite Hn in Hn'. injection Hn' as <-. eauto. }
    cbn [poll_nodes List.filter].
    unfold bind at 1, gets at 1. rewrite Hnode.
    unfold bind at 1, deref at 1. rewrite Hnd.
    unfold is_available at 1. rewrite Hnode, Hnd.
    destruct (available nd) eqn:Hav; cbn [negb].
    + unfold bind at 1, gets at 1. rewrite Hpaths.
      destruct (read_attribute_contained sdk env st node_id node nd paths
                  Hparse (fun n p => Hsdk n node_id p) Hnode Hnd Hav)
        as (o & st1 & Hread & Ho & Hclock1 & Hsame1).
      unfold bind at 1, try_except at 1, bind at 1. rewrite Hread.
      assert (Hstep : forall k : M unit,
                (let (o0, st'0) :=
                   match
                     match o with
                     | Returns _ => ret tt st1
                     | Raises e => (Raises e, st1)
                     | Pending => (Pending, st1)
                     | Stuck => (Stuck, st1)
                     end
                   with
                   | (Raises e, st') =>
                       if PyError_eqb ChipStackError e
                          || PyError_eqb NodeNotReady e
                       then ret tt st'
                       else (Raises e, st')
                   | r => r
                   end in
                 match o0 with
                 | Returns a => k st'0
                 | Raises e => (Raises e, st'0)
                 | Pending => (Pending, st'0)
                 | Stuck => (Stuck, st'0)
                 end)
                = k st1).
      { intros k. destruct Ho as [[r ->] | ->]; reflexivity. }
      rewrite Hstep.
      unfold bind at 1, sleep at 1, modify at 1.
      match goal with
      | |- context [poll_nodes _ _ _ ?s] => destruct (Hrest s) as
            (st' & Hrun & Hclock & Hsame)
      end.
      { destruct Hsame1 as (H1 & H2 & H3 & H4 & H5). repeat split; auto. }
      exists st'. split; [exact Hrun|]. split; [|exact Hsame].
      rewrite Hclock. cbn [clock set_clock set_trace length].
      rewrite Hclock1. lia.
    + destruct (Hrest st (same_nodes_refl st)) as (st' & Hrun & Hclock & Hsame).
      exists st'. auto.
Qed.

Lemma polled_ids_spec (st : Controller) (node_id : Z) :
  In node_id (polled_ids st) <-> is_Some (_polled_attributes st !! node_id).
Proof.
  unfold polled_ids. rewrite in_map_iff. split.
  - intros ([k paths] & <- & Hin). apply list_elem_of_In in Hin.
    apply elem_of_map_to_list in Hin. cbn. eauto.
  - intros [paths Hpaths]. exists (node_id, paths). split; [reflexivity|].
    apply list_elem_of_In. now apply elem_of_map_to_list.
Qed.

(** X26.  The poller of custom attributes.  When every polled node is in
    the registry and a read either returns or raises [ChipStackError], the
    poller goes through all the polled nodes and returns: a failed read
    does not stop it.  It sleeps 2 seconds after each read and not at all
    for a node that is unavailable, which it does not read; at the end it
    arms its timer again, 30 seconds ahead, if there is anything to poll. *)
Theorem custom_attributes_poller_goes_on {T N : Type}
  (sdk : ChipDeviceControllerWrapper T) (env : Environment T N)
  (st : Controller) :
  (forall p, exists a, parse_attribute_path env p = Returns a) ->
  (forall n node_id paths,
     (exists r, sdk_read sdk n node_id paths false = Returns r)
     \/ sdk_read sdk n node_id paths false = Raises ChipStackError) ->
  (forall node_id, is_Some (_polled_attributes st !! node_id) ->
     exists node nd,
       _nodes st !! node_id = Some node /\ heap st !! node = Some nd) ->
  exists st',
    _custom_attributes_poller sdk env st = (Returns tt, st')
    /\ clock st'
       = clock st
         + 2 * Z.of_nat
                 (length (List.filter (is_available st) (polled_ids st)))
    /\ _nodes st' = _nodes st
    /\ _polled_attributes st' = _polled_attributes st
    /\ (_polled_attributes st <> ∅ ->
        exists h t,
          _custom_attribute_poller_timer st' = Some h
          /\ timers st' !! h = Some t
          /\ armed_poller t = true
          /\ delay t = CUSTOM_ATTRIBUTES_POLLER_INTERVAL).
Proof.
  intros Hparse Hsdk Hknown.
  destruct (poll_nodes_run sdk env (polled_ids st) Hparse Hsdk st)
    as (st1 & Hrun & Hclock & Hnodes & Hpolled & Htimers & Hheld & _).
  { intros node_id Hin. apply polled_ids_spec in Hin.
    destruct (Hknown node_id Hin) as (node & nd & Hnode & Hnd).
    destruct Hin as [paths Hpaths]. eauto 6. }
  unfold _custom_attributes_poller, bind at 1, gets at 1.
  fold (polled_ids st). unfold bind at 1. rewrite Hrun.
  rewrite schedule_custom_attributes_poller_run.
  eexists. split; [reflexivity|].
  destruct (bool_decide (_polled_attributes st1 = ∅)) eqn:Hempty.
  - apply bool_decide_eq_true in Hempty. cbn.
    repeat split; auto. intros Hne. congruence.
  - cbn. repeat split; auto. intros _.
    exists (length (timers st1)). eexists.
    split; [reflexivity|].
    assert (Hlen : length (poller_cancelled st1) = length (timers st1)).
    { unfold poller_cancelled.
      destruct (_custom_attribute_poller_timer st1);
        [apply length_alter | reflexivity]. }
    rewrite <- Hlen. split; [apply list_lookup_middle; reflexivity|].
    split; reflexivity.
Qed.

Lemma custom_attributes_poller_goes_on_witness :
  exists st' h t,
    _custom_attributes_poller Fixtures.interview_fails Fixtures.env
      (set_polled_attributes {[7 := ["0/4874/5"%string]]}
         (Fixtures.with_node (Fixtures.node 7 true false [])))
    = (Returns tt, st')
    /\ _custom_attribute_poller_timer st' = Some h
    /\ timers st' !! h = Some t
    /\ armed_poller t = true.
Proof.
  destruct (custom_attributes_poller_goes_on
              Fixtures.interview_fails Fixtures.env
              (set_polled_attributes {[7 := ["0/4874/5"%string]]}
                 (Fixtures.with_node (Fixtures.node 7 true false [])))
              (fun p => ex_intro _ _ eq_refl)
              (fun n node_id paths => or_intror eq_refl))
    as (st' & Hrun & _ & _ & _ & Htimer).
  - intros node_id [paths Hpaths]. cbn in Hpaths.
    apply lookup_singleton_Some in Hpaths. destruct Hpaths as [<- _].
    exists 0%nat. eexists. split; reflexivity.
  - destruct Htimer as (h & t & Hh & Ht & Harmed & _).
    + cbn. apply insert_non_empty.
    + exists st', h, t. auto.
Defined.

(** ** Test nodes that are imported *)

(** The loop of [import_test_node] writes nothing to storage and emits
    nothing but [NODE_ADDED], however it ends. *)
Lemma import_nodes_in_memory {T N : Type} (env : Environment T N)
  (dump_nodes : list N) :
  forall next st,
  storage_last_node_id (snd (import_nodes env dump_nodes next st))
  = storage_last_node_id st
  /\ exists added,
       trace (snd (import_nodes env dump_nodes next st)) = trace st ++ added
       /\ forallb (signals NODE_ADDED) added = true.
Proof.
  induction dump_nodes as [|d ds IH]; intros next st.
  - cbn. split; [reflexivity|]. exists []. now rewrite app_nil_r.
  - set (l := fresh (dom (heap st))).
    assert (Hstep :
              import_nodes env (d :: ds) next st
              = match dataclass_from_dict env d with
                | Returns p =>
                    import_nodes env ds (next + 1)
                      (set_trace
                         (trace st ++ [SignalEvent NODE_ADDED (NodeObject l)])
                         (set_nodes (<[next := l]> (_nodes st))
                            (set_heap (<[l := with_node_id next p]> (heap st))
                               st)))
                | Raises e => (Raises e, st)
                | Pending => (Pending, st)
                | Stuck => (Stuck, st)
                end).
    { cbn [import_nodes].
      unfold bind, lift, new_object, modify, signal_event, emit, modify.
      destruct (dataclass_from_dict env d); reflexivity. }
    rewrite Hstep.
    destruct (dataclass_from_dict env d) as [p|e| |];
      try (cbn; split; [reflexivity|]; exists []; now rewrite app_nil_r).
    set (s1 := set_trace _ _).
    destruct (IH (next + 1) s1) as (Hstored & added & Htrace & Hadded).
    rewrite Hstored, Htrace.
    split; [reflexivity|].
    exists (SignalEvent NODE_ADDED (NodeObject l) :: added).
    subst s1. cbn [trace set_trace set_nodes set_heap].
    rewrite <- app_assoc. split; [reflexivity|]. cbn. exact Hadded.
Qed.

(** X27.  Imported test nodes live in memory only.  However
    [import_test_node] ends, it writes nothing to storage: the stored node
    id is as it was, and all that is added to what the controller did are
    [NODE_ADDED] events.  A dump that is not JSON raises
    [InvalidArguments] and changes nothing. *)
Theorem import_test_node_stays_in_memory {T N : Type} (env : Environment T N)
  (st : Controller) (dump : string) :
  storage_last_node_id (snd (import_test_node env dump st))
  = storage_last_node_id st
  /\ (exists added,
        trace (snd (import_test_node env dump st)) = trace st ++ added
        /\ forallb (signals NODE_ADDED) added = true)
  /\ (json_loads env dump = None ->
      import_test_node env dump st = (Raises InvalidArguments, st)).
Proof.
  unfold import_test_node.
  assert (Hid : storage_last_node_id st = storage_last_node_id st
                /\ exists added, trace st = trace st ++ added
                                 /\ forallb (signals NODE_ADDED) added = true).
  { split; [reflexivity|]. exists []. now rewrite app_nil_r. }
  destruct (json_loads env dump) as [dump_data|].
  - assert (Hrun : forall dump_nodes,
              storage_last_node_id
                (snd ((let* ids := gets known_node_ids in
                       let* highest :=
                         lift (py_max (ids ++ [TEST_NODE_START])) in
                       import_nodes env dump_nodes (highest + 1)) st))
              = storage_last_node_id st
              /\ exists added,
                   trace
                     (snd ((let* ids := gets known_node_ids in
                            let* highest :=
                              lift (py_max (ids ++ [TEST_NODE_START])) in
                            import_nodes env dump_nodes (highest + 1)) st))
                   = trace st ++ added
                   /\ forallb (signals NODE_ADDED) added = true).
    { intros dump_nodes. unfold bind, gets, lift.
      destruct (py_max _) as [highest|e| |]; try exact Hid.
      apply import_nodes_in_memory. }
    destruct dump_data as [node|nodes|e].
    + destruct (Hrun [node]) as [H1 H2]. split; [exact H1|].
      split; [exact H2 | discriminate].
    + destruct (Hrun nodes) as [H1 H2]. split; [exact H1|].
      split; [exact H2 | discriminate].
    + destruct Hid as [H1 H2]. split; [exact H1|].
      split; [exact H2 | discriminate].
  - destruct Hid as [H1 H2]. split; [exact H1|]. split; [exact H2|].
    reflexivity.
Qed.

Lemma import_nodes_app {T N : Type} (env : Environment T N)
  (good rest : list N) :
  forall next st,
  import_nodes env (good ++ rest) next st
  = match import_nodes env good next st with
    | (Returns _, s) =>
        import_nodes env rest (next + Z.of_nat (length good)) s
    | other => other
    end.
Proof.
  induction good as [|d ds IH]; intros next st.
  - cbn. now rewrite Z.add_0_r.
  - cbn [app import_nodes]. unfold bind at 1 3, lift at 1 2.
    destruct (dataclass_from_dict env d) as [p|e| |]; try reflexivity.
    unfold bind at 1 4, new_object at 1 2.
    unfold bind at 1 3, modify at 1 2.
    unfold bind at 1 2, signal_event at 1 2, emit at 1 2, modify at 1 2.
    rewrite IH.
    replace (next + 1 + Z.of_nat (length ds))
      with (next + Z.of_nat (length (d :: ds))) by (cbn [length]; lia).
    reflexivity.
Qed.

(** X28.  An import is not undone.  When a node of the dump cannot be
    parsed, [import_test_node] raises the error of the parser, and the
    nodes that come before it in the dump stay imported: they are in the
    registry under their new ids and have been announced. *)
Theorem import_test_node_is_not_atomic {T N : Type} (env : Environment T N)
  (st : Controller) (dump : string) (dump_data : DumpData N)
  (good : list N) (parsed : list MatterNodeData) (bad : N) (rest : list N)
  (e : PyError) :
  json_loads env dump = Some dump_data ->
  dump_nodes_of dump_data = Some (good ++ bad :: rest) ->
  _nodes st <> ∅ ->
  Forall2 (fun d p => dataclass_from_dict env d = Returns p) good parsed ->
  dataclass_from_dict env bad = Raises e ->
  exists st' highest,
    import_test_node env dump st = (Raises e, st')
    /\ (forall k, is_Some (_nodes st !! k) -> k <= highest)
    /\ forall i p, parsed !! i = Some p ->
       exists l,
         _nodes st' !! (highest + 1 + Z.of_nat i) = Some l
         /\ heap st' !! l = Some (with_node_id (highest + 1 + Z.of_nat i) p)
         /\ In (SignalEvent NODE_ADDED (NodeObject l)) (trace st').
Proof.
  intros Hjson Hshape Hne Hgood Hbad.
  destruct (py_max_known_ids st Hne) as (highest & Hmax & _ & Hbound & _).
  destruct (import_nodes_assigns env good parsed Hgood (highest + 1) st)
    as (st' & Hrun & _ & _ & _ & Hidx).
  exists st', highest.
  split; [|split; [exact Hbound | exact Hidx]].
  unfold import_test_node. rewrite Hjson.
  assert (Hloop : (let* ids := gets known_node_ids in
                   let* highest0 :=
                     lift (py_max (ids ++ [TEST_NODE_START])) in
                   import_nodes env (good ++ bad :: rest) (highest0 + 1)) st
                  = (Raises e, st')).
  { unfold bind at 1, gets at 1. unfold bind at 1, lift at 1. rewrite Hmax.
    rewrite import_nodes_app, Hrun. cbn [import_nodes].
    unfold bind at 1, lift at 1. now rewrite Hbad. }
  destruct dump_data as [node|nodes|e']; cbn in Hshape; try discriminate;
    injection Hshape as Hshape; unfold bind at 1, ret at 1;
    rewrite Hshape; exact Hloop.
Qed.

Lemma import_test_node_is_not_atomic_witness :
  exists st' l,
    import_test_node Dumps.env "{}"
      (Fixtures.with_node (Fixtures.node 7 true false []))
    = (Raises KeyError, st')
    /\ _nodes st' !! 900001 = Some l
    /\ In (SignalEvent NODE_ADDED (NodeObject l)) (trace st').
Proof.
  destruct (import_test_node_is_not_atomic Dumps.env
              (Fixtures.with_node (Fixtures.node 7 true false []))
              "{}" _ [Some (Fixtures.node 5 true false [])]
              [Fixtures.node 5 true false []] None [] KeyError
              eq_refl eq_refl ltac:(apply insert_non_empty)
              ltac:(repeat constructor) eq_refl)
    as (st' & highest & Hrun & Hbound & Hidx).
  assert (Hrun' := Hrun). vm_compute in Hrun'.
  destruct (Hidx 0%nat _ eq_refl) as (l & Hl & _ & Hin).
  exists st'. injection Hrun' as <-.
  eexists. split; [exact Hrun|]. vm_compute. split; [reflexivity|].
  now left.
Defined.

(** ** An interview that is retried *)

(** X29.  The first interview is retried.  When, after a successful
    commissioning call, the read of the interview fails with a stack error
    and the next one is answered, [commission_with_code] sleeps 5 seconds
    between the two and goes on as if the first had succeeded: the node is
    stored, set up and returned available, interviewed 5 seconds later. *)
Theorem commission_with_code_retries_the_interview {T N : Type}
  (sdk : ChipDeviceControllerWrapper T) (env : Environment T N)
  (st : Controller) (pairing_code : string) (network_only : bool) (p : nat)
  (result : option PyChipError) (read_response sub : T) (bridge : bool) :
  let new_id := default 0 (storage_last_node_id st) + 1 in
  let discovery :=
    if network_only then DISCOVERY_NETWORK_ONLY else DISCOVERY_ALL in
  new_id < TEST_NODE_START ->
  _nodes st !! new_id = None ->
  new_id ∉ _nodes_in_setup st ->
  _node_setup_throttle st = S p ->
  sdk_commission_with_code sdk (tick st) new_id pairing_code discovery
  = Returns result ->
  commission_succeeded result = true ->
  sdk_read_attribute sdk (S (tick st)) new_id = Raises ChipStackError ->
  sdk_read_attribute sdk (S (S (tick st))) new_id = Returns read_response ->
  let decoded := parse_attributes_from_read_result env read_response in
  decoded <> [] ->
  detect_bridge (dict_update decoded ∅) = Returns bridge ->
  let record :=
    interviewed (DATA_MODEL_SCHEMA_VERSION env) new_id (clock st + 5)
                None decoded bridge in
  sdk_find_or_establish_case_session sdk (S (S (S (tick st)))) new_id
  = Returns tt ->
  sdk_shutdown_subscription sdk (S (S (S (S (tick st))))) new_id
  = Returns tt ->
  sdk_subscribe sdk (S (S (S (S (S (tick st)))))) new_id 0
    (subscription_ceiling (attributes record)) = Returns sub ->
  exists st' node nd,
    commission_with_code sdk env pairing_code network_only st
    = (Returns node, st')
    /\ _nodes st' !! new_id = Some node
    /\ heap st' !! node = Some nd
    /\ available nd = true
    /\ last_interview nd = clock st + 5
    /\ trace st'
       = trace st
         ++ [StorageSetLastNodeId new_id true;
             Sdk (SdkCommissionWithCode new_id pairing_code discovery);
             Sdk (SdkReadAttribute new_id false);
             Sleep 5;
             Sdk (SdkReadAttribute new_id false);
             StorageSetNode (pretty new_id) node true;
             SignalEvent NODE_ADDED (NodeObject node);
             Sdk (SdkFindOrEstablishCaseSession new_id);
             Sdk (SdkShutdownSubscription new_id);
             Sdk (SdkSubscribe new_id 0
                    (subscription_ceiling (attributes record)));
             SignalEvent NODE_UPDATED (NodeObject node)].
Proof.
  intros new_id discovery Hlt Hnew Hfree Hpermit Hcommission Hok Hfails Hread
    decoded Hdecoded Hbridge record Hsession Hshut Hsub.
  unfold commission_with_code.
  unfold bind at 1, _get_next_node_id at 1.
  unfold bind at 1, gets at 1. fold new_id.
  unfold bind at 1, modify at 1. unfold bind at 1, emit at 1, modify at 1.
  unfold ret at 1. fold discovery.
  set (s0 := set_trace _ _).
  unfold bind at 1.
  rewrite (commission_loop_success _ _ _ _ s0 result);
    [| unfold MAX_COMMISSION_RETRIES; lia | exact Hcommission | exact Hok].
  set (s1 := called _ s0).
  set (s2 := slept 5 (called (Sdk (SdkReadAttribute new_id false)) s1)).
  destruct (commissioned_node_is_set_up sdk env 1 (3 - 1)
              (fun e => PyError_eqb NodeNotResolving e
                        || PyError_eqb NodeInterviewFailed e)
              s2 new_id p read_response sub bridge)
    as (st' & node & Hrun & Hnodes & Hfresh & Hheap & Hstored & Htrace);
    try assumption; [lia|].
  exists st', node. eexists.
  split.
  { unfold bind at 1.
    rewrite (interview_loop_retry sdk env 2 _ new_id 3 s1 NodeInterviewFailed
               (called (Sdk (SdkReadAttribute new_id false)) s1));
      [exact Hrun | lia | | reflexivity].
    apply (interview_node_read_fails sdk env new_id s1 ChipStackError Hlt).
    exact Hfails. }
  split; [rewrite Hnodes; apply lookup_insert_eq|].
  split; [exact Hheap|].
  split; [reflexivity|]. split; [reflexivity|].
  rewrite Htrace. subst s2 s1 s0. unfold called, slept. cbn.
  rewrite <- !app_assoc. reflexivity.
Qed.

Lemma commission_with_code_retries_the_interview_witness :
  exists st' node nd,
    commission_with_code
      (Flaky.sdk (Nat.eqb 1) [("0/40/1"%string, VStr "Acme")])
      Fixtures.env "MT:Y.K9042C00KA0648G00" false Fixtures.fresh
    = (Returns node, st')
    /\ heap st' !! node = Some nd
    /\ available nd = true
    /\ last_interview nd = 5.
Proof.
  destruct (commission_with_code_retries_the_interview
              (Flaky.sdk (Nat.eqb 1) [("0/40/1"%string, VStr "Acme")])
              Fixtures.env Fixtures.fresh "MT:Y.K9042C00KA0648G00" false 4
              (Some {| code := 0 |})
              [("0/40/1"%string, VStr "Acme")]
              [("0/40/1"%string, VStr "Acme")] false
              ltac:(reflexivity) eq_refl ltac:(apply not_elem_of_empty)
              eq_refl eq_refl eq_refl eq_refl eq_refl ltac:(discriminate)
              eq_refl eq_refl eq_refl eq_refl)
    as (st' & node & nd & Hrun & _ & Hheap & Hav & Hlast & _).
  exists st', node, nd. auto.
Defined.
